(** * A shallow embedding of [interceptor.c]

    The kernel module keeps, for every system call number, the original
    handler, an [intercepted] flag, a [monitored] mode (0, 1 or 2) and a list
    of pids.  The functions below follow the C source one for one: the
    global [table] and the kernel's [sys_call_table] are passed explicitly,
    a dereference of a NULL pointer is the outcome [Oops], and the oracles
    of the kernel the module consults ([current], [pid_task], [kmalloc])
    are gathered in the record [env]. *)

From Stdlib Require Import ZArith List Bool Lia.
Import ListNotations.
Local Open Scope Z_scope.

(** ** Machine integers and error numbers *)

(** [int] is 32 bits wide; the kernel is built with wrapping signed
    arithmetic, which [wrap_int] writes out. *)
Definition INT_MAX : Z := 2147483647.

Definition wrap_int (z : Z) : Z := (z + 2147483648) mod 4294967296 - 2147483648.

(** The errno values of <asm-generic/errno-base.h>. *)
Definition EPERM : Z := 1.
Definition ENOMEM : Z := 12.
Definition EBUSY : Z := 16.
Definition EINVAL : Z := 22.

Definition pid_t : Type := Z.

(** ** Outcomes: a kernel function returns, or the kernel faults *)

Inductive outcome (A : Type) : Type :=
| Done (a : A)
| Oops.
Arguments Done {A} a.
Arguments Oops {A}.

Definition bind {A B : Type} (m : outcome A) (k : A -> outcome B) : outcome B :=
  match m with
  | Done a => k a
  | Oops => Oops
  end.

Notation "x <- m ;; k" := (bind m (fun x => k))
  (at level 61, m at next level, right associativity).
Notation "' pat <- m ;; k" := (bind m (fun x => match x with pat => k end))
  (at level 61, pat pattern, m at next level, right associativity).

(** ** Data structures and bookkeeping *)

(** Function pointers are symbolic: the handlers the kernel had in its
    table before the module was loaded, the three functions the module
    installs, and NULL. *)
Inductive fptr : Type :=
| NULL
| kernel_fn (nr : Z)
| fn_interceptor
| fn_my_syscall
| fn_my_exit_group.

(** A [struct list_head] used as the head of a pid list.  A head in zeroed
    memory, on which [INIT_LIST_HEAD] never ran, holds two NULL pointers:
    every traversal and every insertion dereferences one of them.  The
    nodes of an initialised list are kept in traversal order
    ([head->next] first). *)
Inductive list_head : Type :=
| Uninit
| Head (pids : list pid_t).

(** [mytable]: one entry per system call. *)
Record mytable : Type := mk_mytable {
  f : fptr;
  intercepted : Z;
  monitored : Z;
  listcount : Z;
  my_list : list_head
}.

(** The state the module reads and writes: the kernel's dispatch table,
    the module's [table] and the two saved handlers.  Both arrays are
    functions of the index: [table] is declared with [NR_syscalls + 1]
    entries, the kernel's [sys_call_table] has [NR_syscalls], and a store
    at index [NR_syscalls] lands in the word that follows it. *)
Record kstate : Type := mk_kstate {
  sys_call_table : Z -> fptr;
  table : Z -> mytable;
  orig_custom_syscall : fptr;
  orig_exit_group : fptr
}.

(** What a call sees of the rest of the kernel: the calling process, its
    effective uid ([current_uid()]), the task lookup
    [pid_task(find_vpid(pid), PIDTYPE_PID)] reduced to the real uid of the
    task it finds ([None] for a NULL result), and whether the next
    [kmalloc] succeeds. *)
Record env : Type := mk_env {
  current_pid : pid_t;
  current_uid : Z;
  pid_task : pid_t -> option Z;
  kmalloc_ok : bool
}.

(** [struct pt_regs], restricted to the registers the module reads. *)
Record pt_regs : Type := mk_regs {
  ax : Z; bx : Z; cx : Z; dx : Z; si : Z; di : Z; bp : Z
}.

(** Array store: [a[i] = v]. *)
Definition upd {A : Type} (a : Z -> A) (i : Z) (v : A) : Z -> A :=
  fun j => if j =? i then v else a j.

Definition set_table (st : kstate) (t : Z -> mytable) : kstate :=
  mk_kstate (sys_call_table st) t (orig_custom_syscall st) (orig_exit_group st).

Definition set_monitored (e : mytable) (m : Z) : mytable :=
  mk_mytable (f e) (intercepted e) m (listcount e) (my_list e).

Definition set_intercepted (e : mytable) (i : Z) : mytable :=
  mk_mytable (f e) i (monitored e) (listcount e) (my_list e).

(** ** List operations *)

(** [add_pid_sysc]: allocate a node, link it right after the head,
    increment the count. *)
Definition add_pid_sysc (ev : env) (pid : pid_t) (sysc : Z)
    (t : Z -> mytable) : outcome (Z * (Z -> mytable)) :=
  if negb (kmalloc_ok ev) then Done (- ENOMEM, t)
  else
    let e := t sysc in
    match my_list e with
    | Uninit => Oops
    | Head l =>
        Done (0, upd t sysc
                   (mk_mytable (f e) (intercepted e) (monitored e)
                      (wrap_int (listcount e + 1)) (Head (pid :: l))))
    end.

(** The traversal of [del_pid_sysc]: the nodes before the first one that
    holds [pid], and the nodes after it. *)
Fixpoint split_first (pid : pid_t) (l : list pid_t)
    : option (list pid_t * list pid_t) :=
  match l with
  | [] => None
  | x :: r =>
      if x =? pid then Some ([], r)
      else match split_first pid r with
           | Some (pre, post) => Some (x :: pre, post)
           | None => None
           end
  end.

(** The bookkeeping both deletion loops do once a node is unlinked. *)
Definition unlink_count (cnt mon : Z) : Z * Z :=
  let cnt' := wrap_int (cnt - 1) in
  (cnt', if (cnt' =? 0) && (mon =? 1) then 0 else mon).

Definition del_pid_sysc (pid : pid_t) (sysc : Z) (t : Z -> mytable)
    : outcome (Z * (Z -> mytable)) :=
  let e := t sysc in
  match my_list e with
  | Uninit => Oops
  | Head l =>
      match split_first pid l with
      | Some (pre, post) =>
          let '(cnt, mon) := unlink_count (listcount e) (monitored e) in
          Done (0, upd t sysc
                     (mk_mytable (f e) (intercepted e) mon cnt
                        (Head (pre ++ post))))
      | None => Done (- EINVAL, t)
      end
  end.

(** The inner loop of [del_pid] over the nodes of one list: every node
    holding [pid] is unlinked, with the bookkeeping done at each one. *)
Fixpoint del_pid_nodes (pid : pid_t) (nodes : list pid_t) (cnt mon ispid : Z)
    : list pid_t * (Z * Z * Z) :=
  match nodes with
  | [] => ([], (cnt, mon, ispid))
  | x :: r =>
      if x =? pid then
        let '(cnt', mon') := unlink_count cnt mon in
        del_pid_nodes pid r cnt' mon' 1
      else
        let '(kept, res) := del_pid_nodes pid r cnt mon ispid in
        (x :: kept, res)
  end.

Definition del_pid_entry (pid : pid_t) (e : mytable) (ispid : Z)
    : outcome (mytable * Z) :=
  match my_list e with
  | Uninit => Oops
  | Head l =>
      let '(kept, (cnt, mon, ispid')) :=
        del_pid_nodes pid l (listcount e) (monitored e) ispid in
      Done (mk_mytable (f e) (intercepted e) mon cnt (Head kept), ispid')
  end.

(** The outer loop of [del_pid]: [n] iterations from [s] on. *)
Fixpoint del_pid_loop (pid : pid_t) (n : nat) (s : Z) (t : Z -> mytable)
    (ispid : Z) : outcome ((Z -> mytable) * Z) :=
  match n with
  | O => Done (t, ispid)
  | S n' =>
      '(e', ispid') <- del_pid_entry pid (t s) ispid ;;
      del_pid_loop pid n' (s + 1) (upd t s e') ispid'
  end.

Definition destroy_list (sysc : Z) (t : Z -> mytable)
    : outcome (Z -> mytable) :=
  let e := t sysc in
  match my_list e with
  | Uninit => Oops
  | Head _ => Done (upd t sysc (mk_mytable (f e) (intercepted e) 0 0 (Head [])))
  end.

(** The test a node passes to stay on a list [del_pid] walks. *)
Definition other_than (pid : pid_t) (x : pid_t) : bool := negb (x =? pid).

Definition check_pid_from_list (ev : env) (pid1 pid2 : pid_t) : outcome Z :=
  match pid_task ev pid1, pid_task ev pid2 with
  | Some uid1, Some uid2 => Done (if uid1 =? uid2 then 0 else - EPERM)
  | _, _ => Oops
  end.

Fixpoint pid_in (pid : pid_t) (l : list pid_t) : bool :=
  match l with
  | [] => false
  | x :: r => if x =? pid then true else pid_in pid r
  end.

Definition check_pid_monitored (sysc : Z) (pid : pid_t) (t : Z -> mytable)
    : outcome Z :=
  match my_list (t sysc) with
  | Uninit => Oops
  | Head l => Done (if pid_in pid l then 1 else 0)
  end.

(** ** The module proper

    [interceptor.h] and the kernel headers fix the constants below; the
    functions are written once for all their values.  [invoke] stands for
    running a handler of the dispatch table on a register set. *)

Section Interceptor.

Variable NR_syscalls : Z.
Variable MY_CUSTOM_SYSCALL : Z.
Variable __NR_exit_group : Z.
Variable REQUEST_SYSCALL_INTERCEPT : Z.
Variable REQUEST_SYSCALL_RELEASE : Z.
Variable REQUEST_START_MONITORING : Z.
Variable REQUEST_STOP_MONITORING : Z.
Variable invoke : fptr -> pt_regs -> Z.

(** [del_pid]: the loop runs over [s = 1 .. NR_syscalls - 1]. *)
Definition del_pid (pid : pid_t) (t : Z -> mytable)
    : outcome (Z * (Z -> mytable)) :=
  '(t', ispid) <- del_pid_loop pid (Z.to_nat (NR_syscalls - 1)) 1 t 0 ;;
  Done (if negb (ispid =? 0) then 0 else -1, t').

(** *** Intercepting exit_group

    [my_exit_group] purges the caller's pid and then calls the saved
    handler, which does not return: the result names the handler called
    and its argument. *)
Definition my_exit_group (ev : env) (status : Z) (st : kstate)
    : outcome (kstate * (fptr * Z)) :=
  '(_, t') <- del_pid (current_pid ev) (table st) ;;
  match orig_exit_group st with
  | NULL => Oops
  | h => Done (set_table st t', (h, status))
  end.

(** *** The generic interceptor *)

(** What [log_message] is given: the pid and the seven registers. *)
Definition log_message (pid : pid_t) (reg : pt_regs) : list Z :=
  [pid; ax reg; bx reg; cx reg; dx reg; si reg; di reg; bp reg].

(** Lines 294-302: between [spin_lock(&calltable_lock)] and
    [spin_unlock(&calltable_lock)] the list is searched. *)
Definition interceptor_locked (ev : env) (reg : pt_regs) (st : kstate)
    : outcome Z :=
  check_pid_monitored (ax reg) (current_pid ev) (table st).

(** Lines 304-309: [monitored] is read, the message is logged or not, and
    the saved handler is called. *)
Definition should_log (mon hasPid : Z) : bool :=
  ((mon =? 2) && (hasPid =? 0)) || ((mon =? 1) && (hasPid =? 1)).

Definition interceptor_unlocked (ev : env) (reg : pt_regs) (hasPid : Z)
    (st : kstate) : outcome (option (list Z) * Z) :=
  let e := table st (ax reg) in
  let logged :=
    if should_log (monitored e) hasPid
    then Some (log_message (current_pid ev) reg) else None in
  match f e with
  | NULL => Oops
  | h => Done (logged, invoke h reg)
  end.

Definition interceptor (ev : env) (reg : pt_regs) (st : kstate)
    : outcome (option (list Z) * Z) :=
  hasPid <- interceptor_locked ev reg st ;;
  interceptor_unlocked ev reg hasPid st.

(** *** The four commands *)

Definition request_syscall_intercept (ev : env) (syscall : Z) (st : kstate)
    : outcome (Z * kstate) :=
  if negb (current_uid ev =? 0) then Done (- EPERM, st)
  else if intercepted (table st syscall) =? 1 then Done (- EBUSY, st)
  else
    Done (0, mk_kstate
               (upd (sys_call_table st) syscall fn_interceptor)
               (upd (table st) syscall (set_intercepted (table st syscall) 1))
               (orig_custom_syscall st) (orig_exit_group st)).

Definition request_syscall_release (ev : env) (syscall : Z) (st : kstate)
    : outcome (Z * kstate) :=
  if negb (current_uid ev =? 0) then Done (- EPERM, st)
  else if intercepted (table st syscall) =? 0 then Done (- EINVAL, st)
  else
    Done (0, mk_kstate
               (upd (sys_call_table st) syscall (f (table st syscall)))
               (upd (table st) syscall (set_intercepted (table st syscall) 0))
               (orig_custom_syscall st) (orig_exit_group st)).

(** The test that opens both monitoring commands:
    [current_uid() != 0 && (pid == 0 || check_pid_from_list(pid, current->pid) != 0)],
    evaluated left to right with C's short circuit. *)
Definition monitoring_denied (ev : env) (pid : pid_t) : outcome bool :=
  if current_uid ev =? 0 then Done false
  else if pid =? 0 then Done true
  else r <- check_pid_from_list ev pid (current_pid ev) ;;
       Done (negb (r =? 0)).

Definition request_start_monitoring (ev : env) (syscall : Z) (pid : pid_t)
    (st : kstate) : outcome (Z * kstate) :=
  denied <- monitoring_denied ev pid ;;
  if denied then Done (- EPERM, st)
  else if pid =? 0 then
    if monitored (table st syscall) =? 2 then Done (- EBUSY, st)
    else
      t' <- destroy_list syscall (table st) ;;
      Done (0, set_table st (upd t' syscall (set_monitored (t' syscall) 2)))
  else if negb (monitored (table st syscall) =? 2) then
    hasPid <- check_pid_monitored syscall pid (table st) ;;
    '(status, t') <- (if negb (hasPid =? 0) then Done (- EBUSY, table st)
                      else add_pid_sysc ev pid syscall (table st)) ;;
    Done (status,
          set_table st
            (if status =? 0
             then upd t' syscall (set_monitored (t' syscall) 1) else t'))
  else
    '(status, t') <- del_pid_sysc pid syscall (table st) ;;
    Done (status, set_table st t').

Definition request_stop_monitoring (ev : env) (syscall : Z) (pid : pid_t)
    (st : kstate) : outcome (Z * kstate) :=
  denied <- monitoring_denied ev pid ;;
  if denied then Done (- EPERM, st)
  else if pid =? 0 then
    if negb (monitored (table st syscall) =? 2) then Done (- EINVAL, st)
    else
      t' <- destroy_list syscall (table st) ;;
      Done (0, set_table st t')
  else if monitored (table st syscall) =? 2 then
    hasPid <- check_pid_monitored syscall pid (table st) ;;
    '(status, t') <- (if negb (hasPid =? 0) then Done (- EBUSY, table st)
                      else add_pid_sysc ev pid syscall (table st)) ;;
    Done (status,
          set_table st
            (if status =? 0
             then upd t' syscall (set_monitored (t' syscall) 1) else t'))
  else
    '(status, t') <- del_pid_sysc pid syscall (table st) ;;
    Done (status, set_table st t').

(** [pid != 0 && !pid_task(find_vpid(pid), PIDTYPE_PID)] *)
Definition pid_invalid (ev : env) (pid : pid_t) : bool :=
  negb (pid =? 0) &&
  match pid_task ev pid with Some _ => false | None => true end.

(** [my_syscall]: the range test, then the [switch] on [cmd]. *)
Definition my_syscall (ev : env) (cmd syscall : Z) (pid : pid_t)
    (st : kstate) : outcome (Z * kstate) :=
  if (syscall <=? 0) || (syscall >? NR_syscalls) then Done (- EINVAL, st)
  else if cmd =? REQUEST_SYSCALL_INTERCEPT then
    request_syscall_intercept ev syscall st
  else if cmd =? REQUEST_SYSCALL_RELEASE then
    request_syscall_release ev syscall st
  else if cmd =? REQUEST_START_MONITORING then
    if pid_invalid ev pid then Done (- EINVAL, st)
    else request_start_monitoring ev syscall pid st
  else if cmd =? REQUEST_STOP_MONITORING then
    if pid_invalid ev pid then Done (- EINVAL, st)
    else request_stop_monitoring ev syscall pid st
  else Done (- EINVAL, st).

(** *** Module initialisation and exit *)

(** The loop of [init_function]: [n] iterations from [syscall] on, each
    filling one entry from the dispatch table as it stands. *)
Fixpoint init_loop (sct : Z -> fptr) (n : nat) (syscall : Z)
    (t : Z -> mytable) : Z -> mytable :=
  match n with
  | O => t
  | S n' =>
      init_loop sct n' (syscall + 1)
        (upd t syscall (mk_mytable (sct syscall) 0 0 0 (Head [])))
  end.

Definition init_function (st : kstate) : Z * kstate :=
  let saved_custom := sys_call_table st MY_CUSTOM_SYSCALL in
  let sct1 := upd (sys_call_table st) MY_CUSTOM_SYSCALL fn_my_syscall in
  let saved_exit := sct1 __NR_exit_group in
  let sct2 := upd sct1 __NR_exit_group fn_my_exit_group in
  (0, mk_kstate sct2
        (init_loop sct2 (Z.to_nat NR_syscalls) 0 (table st))
        saved_custom saved_exit).

(** The dispatch table as [init_function] leaves it: the two hooks
    installed over the table found at start-up. *)
Definition hooked (sct : Z -> fptr) : Z -> fptr :=
  upd (upd sct MY_CUSTOM_SYSCALL fn_my_syscall)
    __NR_exit_group fn_my_exit_group.

Definition exit_function (st : kstate) : kstate :=
  mk_kstate
    (upd (upd (sys_call_table st) MY_CUSTOM_SYSCALL (orig_custom_syscall st))
         __NR_exit_group (orig_exit_group st))
    (table st) (orig_custom_syscall st) (orig_exit_group st).

(** The module's globals live in zeroed memory until [init_function]
    runs: every field of every entry is 0 or NULL. *)
Definition zero_entry : mytable := mk_mytable NULL 0 0 0 Uninit.

Definition boot_state (sct : Z -> fptr) : kstate :=
  mk_kstate sct (fun _ => zero_entry) NULL NULL.

End Interceptor.

(** ** Locking in [interceptor]

    The accesses [interceptor] makes to shared data and the lock
    operations around them, in program order (lines 294-309). *)

Inductive spinlock : Type := calltable_lock | pidlist_lock.

Inductive action : Type :=
| spin_lock (l : spinlock)
| spin_unlock (l : spinlock)
| read_my_list
| read_monitored
| read_f.

Definition interceptor_actions : list action :=
  [ spin_lock calltable_lock;
    spin_lock pidlist_lock;
    read_my_list;
    spin_unlock pidlist_lock;
    spin_unlock calltable_lock;
    read_monitored;
    read_f ].

Definition spinlock_eqb (a b : spinlock) : bool :=
  match a, b with
  | calltable_lock, calltable_lock | pidlist_lock, pidlist_lock => true
  | _, _ => false
  end.

Definition holds (held : list spinlock) (l : spinlock) : bool :=
  existsb (spinlock_eqb l) held.

(** The locks held at each access, for a thread that starts with [held]. *)
Fixpoint locks_at_reads (held : list spinlock) (acts : list action)
    : list (action * list spinlock) :=
  match acts with
  | [] => []
  | spin_lock l :: r => locks_at_reads (l :: held) r
  | spin_unlock l :: r =>
      locks_at_reads (filter (fun h => negb (spinlock_eqb l h)) held) r
  | a :: r => (a, held) :: locks_at_reads held r
  end.

(** An access belongs to the snapshot when both locks are held at it. *)
Definition under_both_locks (p : action * list spinlock) : bool :=
  holds (snd p) calltable_lock && holds (snd p) pidlist_lock.

Section Interleaving.

Variable invoke : fptr -> pt_regs -> Z.

(** Every command holds [calltable_lock] from start to end, so it runs
    either before line 294 or after line 302 of a concurrent
    [interceptor].  [interceptor_interleaved] is the second schedule: the
    list is searched in [st], the command [other] runs, and [monitored]
    and [f] are read in the state it leaves. *)
Definition interceptor_interleaved (ev : env) (reg : pt_regs)
    (other : kstate -> outcome (Z * kstate)) (st : kstate)
    : outcome (option (list Z) * Z) :=
  hasPid <- interceptor_locked ev reg st ;;
  '(_, st') <- other st ;;
  interceptor_unlocked invoke ev reg hasPid st'.

End Interleaving.

(** ** What the specification asks of the range check *)

Section CommandChecks.

Variable NR_syscalls : Z.
Variable MY_CUSTOM_SYSCALL : Z.
Variable REQUEST_SYSCALL_INTERCEPT : Z.
Variable REQUEST_SYSCALL_RELEASE : Z.
Variable REQUEST_START_MONITORING : Z.
Variable REQUEST_STOP_MONITORING : Z.

Local Abbreviation control :=
  (my_syscall NR_syscalls REQUEST_SYSCALL_INTERCEPT REQUEST_SYSCALL_RELEASE
     REQUEST_START_MONITORING REQUEST_STOP_MONITORING).

(** The check the specification asks of [control]: a call with one of the
    four commands and an operation that is out of range, or that is the
    administrative command itself, fails with [EINVAL] and leaves the
    state as it was. *)
Definition rejects_invalid_operation : Prop :=
  forall (ev : env) (cmd syscall : Z) (pid : pid_t) (st : kstate),
    cmd = REQUEST_SYSCALL_INTERCEPT \/ cmd = REQUEST_SYSCALL_RELEASE \/
    cmd = REQUEST_START_MONITORING \/ cmd = REQUEST_STOP_MONITORING ->
    ~ (0 < syscall <= NR_syscalls) \/ syscall = MY_CUSTOM_SYSCALL ->
    control ev cmd syscall pid st = Done (- EINVAL, st).

End CommandChecks.

(** ** Ownership of a pid

    [check_pid_from_list(pid, current->pid)] returns 0 when both tasks
    exist and have the same real uid, [-EPERM] when both exist and their
    real uids differ. *)

Definition owns (ev : env) (pid : pid_t) : Prop :=
  exists uid, pid_task ev pid = Some uid /\
              pid_task ev (current_pid ev) = Some uid.

Definition owned_by_another (ev : env) (pid : pid_t) : Prop :=
  exists uid1 uid2, pid_task ev pid = Some uid1 /\
                    pid_task ev (current_pid ev) = Some uid2 /\
                    uid1 <> uid2.

(** ** States that differ in one entry of [table] *)

(** [st'] is [st] with entry [s] of [table] replaced by [e]. *)
Definition entry_replaced (st st' : kstate) (s : Z) (e : mytable) : Prop :=
  sys_call_table st' = sys_call_table st /\
  orig_custom_syscall st' = orig_custom_syscall st /\
  orig_exit_group st' = orig_exit_group st /\
  table st' s = e /\
  forall j, j <> s -> table st' j = table st j.

(** ** Sequences of list operations *)

Section ListOperations.

Variable NR_syscalls : Z.

(** The four operations that change a pid list; [op_add] carries the
    environment it runs in, which decides whether its [kmalloc] succeeds. *)
Inductive list_op : Type :=
| op_add (ev : env) (pid : pid_t) (sysc : Z)
| op_del (pid : pid_t) (sysc : Z)
| op_del_everywhere (pid : pid_t)
| op_destroy (sysc : Z).

Definition run_op (op : list_op) (t : Z -> mytable)
    : outcome (Z -> mytable) :=
  match op with
  | op_add ev pid sysc => '(_, t') <- add_pid_sysc ev pid sysc t ;; Done t'
  | op_del pid sysc => '(_, t') <- del_pid_sysc pid sysc t ;; Done t'
  | op_del_everywhere pid => '(_, t') <- del_pid NR_syscalls pid t ;; Done t'
  | op_destroy sysc => destroy_list sysc t
  end.

Fixpoint run_ops (ops : list list_op) (t : Z -> mytable)
    : outcome (Z -> mytable) :=
  match ops with
  | [] => Done t
  | op :: rest => t' <- run_op op t ;; run_ops rest t'
  end.

(** The lists an operation walks have been initialised. *)
Definition op_defined (t : Z -> mytable) (op : list_op) : Prop :=
  match op with
  | op_add _ _ sysc | op_del _ sysc | op_destroy sysc =>
      my_list (t sysc) <> Uninit
  | op_del_everywhere _ =>
      forall j, 1 <= j < NR_syscalls -> my_list (t j) <> Uninit
  end.

End ListOperations.

(** [listcount] is the length of [my_list], in every entry that has a
    list. *)
Definition counts_agree (t : Z -> mytable) : Prop :=
  forall s l, my_list (t s) = Head l -> listcount (t s) = Z.of_nat (length l).

(** [counts_agree] with every list at most [k] long. *)
Definition counts_within (k : Z) (t : Z -> mytable) : Prop :=
  forall s l, my_list (t s) = Head l ->
    listcount (t s) = Z.of_nat (length l) /\ Z.of_nat (length l) <= k.

(** ** Page protection of the dispatch table

    [set_addr_rw] and [set_addr_ro] rewrite the page table entry that
    [lookup_address] finds for the address; they are functions of that
    entry's value.  [_PAGE_RW] is a single bit of the entry, [1 << rw_bit];
    on a value that is not negative, [& ~_PAGE_RW] is the same at every
    width of [pteval_t]. *)

Section PageProtection.

Variable rw_bit : Z.

Definition _PAGE_RW : Z := Z.shiftl 1 rw_bit.

(** [if (pte->pte &~ _PAGE_RW) pte->pte |= _PAGE_RW;] *)
Definition set_addr_rw (pte : Z) : Z :=
  if Z.land pte (Z.lnot _PAGE_RW) =? 0 then pte else Z.lor pte _PAGE_RW.

(** [pte->pte = pte->pte &~_PAGE_RW;] *)
Definition set_addr_ro (pte : Z) : Z := Z.land pte (Z.lnot _PAGE_RW).

End PageProtection.

(** ** Runs of the module

    What happens to the module from outside: a process issues the
    administrative system call, or a process exits. *)

Section Runs.

Variable NR_syscalls : Z.
Variable REQUEST_SYSCALL_INTERCEPT : Z.
Variable REQUEST_SYSCALL_RELEASE : Z.
Variable REQUEST_START_MONITORING : Z.
Variable REQUEST_STOP_MONITORING : Z.

Inductive event : Type :=
| ev_syscall (ev : env) (cmd syscall : Z) (pid : pid_t)
| ev_exit (ev : env) (status : Z).

Definition run_event (e : event) (st : kstate) : outcome kstate :=
  match e with
  | ev_syscall ev cmd syscall pid =>
      '(_, st') <- my_syscall NR_syscalls REQUEST_SYSCALL_INTERCEPT
                     REQUEST_SYSCALL_RELEASE REQUEST_START_MONITORING
                     REQUEST_STOP_MONITORING ev cmd syscall pid st ;;
      Done st'
  | ev_exit ev status =>
      '(st', _) <- my_exit_group NR_syscalls ev status st ;;
      Done st'
  end.

Fixpoint run_events (es : list event) (st : kstate) : outcome kstate :=
  match es with
  | [] => Done st
  | e :: rest => st' <- run_event e st ;; run_events rest st'
  end.

(** An event that cannot fault: it does not name the last entry of
    [table], whose list head [init_function] leaves alone, and the caller
    is a task [pid_task] finds. *)
Definition event_safe (e : event) : Prop :=
  match e with
  | ev_syscall ev _ syscall _ =>
      syscall <> NR_syscalls /\ pid_task ev (current_pid ev) <> None
  | ev_exit _ _ => True
  end.

(** An entry as the module keeps it: a duplicate-free list counted by
    [listcount] and at most [k] long, which is empty in modes 0 and 2 and
    not empty in mode 1 (no path adds a pid and leaves mode 2 standing);
    and in the dispatch table the saved handler when [intercepted] is 0,
    [interceptor] when it is 1. *)
Definition entry_ok (k : Z) (slot : fptr) (e : mytable) : Prop :=
  exists l,
    my_list e = Head l /\ NoDup l /\
    listcount e = Z.of_nat (length l) /\ Z.of_nat (length l) <= k /\
    ((monitored e = 0 /\ l = []) \/ (monitored e = 1 /\ l <> []) \/
     (monitored e = 2 /\ l = [])) /\
    ((intercepted e = 0 /\ slot = f e) \/
     (intercepted e = 1 /\ slot = fn_interceptor)).

Definition state_ok (k : Z) (st : kstate) : Prop :=
  orig_exit_group st <> NULL /\
  forall s, 0 <= s < NR_syscalls ->
    entry_ok k (sys_call_table st s) (table st s).

End Runs.

(** ** What a command may return and may touch *)

Definition status_code (r : Z) : Prop :=
  r = 0 \/ r = - EPERM \/ r = - EBUSY \/ r = - EINVAL \/ r = - ENOMEM.

(** [st'] differs from [st] at most in slot [s] of the dispatch table and
    in the flag, the mode, the count and the list of entry [s]. *)
Definition touches_only (s : Z) (st st' : kstate) : Prop :=
  orig_custom_syscall st' = orig_custom_syscall st /\
  orig_exit_group st' = orig_exit_group st /\
  (forall j, j <> s ->
     table st' j = table st j /\ sys_call_table st' j = sys_call_table st j) /\
  (forall j, f (table st' j) = f (table st j)).

(** The dispatch table and every [intercepted] flag are the same in both
    states. *)
Definition same_dispatch (st st' : kstate) : Prop :=
  sys_call_table st' = sys_call_table st /\
  forall j, intercepted (table st' j) = intercepted (table st j).

(** What holds of a state [st'] a command on entry [s] returns with
    status [r]. *)
Definition command_effect (s : Z) (st : kstate) (r : Z) (st' : kstate)
    : Prop :=
  status_code r /\ (r <> 0 -> st' = st) /\ touches_only s st st'.

(** ** A small configuration

    Eight system calls, the administrative command in slot 0 (or, for
    [demo_boot_at], in a slot of one's choice), [exit_group] in slot 4,
    the commands numbered 1 to 4; pid 1 runs as root, pids 42 and 43
    belong to two different users. *)

Definition demo_tasks (p : pid_t) : option Z :=
  if p =? 1 then Some 0
  else if p =? 42 then Some 1000
  else if p =? 43 then Some 1001
  else None.

Definition demo_root : env := mk_env 1 0 demo_tasks true.
Definition demo_user : env := mk_env 42 1000 demo_tasks true.

Definition demo_invoke (h : fptr) (reg : pt_regs) : Z :=
  match h with
  | kernel_fn nr => 100 * nr + bx reg
  | _ => - 1
  end.

Definition demo_regs : pt_regs := mk_regs 5 10 20 30 40 50 60.

Definition demo_control : env -> Z -> Z -> pid_t -> kstate -> outcome (Z * kstate) :=
  my_syscall 8 1 2 3 4.

Definition demo_boot_at (custom : Z) : kstate :=
  snd (init_function 8 custom 4 (boot_state kernel_fn)).

Definition demo_boot : kstate := demo_boot_at 0.

(** The state a list of commands leaves, each given with its caller. *)
Fixpoint demo_run (cmds : list (env * Z * Z * pid_t)) (st : kstate) : kstate :=
  match cmds with
  | [] => st
  | (ev, cmd, syscall, pid) :: rest =>
      match demo_control ev cmd syscall pid st with
      | Done (_, st') => demo_run rest st'
      | Oops => st
      end
  end.

(** Operation 5 intercepted and monitored for all pids. *)
Definition demo_all : kstate :=
  demo_run [(demo_root, 1, 5, 0); (demo_root, 3, 5, 0)] demo_boot.

(** Operation 5 intercepted and monitored for pid 42 only. *)
Definition demo_some : kstate :=
  demo_run [(demo_root, 1, 5, 0); (demo_root, 3, 5, 42)] demo_boot.

(** Operation 5 intercepted. *)
Definition demo_intercepted : kstate :=
  demo_run [(demo_root, 1, 5, 0)] demo_boot.

(** Operation 5 monitored for all pids and not intercepted. *)
Definition demo_monitored : kstate :=
  demo_run [(demo_root, 3, 5, 0)] demo_boot.

(** Operation 5 in mode 2 with pid 42 on its list. *)
Definition demo_excluded : kstate :=
  set_table demo_all
    (upd (table demo_all) 5 (mk_mytable (kernel_fn 5) 1 2 1 (Head [42]))).


(** Pid 42 monitored on operations 3 and 5, pid 43 on operation 3. *)
Definition demo_two_lists : kstate :=
  demo_run [(demo_root, 1, 5, 0); (demo_root, 3, 5, 42);
            (demo_root, 3, 3, 42); (demo_root, 3, 3, 43)] demo_boot.

(** Root intercepts operation 5 and monitors it for all pids, the owner of
    pid 42 stops the monitoring of that pid, the process exits, root
    releases the operation. *)
Definition demo_events : list event :=
  [ ev_syscall demo_root 1 5 0; ev_syscall demo_root 3 5 0;
    ev_syscall demo_user 4 5 42; ev_exit demo_user 0;
    ev_syscall demo_root 2 5 0 ].

(** * Properties *)

(** ** Arrays, states and outcomes *)

Lemma upd_same {A : Type} (a : Z -> A) (i : Z) (v : A) : upd a i v i = v.
Proof. unfold upd. now rewrite Z.eqb_refl. Qed.

Lemma upd_other {A : Type} (a : Z -> A) (i j : Z) (v : A) :
  j <> i -> upd a i v j = a j.
Proof. intros H. unfold upd. now apply Z.eqb_neq in H as ->. Qed.

Lemma wrap_int_small (z : Z) :
  - 2147483648 <= z <= INT_MAX -> wrap_int z = z.
Proof.
  unfold wrap_int, INT_MAX. intros H.
  rewrite Z.mod_small by lia. lia.
Qed.

Lemma pid_in_true (pid : pid_t) (l : list pid_t) :
  pid_in pid l = true <-> In pid l.
Proof.
  induction l as [|x r IH]; simpl.
  - split; [discriminate | tauto].
  - destruct (Z.eqb_spec x pid) as [->|Hne].
    + split; auto.
    + rewrite IH. split; [auto | intros [H|H]; [contradiction | exact H]].
Qed.

Lemma pid_in_false (pid : pid_t) (l : list pid_t) :
  pid_in pid l = false <-> ~ In pid l.
Proof.
  rewrite <- pid_in_true. destruct (pid_in pid l); split; congruence.
Qed.

Section Properties.

Variable NR_syscalls : Z.
Variable MY_CUSTOM_SYSCALL : Z.
Variable __NR_exit_group : Z.
Variable REQUEST_SYSCALL_INTERCEPT : Z.
Variable REQUEST_SYSCALL_RELEASE : Z.
Variable REQUEST_START_MONITORING : Z.
Variable REQUEST_STOP_MONITORING : Z.
Variable invoke : fptr -> pt_regs -> Z.

Local Abbreviation control :=
  (my_syscall NR_syscalls REQUEST_SYSCALL_INTERCEPT REQUEST_SYSCALL_RELEASE
     REQUEST_START_MONITORING REQUEST_STOP_MONITORING).

(** ** The command handler: argument checks *)

(** The range test, which is the only test [my_syscall] makes on the
    identifier: whatever the command, an identifier outside
    [1 .. NR_syscalls] gives [-EINVAL] before any handler runs, and the
    state is the one it was given. *)
Lemma my_syscall_out_of_range
    (ev : env) (cmd syscall : Z) (pid : pid_t) (st : kstate) :
  ~ (0 < syscall <= NR_syscalls) ->
  control ev cmd syscall pid st = Done (- EINVAL, st).
Proof.
  intros Hrange. unfold my_syscall.
  destruct (syscall <=? 0) eqn:Hlo; [reflexivity|].
  destruct (syscall >? NR_syscalls) eqn:Hhi; [reflexivity|].
  apply Z.leb_gt in Hlo. rewrite Z.gtb_ltb in Hhi. apply Z.ltb_ge in Hhi.
  exfalso. apply Hrange. lia.
Qed.

(** C2: [interceptor.h] gives the administrative command its identifier,
    [MY_CUSTOM_SYSCALL].  [my_syscall] is written for an identifier that
    the range test already refuses (slot 0: the test is [syscall <= 0] and
    the loop of [del_pid] starts at 1); for every such value, a call with
    one of the four commands and an identifier that is out of range or is
    the administrative command's own returns [-EINVAL] from the range
    test, before any handler runs, with the state it was given. *)
Theorem my_syscall_rejects_invalid_operation :
  ~ (0 < MY_CUSTOM_SYSCALL <= NR_syscalls) ->
  rejects_invalid_operation NR_syscalls MY_CUSTOM_SYSCALL
    REQUEST_SYSCALL_INTERCEPT REQUEST_SYSCALL_RELEASE
    REQUEST_START_MONITORING REQUEST_STOP_MONITORING.
Proof.
  intros Hadmin ev cmd syscall pid st _ [Hrange|Hself];
    apply my_syscall_out_of_range.
  - exact Hrange.
  - now rewrite Hself.
Qed.

(** An identifier inside the range reaches the handler of the command. *)
Lemma my_syscall_in_range_intercept
    (ev : env) (syscall : Z) (pid : pid_t) (st : kstate) :
  0 < syscall <= NR_syscalls ->
  control ev REQUEST_SYSCALL_INTERCEPT syscall pid st
  = request_syscall_intercept ev syscall st.
Proof.
  intros [Hlo Hhi]. unfold my_syscall.
  replace (syscall <=? 0) with false by (symmetry; apply Z.leb_gt; lia).
  replace (syscall >? NR_syscalls) with false
    by (symmetry; rewrite Z.gtb_ltb; apply Z.ltb_ge; lia).
  simpl. now rewrite Z.eqb_refl.
Qed.

(** C10: a command that is none of the four makes [my_syscall] return
    [-EINVAL] with the state untouched, for every operation identifier and
    every pid. *)
Theorem my_syscall_unknown_command
    (ev : env) (cmd syscall : Z) (pid : pid_t) (st : kstate) :
  cmd <> REQUEST_SYSCALL_INTERCEPT ->
  cmd <> REQUEST_SYSCALL_RELEASE ->
  cmd <> REQUEST_START_MONITORING ->
  cmd <> REQUEST_STOP_MONITORING ->
  control ev cmd syscall pid st = Done (- EINVAL, st).
Proof.
  intros H1 H2 H3 H4. unfold my_syscall.
  apply Z.eqb_neq in H1, H2, H3, H4. rewrite H1, H2, H3, H4.
  now destruct ((syscall <=? 0) || (syscall >? NR_syscalls)).
Qed.

(** ** The permission check of the monitoring commands *)

Lemma monitoring_denied_true (ev : env) (pid : pid_t) :
  current_uid ev <> 0 ->
  pid = 0 \/ owned_by_another ev pid ->
  monitoring_denied ev pid = Done true.
Proof.
  intros Huid Hpid. unfold monitoring_denied.
  apply Z.eqb_neq in Huid. rewrite Huid.
  destruct (Z.eqb_spec pid 0) as [|Hnz]; [reflexivity|].
  destruct Hpid as [|(u1 & u2 & H1 & H2 & Hne)]; [contradiction|].
  unfold check_pid_from_list. rewrite H1, H2. simpl.
  apply Z.eqb_neq in Hne. now rewrite Hne.
Qed.

Lemma monitoring_denied_false (ev : env) (pid : pid_t) :
  monitoring_denied ev pid = Done false <->
  current_uid ev = 0 \/ (pid <> 0 /\ owns ev pid).
Proof.
  unfold monitoring_denied, check_pid_from_list, owns.
  destruct (Z.eqb_spec (current_uid ev) 0) as [Hroot|Huser].
  { split; auto. }
  destruct (Z.eqb_spec pid 0) as [Hz|Hnz].
  { split; [discriminate | intros [|[]]; contradiction]. }
  destruct (pid_task ev pid) as [u1|], (pid_task ev (current_pid ev)) as [u2|];
    simpl; try (split; [discriminate | intros [|[_ (u & Ha & Hb)]];
                         [contradiction | discriminate]]).
  destruct (Z.eqb_spec u1 u2) as [->|Hne]; simpl.
  - split; [|reflexivity]. intros _. right. split; [assumption|]. now exists u2.
  - split; [discriminate|]. intros [|[_ (u & Ha & Hb)]]; [contradiction|].
    congruence.
Qed.

(** C9: an unprivileged caller that asks for all pids ([pid = 0]), or for
    a pid of another owner, gets [-EPERM] from both monitoring commands
    and the state is untouched; and whenever one of them returns anything
    but [-EPERM], the caller is privileged or owns the nonzero pid. *)
Theorem monitoring_permission
    (ev : env) (syscall : Z) (pid : pid_t) (st : kstate) :
  (current_uid ev <> 0 ->
   pid = 0 \/ owned_by_another ev pid ->
   request_start_monitoring ev syscall pid st = Done (- EPERM, st) /\
   request_stop_monitoring ev syscall pid st = Done (- EPERM, st))
  /\
  (forall (r : Z) (st' : kstate),
     request_start_monitoring ev syscall pid st = Done (r, st') \/
     request_stop_monitoring ev syscall pid st = Done (r, st') ->
     r <> - EPERM ->
     current_uid ev = 0 \/ (pid <> 0 /\ owns ev pid)).
Proof.
  split.
  - intros Huid Hpid.
    unfold request_start_monitoring, request_stop_monitoring.
    rewrite (monitoring_denied_true ev pid Huid Hpid). now simpl.
  - intros r st' Hrun Hr. apply monitoring_denied_false.
    unfold request_start_monitoring, request_stop_monitoring in Hrun.
    destruct (monitoring_denied ev pid) as [[|]|]; simpl in Hrun.
    + destruct Hrun as [Hrun|Hrun]; injection Hrun as <- _; contradiction.
    + reflexivity.
    + destruct Hrun; discriminate.
Qed.

(** ** The interceptor, run without interference *)

Lemma should_log_iff (mon : Z) (pid : pid_t) (l : list pid_t) :
  should_log mon (if pid_in pid l then 1 else 0) = true <->
  (mon = 2 /\ ~ In pid l) \/ (mon = 1 /\ In pid l).
Proof.
  unfold should_log. destruct (pid_in pid l) eqn:Hin.
  - apply pid_in_true in Hin. simpl.
    rewrite andb_false_r, andb_true_r. simpl. rewrite Z.eqb_eq. tauto.
  - apply pid_in_false in Hin. simpl.
    rewrite andb_false_r, andb_true_r, orb_false_r. rewrite Z.eqb_eq. tauto.
Qed.

Lemma interceptor_run (ev : env) (reg : pt_regs) (st : kstate)
    (l : list pid_t) :
  my_list (table st (ax reg)) = Head l ->
  f (table st (ax reg)) <> NULL ->
  interceptor invoke ev reg st
  = Done (if should_log (monitored (table st (ax reg)))
               (if pid_in (current_pid ev) l then 1 else 0)
          then Some (log_message (current_pid ev) reg) else None,
          invoke (f (table st (ax reg))) reg).
Proof.
  intros Hl Hf.
  unfold interceptor, interceptor_locked, interceptor_unlocked,
    check_pid_monitored.
  rewrite Hl. simpl.
  destruct (f (table st (ax reg))); [contradiction | reflexivity ..].
Qed.

(** C6: when no command runs in between, [interceptor] emits a log record
    exactly when the mode is 2 (all) and the caller is not on the list, or
    the mode is 1 (some) and the caller is on it; mode 0 never logs; in
    every case the saved handler is called on the registers as they came
    and its result is returned. *)
Theorem interceptor_logs_iff (ev : env) (reg : pt_regs) (st : kstate)
    (l : list pid_t) :
  my_list (table st (ax reg)) = Head l ->
  f (table st (ax reg)) <> NULL ->
  exists logged : option (list Z),
    interceptor invoke ev reg st
    = Done (logged, invoke (f (table st (ax reg))) reg) /\
    (logged = Some (log_message (current_pid ev) reg) \/ logged = None) /\
    (logged <> None <->
     (monitored (table st (ax reg)) = 2 /\ ~ In (current_pid ev) l) \/
     (monitored (table st (ax reg)) = 1 /\ In (current_pid ev) l)) /\
    (monitored (table st (ax reg)) = 0 -> logged = None).
Proof.
  intros Hl Hf. rewrite (interceptor_run ev reg st l Hl Hf).
  eexists. split; [reflexivity|].
  pose proof (should_log_iff (monitored (table st (ax reg)))
                (current_pid ev) l) as Hiff.
  destruct (should_log _ _) eqn:Hlog.
  - split; [now left|]. split.
    + split; [intros _; now apply Hiff | discriminate].
    + intros H0. exfalso. apply proj1 in Hiff.
      destruct (Hiff eq_refl) as [[H _]|[H _]]; lia.
  - split; [now right|]. split.
    + split; [congruence|]. intros H. apply Hiff in H. discriminate.
    + reflexivity.
Qed.

(** ** [request_stop_monitoring] on an operation monitored for all pids *)

Lemma split_first_head (pid : pid_t) (l : list pid_t) :
  split_first pid (pid :: l) = Some ([], l).
Proof. simpl. now rewrite Z.eqb_refl. Qed.

Lemma entry_replaced_upd (st : kstate) (t : Z -> mytable) (s : Z)
    (e : mytable) :
  t s = e ->
  (forall j, j <> s -> t j = table st j) ->
  entry_replaced st (set_table st t) s e.
Proof. intros He Hj. unfold entry_replaced. simpl. auto. Qed.

Lemma stop_monitoring_mode_all_step (ev : env) (syscall : Z) (pid : pid_t)
    (st : kstate) (l : list pid_t) :
  current_uid ev = 0 ->
  pid <> 0 ->
  kmalloc_ok ev = true ->
  monitored (table st syscall) = 2 ->
  my_list (table st syscall) = Head l ->
  ~ In pid l ->
  exists st',
    request_stop_monitoring ev syscall pid st = Done (0, st') /\
    entry_replaced st st' syscall
      (mk_mytable (f (table st syscall)) (intercepted (table st syscall)) 1
         (wrap_int (listcount (table st syscall) + 1)) (Head (pid :: l))).
Proof.
  intros Hroot Hpid Hmem Hmode Hl Hnew.
  unfold request_stop_monitoring, monitoring_denied.
  rewrite Hroot. simpl.
  apply Z.eqb_neq in Hpid. rewrite Hpid, Hmode. simpl.
  unfold check_pid_monitored, add_pid_sysc. rewrite Hl, Hmem.
  apply pid_in_false in Hnew. rewrite Hnew. simpl.
  eexists. split; [reflexivity|].
  apply entry_replaced_upd.
  - unfold set_monitored. now rewrite !upd_same.
  - intros j Hj. now rewrite !upd_other.
Qed.

Lemma stop_monitoring_mode_some_step (ev : env) (syscall : Z) (pid : pid_t)
    (st : kstate) (l : list pid_t) :
  current_uid ev = 0 ->
  pid <> 0 ->
  monitored (table st syscall) <> 2 ->
  my_list (table st syscall) = Head (pid :: l) ->
  exists st',
    request_stop_monitoring ev syscall pid st = Done (0, st') /\
    entry_replaced st st' syscall
      (mk_mytable (f (table st syscall)) (intercepted (table st syscall))
         (snd (unlink_count (listcount (table st syscall))
                 (monitored (table st syscall))))
         (fst (unlink_count (listcount (table st syscall))
                 (monitored (table st syscall))))
         (Head l)).
Proof.
  intros Hroot Hpid Hmode Hl.
  unfold request_stop_monitoring, monitoring_denied.
  rewrite Hroot. simpl.
  apply Z.eqb_neq in Hpid, Hmode. rewrite Hpid, Hmode. simpl.
  unfold del_pid_sysc. rewrite Hl, split_first_head. simpl.
  eexists. split; [reflexivity|].
  apply entry_replaced_upd.
  - now rewrite upd_same.
  - intros j Hj. now rewrite upd_other.
Qed.

(** C1, what the code does: on an operation in mode 2 (all), a privileged
    [request_stop_monitoring] for a nonzero pid that is not listed returns
    0 and lists the pid, but leaves the mode at 1 (some), not 2.  From
    then on a call by that pid is logged, a call by a pid that is not
    listed is not, and the same request once more returns 0 and unlists
    the pid. *)
Theorem stop_monitoring_all_then_again
    (ev : env) (syscall : Z) (pid other : pid_t) (st : kstate)
    (l : list pid_t) (reg : pt_regs) :
  current_uid ev = 0 ->
  pid <> 0 ->
  kmalloc_ok ev = true ->
  monitored (table st syscall) = 2 ->
  my_list (table st syscall) = Head l ->
  ~ In pid l ->
  f (table st syscall) <> NULL ->
  ax reg = syscall ->
  other <> pid -> ~ In other l ->
  exists st' st'',
    request_stop_monitoring ev syscall pid st = Done (0, st') /\
    my_list (table st' syscall) = Head (pid :: l) /\
    monitored (table st' syscall) = 1 /\
    interceptor invoke
      (mk_env pid (current_uid ev) (pid_task ev) (kmalloc_ok ev)) reg st'
    = Done (Some (log_message pid reg), invoke (f (table st syscall)) reg) /\
    interceptor invoke
      (mk_env other (current_uid ev) (pid_task ev) (kmalloc_ok ev)) reg st'
    = Done (None, invoke (f (table st syscall)) reg) /\
    request_stop_monitoring ev syscall pid st' = Done (0, st'') /\
    my_list (table st'' syscall) = Head l.
Proof.
  intros Hroot Hpid Hmem Hmode Hl Hnew Hf Hax Hother Hother_l.
  destruct (stop_monitoring_mode_all_step ev syscall pid st l
              Hroot Hpid Hmem Hmode Hl Hnew)
    as (st' & Hrun & _ & _ & _ & He & _).
  assert (Hl' : my_list (table st' syscall) = Head (pid :: l))
    by now rewrite He.
  assert (Hm' : monitored (table st' syscall) = 1) by now rewrite He.
  assert (Hf' : f (table st' syscall) = f (table st syscall))
    by now rewrite He.
  destruct (stop_monitoring_mode_some_step ev syscall pid st' l
              Hroot Hpid ltac:(rewrite Hm'; lia) Hl')
    as (st'' & Hrun' & _ & _ & _ & He' & _).
  exists st', st''. repeat split; try assumption.
  - subst syscall.
    rewrite (interceptor_run _ reg st' (pid :: l)) by (congruence || assumption).
    rewrite Hm', Hf'. simpl. now rewrite Z.eqb_refl.
  - subst syscall.
    rewrite (interceptor_run _ reg st' (pid :: l)) by (congruence || assumption).
    rewrite Hm', Hf'. simpl.
    apply Z.eqb_neq in Hother. rewrite Z.eqb_sym, Hother.
    apply pid_in_false in Hother_l. now rewrite Hother_l.
  - now rewrite He'.
Qed.

(** ** The interceptor against a concurrent command *)

Lemma start_monitoring_all_step (ev : env) (syscall : Z) (st : kstate)
    (l : list pid_t) :
  current_uid ev = 0 ->
  monitored (table st syscall) <> 2 ->
  my_list (table st syscall) = Head l ->
  exists st',
    request_start_monitoring ev syscall 0 st = Done (0, st') /\
    entry_replaced st st' syscall
      (mk_mytable (f (table st syscall)) (intercepted (table st syscall))
         2 0 (Head [])).
Proof.
  intros Hroot Hmode Hl.
  unfold request_start_monitoring, monitoring_denied.
  rewrite Hroot. simpl.
  apply Z.eqb_neq in Hmode. rewrite Hmode.
  unfold destroy_list. rewrite Hl. simpl.
  eexists. split; [reflexivity|].
  apply entry_replaced_upd.
  - unfold set_monitored. now rewrite !upd_same.
  - intros j Hj. now rewrite !upd_other.
Qed.

(** C3, what the code does: [interceptor] reads [monitored] after it has
    released both locks, so the two reads are no snapshot.  With the
    caller on the list of an operation in mode 1, a privileged
    [request_start_monitoring] for all pids that runs between the two
    reads makes the call go unlogged, although it is logged in the state
    before the command and in the state after it. *)
Theorem interceptor_reads_mode_unlocked
    (caller root : env) (reg : pt_regs) (st : kstate) (l : list pid_t) :
  current_uid root = 0 ->
  monitored (table st (ax reg)) = 1 ->
  my_list (table st (ax reg)) = Head l ->
  In (current_pid caller) l ->
  f (table st (ax reg)) <> NULL ->
  In (read_monitored, []) (locks_at_reads [] interceptor_actions) /\
  forallb under_both_locks (locks_at_reads [] interceptor_actions) = false /\
  exists st',
    request_start_monitoring root (ax reg) 0 st = Done (0, st') /\
    interceptor invoke caller reg st
    = Done (Some (log_message (current_pid caller) reg),
            invoke (f (table st (ax reg))) reg) /\
    interceptor invoke caller reg st'
    = Done (Some (log_message (current_pid caller) reg),
            invoke (f (table st (ax reg))) reg) /\
    interceptor_interleaved invoke caller reg
      (request_start_monitoring root (ax reg) 0) st
    = Done (None, invoke (f (table st (ax reg))) reg).
Proof.
  intros Hroot Hmode Hl Hin Hf.
  split; [simpl; tauto|]. split; [reflexivity|].
  destruct (start_monitoring_all_step root (ax reg) st l Hroot
              ltac:(rewrite Hmode; lia) Hl)
    as (st' & Hrun & _ & _ & _ & He & _).
  exists st'. split; [exact Hrun|].
  apply pid_in_true in Hin.
  assert (Hf' : f (table st' (ax reg)) = f (table st (ax reg)))
    by now rewrite He.
  repeat split.
  - rewrite (interceptor_run caller reg st l Hl Hf), Hmode, Hin.
    reflexivity.
  - rewrite (interceptor_run caller reg st' []);
      [| now rewrite He | now rewrite Hf'].
    rewrite He. reflexivity.
  - unfold interceptor_interleaved, interceptor_locked, check_pid_monitored.
    rewrite Hl, Hin, Hrun. simpl.
    unfold interceptor_unlocked. rewrite He. simpl.
    destruct (f (table st (ax reg))); [contradiction | reflexivity ..].
Qed.

(** ** Start-up, and the round trip of intercept and release *)

Lemma init_loop_entry (sct : Z -> fptr) (n : nat) (s0 : Z)
    (t : Z -> mytable) (j : Z) :
  init_loop sct n s0 t j
  = if (s0 <=? j) && (j <? s0 + Z.of_nat n)
    then mk_mytable (sct j) 0 0 0 (Head []) else t j.
Proof.
  revert s0 t. induction n as [|n IH]; intros s0 t.
  - simpl. destruct (Z.leb_spec s0 j), (Z.ltb_spec j (s0 + 0));
      simpl; reflexivity || lia.
  - cbn [init_loop]. rewrite IH. unfold upd.
    destruct (Z.leb_spec (s0 + 1) j), (Z.ltb_spec j (s0 + 1 + Z.of_nat n)),
      (Z.leb_spec s0 j), (Z.ltb_spec j (s0 + Z.of_nat (S n))),
      (Z.eqb_spec j s0); simpl; subst; reflexivity || lia.
Qed.

Lemma init_function_state (st : kstate) :
  let st0 := snd (init_function NR_syscalls MY_CUSTOM_SYSCALL __NR_exit_group
                    st) in
  sys_call_table st0 = hooked MY_CUSTOM_SYSCALL __NR_exit_group (sys_call_table st) /\
  (forall j, 0 <= j < NR_syscalls ->
     table st0 j = mk_mytable (hooked MY_CUSTOM_SYSCALL __NR_exit_group (sys_call_table st) j) 0 0 0 (Head [])) /\
  (forall j, ~ (0 <= j < NR_syscalls) -> table st0 j = table st j).
Proof.
  simpl. split; [reflexivity|]. split; intros j Hj; rewrite init_loop_entry.
  - replace (0 <=? j) with true by (symmetry; apply Z.leb_le; lia).
    replace (j <? 0 + Z.of_nat (Z.to_nat NR_syscalls)) with true
      by (symmetry; apply Z.ltb_lt; lia).
    reflexivity.
  - destruct (Z.leb_spec 0 j), (Z.ltb_spec j (0 + Z.of_nat (Z.to_nat NR_syscalls)));
      simpl; reflexivity || lia.
Qed.

Lemma intercept_then_release (ev : env) (syscall : Z) (st : kstate) :
  current_uid ev = 0 ->
  intercepted (table st syscall) = 0 ->
  exists st1 st2,
    request_syscall_intercept ev syscall st = Done (0, st1) /\
    sys_call_table st1 syscall = fn_interceptor /\
    request_syscall_release ev syscall st1 = Done (0, st2) /\
    sys_call_table st2 syscall = f (table st syscall).
Proof.
  intros Hroot Hnot.
  unfold request_syscall_intercept. rewrite Hroot, Hnot. simpl.
  eexists. eexists. split; [reflexivity|].
  split; [simpl; now rewrite upd_same|].
  unfold request_syscall_release. rewrite Hroot. simpl.
  rewrite upd_same. simpl. split; [reflexivity|].
  simpl. now rewrite upd_same.
Qed.

Lemma my_syscall_in_range_release
    (ev : env) (syscall : Z) (pid : pid_t) (st : kstate) :
  REQUEST_SYSCALL_RELEASE <> REQUEST_SYSCALL_INTERCEPT ->
  0 < syscall <= NR_syscalls ->
  control ev REQUEST_SYSCALL_RELEASE syscall pid st
  = request_syscall_release ev syscall st.
Proof.
  intros Hcmd [Hlo Hhi]. unfold my_syscall.
  replace (syscall <=? 0) with false by (symmetry; apply Z.leb_gt; lia).
  replace (syscall >? NR_syscalls) with false
    by (symmetry; rewrite Z.gtb_ltb; apply Z.ltb_ge; lia).
  simpl. apply Z.eqb_neq in Hcmd. now rewrite Hcmd, Z.eqb_refl.
Qed.

(** C5, what the code does: after [init_function], a privileged intercept
    of a valid operation followed by its release puts back the handler the
    dispatch table held at start-up for every identifier below
    [NR_syscalls]; for the identifier [NR_syscalls] itself, which
    [my_syscall] accepts, no handler was saved and the release stores
    NULL. *)
Theorem intercept_release_after_init
    (ev : env) (sct : Z -> fptr) (syscall : Z) :
  REQUEST_SYSCALL_RELEASE <> REQUEST_SYSCALL_INTERCEPT ->
  current_uid ev = 0 ->
  0 < syscall <= NR_syscalls ->
  let st0 := snd (init_function NR_syscalls MY_CUSTOM_SYSCALL __NR_exit_group
                    (boot_state sct)) in
  exists st1 st2,
    control ev REQUEST_SYSCALL_INTERCEPT syscall 0 st0 = Done (0, st1) /\
    sys_call_table st1 syscall = fn_interceptor /\
    control ev REQUEST_SYSCALL_RELEASE syscall 0 st1 = Done (0, st2) /\
    sys_call_table st2 syscall
    = if syscall <? NR_syscalls then sys_call_table st0 syscall else NULL.
Proof.
  intros Hcmd Hroot Hrange st0.
  destruct (init_function_state (boot_state sct)) as (Hsct & Hin & Hout).
  fold st0 in Hsct, Hin, Hout.
  assert (Hnot : intercepted (table st0 syscall) = 0).
  { destruct (Z.ltb_spec syscall NR_syscalls).
    - now rewrite Hin by lia.
    - now rewrite Hout by lia. }
  destruct (intercept_then_release ev syscall st0 Hroot Hnot)
    as (st1 & st2 & H1 & H2 & H3 & H4).
  exists st1, st2.
  rewrite my_syscall_in_range_intercept by exact Hrange.
  rewrite my_syscall_in_range_release by assumption.
  repeat split; try assumption.
  rewrite H4. destruct (Z.ltb_spec syscall NR_syscalls).
  - rewrite Hin by lia. now rewrite Hsct.
  - now rewrite Hout by lia.
Qed.

(** ** Deleting a pid from the lists *)

Lemma del_pid_nodes_kept (pid : pid_t) (l : list pid_t) (cnt mon ispid : Z) :
  fst (del_pid_nodes pid l cnt mon ispid) = filter (other_than pid) l.
Proof.
  revert cnt mon ispid. induction l as [|x r IH]; intros cnt mon ispid.
  - reflexivity.
  - simpl. unfold other_than at 1. destruct (x =? pid); simpl.
    + destruct (unlink_count cnt mon) as [cnt' mon']. apply IH.
    + specialize (IH cnt mon ispid).
      destruct (del_pid_nodes pid r cnt mon ispid) as [kept res].
      simpl in *. now rewrite IH.
Qed.

Lemma filter_other_than_absent (pid : pid_t) (l : list pid_t) :
  ~ In pid (filter (other_than pid) l).
Proof.
  intros H. apply filter_In in H as [_ H].
  unfold other_than in H. now rewrite Z.eqb_refl in H.
Qed.

(** The mode leaves a deletion loop as it entered it, or it entered as 1
    and leaves as 0. *)
Lemma del_pid_nodes_mode (pid : pid_t) (l : list pid_t) (cnt mon ispid : Z) :
  let mon' := snd (fst (snd (del_pid_nodes pid l cnt mon ispid))) in
  mon' = mon \/ (mon = 1 /\ mon' = 0).
Proof.
  revert cnt mon ispid. induction l as [|x r IH]; intros cnt mon ispid.
  - now left.
  - simpl. destruct (x =? pid).
    + unfold unlink_count.
      specialize (IH (wrap_int (cnt - 1))
                     (if (wrap_int (cnt - 1) =? 0) && (mon =? 1)
                      then 0 else mon) 1).
      simpl in IH.
      destruct ((wrap_int (cnt - 1) =? 0) && (mon =? 1)) eqn:Hz.
      * apply andb_true_iff in Hz as [_ Hm]. apply Z.eqb_eq in Hm.
        destruct IH as [->|[Habs _]]; [now right | discriminate].
      * exact IH.
    + specialize (IH cnt mon ispid). simpl in IH.
      now destruct (del_pid_nodes pid r cnt mon ispid) as [kept [[c m] i]].
Qed.

(** With a count that covers the list, the loop subtracts the number of
    nodes it unlinks, and resets mode 1 exactly when the count ends at 0
    after at least one node went. *)
Lemma del_pid_nodes_counts (pid : pid_t) (l : list pid_t) (cnt mon ispid : Z) :
  Z.of_nat (length l) <= cnt <= INT_MAX ->
  forall m : Z,
    m = Z.of_nat (length l) - Z.of_nat (length (filter (other_than pid) l)) ->
    del_pid_nodes pid l cnt mon ispid
    = (filter (other_than pid) l,
       (cnt - m,
        if (cnt - m =? 0) && (0 <? m) && (mon =? 1) then 0 else mon,
        if 0 <? m then 1 else ispid)).
Proof.
  revert cnt mon ispid. induction l as [|x r IH]; intros cnt mon ispid Hcnt m Hm.
  - simpl in *. subst m. rewrite Z.sub_0_r, andb_false_r. reflexivity.
  - pose proof (filter_length_le (other_than pid) r) as Hle.
    cbn [del_pid_nodes filter length] in *. unfold other_than at 1 in Hm.
    unfold other_than at 1.
    destruct (x =? pid) eqn:Hx; cbn [negb] in *.
    + unfold unlink_count.
      rewrite wrap_int_small by (unfold INT_MAX in *; lia).
      rewrite IH with (m := m - 1) by lia.
      replace (cnt - 1 - (m - 1)) with (cnt - m) by lia.
      assert (Hm1 : 0 < m) by lia. assert (Hm0 : 0 <= m - 1) by lia.
      apply Z.ltb_lt in Hm1 as Hm1b. rewrite Hm1b, andb_true_r.
      f_equal. f_equal; [f_equal|].
      * destruct (Z.eqb_spec (cnt - 1) 0) as [H0|H0],
          (Z.eqb_spec mon 1) as [H1|H1]; cbn [andb].
        -- replace (0 <? m - 1) with false by (symmetry; apply Z.ltb_ge; lia).
           rewrite andb_false_r. replace (cnt - m) with 0 by lia.
           now subst mon.
        -- apply Z.eqb_neq in H1. rewrite H1, !andb_false_r. reflexivity.
        -- subst mon. cbn [Z.eqb Pos.eqb]. rewrite andb_true_r.
           destruct (Z.eqb_spec (cnt - m) 0) as [H2|H2]; cbn [andb];
             [|reflexivity].
           replace (0 <? m - 1) with true by (symmetry; apply Z.ltb_lt; lia).
           reflexivity.
        -- apply Z.eqb_neq in H1. rewrite H1, !andb_false_r. reflexivity.
      * now destruct (0 <? m - 1).
    + cbn [length] in *.
      specialize (IH cnt mon ispid ltac:(lia) m ltac:(lia)).
      rewrite IH. reflexivity.
Qed.

Lemma del_pid_entry_defined (pid : pid_t) (e : mytable) (ispid : Z) :
  my_list e <> Uninit ->
  exists e' ispid', del_pid_entry pid e ispid = Done (e', ispid').
Proof.
  intros Hl. unfold del_pid_entry.
  destruct (my_list e) as [|l]; [contradiction|].
  destruct (del_pid_nodes pid l (listcount e) (monitored e) ispid)
    as [kept [[cnt mon] i]].
  eauto.
Qed.

Lemma del_pid_entry_list (pid : pid_t) (e e' : mytable) (i i' : Z) :
  del_pid_entry pid e i = Done (e', i') ->
  exists l, my_list e = Head l /\
            my_list e' = Head (filter (other_than pid) l) /\
            f e' = f e /\ intercepted e' = intercepted e.
Proof.
  unfold del_pid_entry. destruct (my_list e) as [|l]; [discriminate|].
  pose proof (del_pid_nodes_kept pid l (listcount e) (monitored e) i) as Hk.
  destruct (del_pid_nodes pid l (listcount e) (monitored e) i)
    as [kept [[cnt mon] i'']].
  intros H. injection H as <- <-. simpl in *. subst kept. eauto.
Qed.

(** The outer loop visits the entries [s .. s + n - 1] and no other. *)
Lemma del_pid_loop_entries (pid : pid_t) (n : nat) (s : Z)
    (t : Z -> mytable) (i : Z) :
  (forall j, s <= j < s + Z.of_nat n -> my_list (t j) <> Uninit) ->
  exists t' i',
    del_pid_loop pid n s t i = Done (t', i') /\
    (forall j, s <= j < s + Z.of_nat n ->
       exists i0 i1, del_pid_entry pid (t j) i0 = Done (t' j, i1)) /\
    (forall j, ~ (s <= j < s + Z.of_nat n) -> t' j = t j).
Proof.
  revert s t i. induction n as [|n IH]; intros s t i Hinit.
  - exists t, i. split; [reflexivity|]. split; [intros j Hj; lia | reflexivity].
  - cbn [del_pid_loop].
    destruct (del_pid_entry_defined pid (t s) i (Hinit s ltac:(lia)))
      as (e' & i1 & He).
    rewrite He. cbn [bind].
    destruct (IH (s + 1) (upd t s e') i1) as (t' & i' & Hrun & Hin & Hout).
    { intros j Hj. rewrite upd_other by lia. apply Hinit. lia. }
    exists t', i'. split; [exact Hrun|]. split.
    + intros j Hj. destruct (Z.eq_dec j s) as [->|Hne].
      * rewrite Hout by lia. rewrite upd_same. eauto.
      * destruct (Hin j ltac:(lia)) as (i0 & i2 & Hj').
        rewrite upd_other in Hj' by exact Hne. eauto.
    + intros j Hj. rewrite Hout by lia. apply upd_other. lia.
Qed.

Lemma del_pid_entries (pid : pid_t) (t : Z -> mytable) :
  (forall j, 1 <= j < NR_syscalls -> my_list (t j) <> Uninit) ->
  exists r t',
    del_pid NR_syscalls pid t = Done (r, t') /\
    (forall j, 1 <= j < NR_syscalls ->
       exists i0 i1, del_pid_entry pid (t j) i0 = Done (t' j, i1)) /\
    (forall j, ~ (1 <= j < NR_syscalls) -> t' j = t j).
Proof.
  intros Hinit. unfold del_pid.
  destruct (del_pid_loop_entries pid (Z.to_nat (NR_syscalls - 1)) 1 t 0)
    as (t' & i' & Hrun & Hin & Hout).
  { intros j Hj. apply Hinit. lia. }
  rewrite Hrun. cbn [bind]. eexists. exists t'.
  split; [reflexivity|]. split.
  - intros j Hj. apply Hin. lia.
  - intros j Hj. apply Hout. lia.
Qed.

(** ** Deleting one node *)

Lemma split_first_some (pid : pid_t) (l pre post : list pid_t) :
  split_first pid l = Some (pre, post) -> l = pre ++ pid :: post.
Proof.
  revert pre post. induction l as [|x r IH]; intros pre post; simpl.
  - discriminate.
  - destruct (Z.eqb_spec x pid) as [->|Hne].
    + intros H. now injection H as <- <-.
    + destruct (split_first pid r) as [[pre' post']|]; [|discriminate].
      intros H. injection H as <- <-. simpl. f_equal. now apply IH.
Qed.

Lemma split_first_none (pid : pid_t) (l : list pid_t) :
  split_first pid l = None -> ~ In pid l.
Proof.
  induction l as [|x r IH]; simpl; [tauto|].
  destruct (Z.eqb_spec x pid) as [->|Hne]; [discriminate|].
  destruct (split_first pid r) as [[pre post]|]; [discriminate|].
  intros _ [H|H]; [contradiction | now apply IH].
Qed.

(** What [del_pid_sysc] returns on an initialised list. *)
Lemma del_pid_sysc_cases (pid : pid_t) (s : Z) (t : Z -> mytable)
    (l : list pid_t) :
  my_list (t s) = Head l ->
  (exists pre post t',
     l = pre ++ pid :: post /\
     del_pid_sysc pid s t = Done (0, t') /\
     t' s = mk_mytable (f (t s)) (intercepted (t s))
              (snd (unlink_count (listcount (t s)) (monitored (t s))))
              (fst (unlink_count (listcount (t s)) (monitored (t s))))
              (Head (pre ++ post)) /\
     forall j, j <> s -> t' j = t j)
  \/
  (~ In pid l /\ del_pid_sysc pid s t = Done (- EINVAL, t)).
Proof.
  intros Hl. unfold del_pid_sysc. rewrite Hl.
  destruct (split_first pid l) as [[pre post]|] eqn:Hsplit.
  - left. exists pre, post. eexists.
    split; [now apply split_first_some|]. simpl.
    split; [reflexivity|]. split.
    + now rewrite upd_same.
    + intros j Hj. now rewrite upd_other.
  - right. split; [now apply split_first_none | reflexivity].
Qed.

Lemma unlink_count_last (mon : Z) :
  unlink_count 1 mon = (0, if mon =? 1 then 0 else mon).
Proof. reflexivity. Qed.

(** ** The count and the length of a list *)

Lemma add_pid_sysc_counts (ev : env) (pid : pid_t) (s : Z)
    (t : Z -> mytable) (k : Z) :
  counts_within k t -> k + 1 <= INT_MAX ->
  my_list (t s) <> Uninit ->
  exists r t',
    add_pid_sysc ev pid s t = Done (r, t') /\
    counts_within (k + 1) t' /\
    (forall j, my_list (t' j) = Uninit <-> my_list (t j) = Uninit).
Proof.
  intros Hinv Hk Hdef. unfold add_pid_sysc.
  destruct (negb (kmalloc_ok ev)).
  - exists (- ENOMEM), t. split; [reflexivity|]. split; [|tauto].
    intros j l Hl. destruct (Hinv j l Hl). split; lia.
  - destruct (my_list (t s)) as [|l] eqn:Hl; [contradiction|].
    eexists. eexists. split; [reflexivity|].
    destruct (Hinv s l Hl) as [Hc Hlen]. split.
    + intros j l' Hl'. unfold upd in *.
      destruct (Z.eqb_spec j s) as [->|Hne].
      * simpl in *. injection Hl' as <-. rewrite Hc. cbn [length].
        rewrite wrap_int_small by (unfold INT_MAX in *; lia).
        split; lia.
      * destruct (Hinv j l' Hl'). split; lia.
    + intros j. unfold upd. destruct (Z.eqb_spec j s) as [->|Hne];
        [|tauto].
      simpl. rewrite Hl. split; discriminate.
Qed.

Lemma del_pid_sysc_counts (pid : pid_t) (s : Z) (t : Z -> mytable) (k : Z) :
  counts_within k t -> k <= INT_MAX ->
  my_list (t s) <> Uninit ->
  exists r t',
    del_pid_sysc pid s t = Done (r, t') /\
    counts_within k t' /\
    (forall j, my_list (t' j) = Uninit <-> my_list (t j) = Uninit).
Proof.
  intros Hinv Hk Hdef.
  destruct (my_list (t s)) as [|l] eqn:Hl; [contradiction|].
  destruct (del_pid_sysc_cases pid s t l Hl)
    as [(pre & post & t' & Hsplit & Hrun & He & Hrest)|[_ Hrun]].
  - exists 0, t'. split; [exact Hrun|].
    destruct (Hinv s l Hl) as [Hc Hlen].
    assert (Hlen' : Z.of_nat (length l) = Z.of_nat (length (pre ++ post)) + 1).
    { subst l. rewrite !length_app. cbn [length]. lia. }
    split.
    + intros j l' Hl'. destruct (Z.eq_dec j s) as [->|Hne].
      * rewrite He in Hl' |- *. cbn [my_list listcount] in *.
        injection Hl' as <-. unfold unlink_count. cbn [fst].
        rewrite wrap_int_small by (unfold INT_MAX in *; lia).
        split; lia.
      * rewrite Hrest in Hl' |- * by exact Hne. now apply Hinv.
    + intros j. destruct (Z.eq_dec j s) as [->|Hne].
      * rewrite He, Hl. simpl. split; discriminate.
      * now rewrite Hrest.
  - exists (- EINVAL), t. split; [exact Hrun|]. split; [exact Hinv | tauto].
Qed.

Lemma del_pid_counts (pid : pid_t) (t : Z -> mytable) (k : Z) :
  counts_within k t -> k <= INT_MAX ->
  (forall j, 1 <= j < NR_syscalls -> my_list (t j) <> Uninit) ->
  exists r t',
    del_pid NR_syscalls pid t = Done (r, t') /\
    counts_within k t' /\
    (forall j, my_list (t' j) = Uninit <-> my_list (t j) = Uninit).
Proof.
  intros Hinv Hk Hdef.
  destruct (del_pid_entries pid t Hdef) as (r & t' & Hrun & Hin & Hout).
  exists r, t'. split; [exact Hrun|].
  assert (Hcase : forall j, 1 <= j < NR_syscalls \/ ~ (1 <= j < NR_syscalls))
    by (intros j; lia).
  split.
  - intros j l' Hl'. destruct (Hcase j) as [Hj|Hj].
    + destruct (Hin j Hj) as (i0 & i1 & He).
      unfold del_pid_entry in He.
      destruct (my_list (t j)) as [|l] eqn:Hl; [discriminate|].
      destruct (Hinv j l Hl) as [Hc Hlen].
      rewrite (del_pid_nodes_counts pid l (listcount (t j)) (monitored (t j))
                 i0 ltac:(lia) _ eq_refl) in He.
      injection He as He _. rewrite <- He in Hl' |- *.
      cbn [my_list listcount] in *. injection Hl' as <-.
      pose proof (filter_length_le (other_than pid) l). split; lia.
    + rewrite Hout in Hl' |- * by exact Hj. now apply Hinv.
  - intros j. destruct (Hcase j) as [Hj|Hj].
    + destruct (Hin j Hj) as (i0 & i1 & He).
      apply del_pid_entry_list in He as (l & Hl & Hl' & _).
      rewrite Hl, Hl'. split; discriminate.
    + now rewrite Hout.
Qed.

Lemma destroy_list_counts (s : Z) (t : Z -> mytable) (k : Z) :
  counts_within k t ->
  my_list (t s) <> Uninit ->
  exists t',
    destroy_list s t = Done t' /\
    counts_within k t' /\
    (forall j, my_list (t' j) = Uninit <-> my_list (t j) = Uninit).
Proof.
  intros Hinv Hdef. unfold destroy_list.
  destruct (my_list (t s)) as [|l] eqn:Hl; [contradiction|].
  destruct (Hinv s l Hl) as [_ Hk].
  eexists. split; [reflexivity|]. split.
  - intros j l' Hl'. unfold upd in *.
    destruct (Z.eqb_spec j s) as [->|Hne].
    + simpl in *. injection Hl' as <-. simpl. split; lia.
    + now apply Hinv.
  - intros j. unfold upd. destruct (Z.eqb_spec j s) as [->|Hne]; [|tauto].
    simpl. rewrite Hl. split; discriminate.
Qed.

Lemma counts_within_weaken (k k' : Z) (t : Z -> mytable) :
  counts_within k t -> k <= k' -> counts_within k' t.
Proof.
  intros Hinv Hk s l Hl. destruct (Hinv s l Hl). split; lia.
Qed.

Lemma run_op_counts (op : list_op) (t : Z -> mytable) (k : Z) :
  counts_within k t -> k + 1 <= INT_MAX ->
  op_defined NR_syscalls t op ->
  exists t',
    run_op NR_syscalls op t = Done t' /\
    counts_within (k + 1) t' /\
    (forall j, my_list (t' j) = Uninit <-> my_list (t j) = Uninit).
Proof.
  intros Hinv Hk Hdef. destruct op as [ev pid s|pid s|pid|s]; simpl in *.
  - destruct (add_pid_sysc_counts ev pid s t k Hinv Hk Hdef)
      as (r & t' & -> & H1 & H2).
    exists t'. simpl. auto.
  - destruct (del_pid_sysc_counts pid s t k Hinv ltac:(lia) Hdef)
      as (r & t' & -> & H1 & H2).
    exists t'. simpl. split; [reflexivity|].
    split; [|exact H2]. apply (counts_within_weaken k); [exact H1 | lia].
  - destruct (del_pid_counts pid t k Hinv ltac:(lia) Hdef)
      as (r & t' & -> & H1 & H2).
    exists t'. simpl. split; [reflexivity|].
    split; [|exact H2]. apply (counts_within_weaken k); [exact H1 | lia].
  - destruct (destroy_list_counts s t k Hinv Hdef) as (t' & -> & H1 & H2).
    exists t'. split; [reflexivity|].
    split; [|exact H2]. apply (counts_within_weaken k); [exact H1 | lia].
Qed.

Lemma op_defined_same_lists (t t' : Z -> mytable) (op : list_op) :
  (forall j, my_list (t' j) = Uninit <-> my_list (t j) = Uninit) ->
  op_defined NR_syscalls t op -> op_defined NR_syscalls t' op.
Proof.
  intros Hsame. destruct op; simpl; try (rewrite Hsame; tauto).
  intros H j Hj. rewrite Hsame. now apply H.
Qed.

Lemma run_ops_counts (ops : list list_op) (t : Z -> mytable) (k : Z) :
  counts_within k t ->
  k + Z.of_nat (length ops) <= INT_MAX ->
  Forall (op_defined NR_syscalls t) ops ->
  exists t',
    run_ops NR_syscalls ops t = Done t' /\
    counts_within (k + Z.of_nat (length ops)) t'.
Proof.
  revert t k. induction ops as [|op rest IH]; intros t k Hinv Hk Hdef.
  - exists t. split; [reflexivity|]. simpl. now rewrite Z.add_0_r.
  - cbn [length] in Hk. inversion Hdef as [|? ? Hop Hrest]; subst.
    destruct (run_op_counts op t k Hinv ltac:(lia) Hop)
      as (t1 & Hrun & Hinv1 & Hsame).
    destruct (IH t1 (k + 1) Hinv1 ltac:(lia)) as (t' & Hrun' & Hinv').
    { eapply Forall_impl; [|exact Hrest].
      intros o. now apply op_defined_same_lists. }
    exists t'. cbn [run_ops]. rewrite Hrun. cbn [bind].
    split; [exact Hrun'|].
    cbn [length]. replace (k + Z.of_nat (S (length rest)))
      with (k + 1 + Z.of_nat (length rest)) by lia.
    exact Hinv'.
Qed.

(** At start-up the invariant holds with every list empty. *)
Lemma init_function_counts (sct : Z -> fptr) :
  counts_within 0
    (table (snd (init_function NR_syscalls MY_CUSTOM_SYSCALL __NR_exit_group
                   (boot_state sct)))).
Proof.
  destruct (init_function_state (boot_state sct)) as (_ & Hin & Hout).
  intros s l Hl.
  assert (Hcase : 0 <= s < NR_syscalls \/ ~ (0 <= s < NR_syscalls)) by lia.
  destruct Hcase as [Hs|Hs].
  - rewrite Hin in Hl |- * by exact Hs. simpl in *.
    injection Hl as <-. simpl. split; lia.
  - rewrite Hout in Hl by exact Hs. discriminate.
Qed.

(** C8: from a table in which every count is the length of its list, any
    sequence of [add_pid_sysc], [del_pid_sysc], [del_pid] and
    [destroy_list] on initialised lists runs to the end and leaves every
    count equal to the length of its list; [k] bounds the lists at the
    start, and the sequence is short enough for no list to outgrow what
    an [int] counts. *)
Theorem listcount_is_length
    (ops : list list_op) (t : Z -> mytable) (k : Z) :
  counts_agree t ->
  (forall s l, my_list (t s) = Head l -> Z.of_nat (length l) <= k) ->
  k + Z.of_nat (length ops) <= INT_MAX ->
  Forall (op_defined NR_syscalls t) ops ->
  exists t', run_ops NR_syscalls ops t = Done t' /\ counts_agree t'.
Proof.
  intros Hagree Hbound Hk Hdef.
  destruct (run_ops_counts ops t k) as (t' & Hrun & Hinv); try assumption.
  - intros s l Hl. split; [now apply Hagree | now apply (Hbound s)].
  - exists t'. split; [exact Hrun|].
    intros s l Hl. now apply Hinv.
Qed.

End Properties.

(** * The theorems at work on the small configuration *)

Lemma my_syscall_rejects_invalid_operation_witness :
  rejects_invalid_operation 8 0 1 2 3 4.
Proof.
  apply (my_syscall_rejects_invalid_operation 8 0 1 2 3 4). lia.
Defined.

(** The condition on the header's value is needed: were the
    administrative command in slot 5 of 8, a privileged intercept of
    operation 5 would be carried out, since [my_syscall] never compares
    the identifier with [MY_CUSTOM_SYSCALL]. *)
Lemma admin_id_in_range_is_dispatched :
  ~ rejects_invalid_operation 8 5 1 2 3 4.
Proof.
  intros H.
  specialize (H demo_root 1 5 0 (demo_boot_at 5)
                (or_introl eq_refl) (or_intror eq_refl)).
  vm_compute in H. discriminate H.
Qed.

Lemma my_syscall_unknown_command_witness :
  demo_control demo_user 9 5 42 demo_all = Done (- EINVAL, demo_all).
Proof.
  apply (my_syscall_unknown_command 8 1 2 3 4 demo_user 9 5 42 demo_all); lia.
Defined.

Lemma monitoring_permission_witness :
  (request_start_monitoring demo_user 5 0 demo_all = Done (- EPERM, demo_all) /\
   request_stop_monitoring demo_user 5 0 demo_all = Done (- EPERM, demo_all)) /\
  (request_start_monitoring demo_user 5 43 demo_all = Done (- EPERM, demo_all) /\
   request_stop_monitoring demo_user 5 43 demo_all = Done (- EPERM, demo_all)).
Proof.
  split.
  - apply (proj1 (monitoring_permission demo_user 5 0 demo_all)).
    + simpl. lia.
    + now left.
  - apply (proj1 (monitoring_permission demo_user 5 43 demo_all)).
    + simpl. lia.
    + right. exists 1001, 1000. repeat split; [reflexivity .. | lia].
Defined.

Lemma interceptor_logs_iff_witness :
  exists logged : option (list Z),
    interceptor demo_invoke demo_user demo_regs demo_all
    = Done (logged, demo_invoke (f (table demo_all 5)) demo_regs) /\
    (logged = Some (log_message 42 demo_regs) \/ logged = None) /\
    (logged <> None <->
     (monitored (table demo_all 5) = 2 /\ ~ In 42 []) \/
     (monitored (table demo_all 5) = 1 /\ In 42 [])) /\
    (monitored (table demo_all 5) = 0 -> logged = None).
Proof.
  apply (interceptor_logs_iff demo_invoke demo_user demo_regs demo_all []).
  - reflexivity.
  - vm_compute. discriminate.
Defined.

Lemma stop_monitoring_all_then_again_witness :
  exists st' st'',
    request_stop_monitoring demo_root 5 42 demo_all = Done (0, st') /\
    my_list (table st' 5) = Head [42] /\
    monitored (table st' 5) = 1 /\
    interceptor demo_invoke (mk_env 42 0 demo_tasks true) demo_regs st'
    = Done (Some (log_message 42 demo_regs),
            demo_invoke (f (table demo_all 5)) demo_regs) /\
    interceptor demo_invoke (mk_env 43 0 demo_tasks true) demo_regs st'
    = Done (None, demo_invoke (f (table demo_all 5)) demo_regs) /\
    request_stop_monitoring demo_root 5 42 st' = Done (0, st'') /\
    my_list (table st'' 5) = Head [].
Proof.
  apply (stop_monitoring_all_then_again demo_invoke demo_root 5 42 43
           demo_all [] demo_regs).
  - reflexivity.
  - lia.
  - reflexivity.
  - reflexivity.
  - reflexivity.
  - simpl. tauto.
  - vm_compute. discriminate.
  - reflexivity.
  - lia.
  - simpl. tauto.
Defined.

Lemma interceptor_reads_mode_unlocked_witness :
  In (read_monitored, []) (locks_at_reads [] interceptor_actions) /\
  forallb under_both_locks (locks_at_reads [] interceptor_actions) = false /\
  exists st',
    request_start_monitoring demo_root 5 0 demo_some = Done (0, st') /\
    interceptor demo_invoke demo_user demo_regs demo_some
    = Done (Some (log_message 42 demo_regs),
            demo_invoke (f (table demo_some 5)) demo_regs) /\
    interceptor demo_invoke demo_user demo_regs st'
    = Done (Some (log_message 42 demo_regs),
            demo_invoke (f (table demo_some 5)) demo_regs) /\
    interceptor_interleaved demo_invoke demo_user demo_regs
      (request_start_monitoring demo_root 5 0) demo_some
    = Done (None, demo_invoke (f (table demo_some 5)) demo_regs).
Proof.
  apply (interceptor_reads_mode_unlocked demo_invoke demo_user demo_root
           demo_regs demo_some [42]).
  - reflexivity.
  - reflexivity.
  - reflexivity.
  - simpl. now left.
  - vm_compute. discriminate.
Defined.

Lemma intercept_release_after_init_witness :
  exists st1 st2,
    demo_control demo_root 1 8 0 demo_boot = Done (0, st1) /\
    sys_call_table st1 8 = fn_interceptor /\
    demo_control demo_root 2 8 0 st1 = Done (0, st2) /\
    sys_call_table st2 8 = NULL /\
    sys_call_table demo_boot 8 = kernel_fn 8.
Proof.
  destruct (intercept_release_after_init 8 0 4 1 2 3 4 demo_root kernel_fn 8
              ltac:(lia) eq_refl ltac:(lia))
    as (st1 & st2 & H1 & H2 & H3 & H4).
  exists st1, st2. repeat split; assumption || reflexivity.
Defined.

Lemma listcount_is_length_witness :
  exists t',
    run_ops 8
      [ op_add demo_root 42 5; op_add demo_root 43 5; op_del 42 5;
        op_add demo_root 42 6; op_del_everywhere 43; op_destroy 6 ]
      (table demo_boot) = Done t' /\
    counts_agree t'.
Proof.
  apply (listcount_is_length 8 _ (table demo_boot) 0).
  - intros s l Hl. now apply (init_function_counts 8 0 4 kernel_fn).
  - intros s l Hl. now apply (init_function_counts 8 0 4 kernel_fn s).
  - unfold INT_MAX. simpl. lia.
  - repeat constructor; simpl; try (vm_compute; discriminate).
    intros j Hj.
    assert (Hj' : j = 1 \/ j = 2 \/ j = 3 \/ j = 4 \/ j = 5 \/ j = 6 \/ j = 7)
      by lia.
    repeat (destruct Hj' as [->|Hj']; [vm_compute; discriminate|]).
    subst j. vm_compute. discriminate.
Defined.

(** * Further properties of the module *)

Lemma set_table_same (st : kstate) : set_table st (table st) = st.
Proof. now destruct st. Qed.

Lemma touches_only_refl (s : Z) (st : kstate) : touches_only s st st.
Proof. unfold touches_only. auto. Qed.

Lemma same_dispatch_refl (st : kstate) : same_dispatch st st.
Proof. unfold same_dispatch. auto. Qed.

Lemma add_pid_sysc_effect (ev : env) (pid : pid_t) (s : Z)
    (t t' : Z -> mytable) (r : Z) :
  add_pid_sysc ev pid s t = Done (r, t') ->
  (r = - ENOMEM /\ kmalloc_ok ev = false /\ t' = t) \/
  (r = 0 /\ kmalloc_ok ev = true /\
   exists l, my_list (t s) = Head l /\
     t' = upd t s (mk_mytable (f (t s)) (intercepted (t s)) (monitored (t s))
                     (wrap_int (listcount (t s) + 1)) (Head (pid :: l)))).
Proof.
  unfold add_pid_sysc. destruct (kmalloc_ok ev); simpl.
  - destruct (my_list (t s)) as [|l]; [discriminate|].
    intros H. injection H as <- <-. right. eauto.
  - intros H. injection H as <- <-. now left.
Qed.

Lemma del_pid_sysc_effect (pid : pid_t) (s : Z) (t t' : Z -> mytable)
    (r : Z) :
  del_pid_sysc pid s t = Done (r, t') ->
  exists l, my_list (t s) = Head l /\
    ((r = - EINVAL /\ ~ In pid l /\ t' = t) \/
     (r = 0 /\ exists pre post,
        l = pre ++ pid :: post /\ ~ In pid pre /\
        t' = upd t s
               (mk_mytable (f (t s)) (intercepted (t s))
                  (snd (unlink_count (listcount (t s)) (monitored (t s))))
                  (fst (unlink_count (listcount (t s)) (monitored (t s))))
                  (Head (pre ++ post))))).
Proof.
  unfold del_pid_sysc. destruct (my_list (t s)) as [|l]; [discriminate|].
  intros H. exists l. split; [reflexivity|].
  destruct (split_first pid l) as [[pre post]|] eqn:Hsplit.
  - destruct (unlink_count (listcount (t s)) (monitored (t s))) as [c m].
    injection H as <- <-. right. split; [reflexivity|].
    exists pre, post. split; [now apply split_first_some|]. split; [|reflexivity].
    clear - Hsplit. revert pre post Hsplit.
    induction l as [|x rest IH]; intros pre post; simpl; [discriminate|].
    destruct (Z.eqb_spec x pid) as [->|Hne].
    + intros H. injection H as <- <-. tauto.
    + destruct (split_first pid rest) as [[pre' post']|]; [|discriminate].
      intros H. injection H as <- <-. intros [Hx|Hin]; [contradiction|].
      now apply (IH pre' post').
  - injection H as <- <-. left.
    split; [reflexivity|]. split; [now apply split_first_none | reflexivity].
Qed.

(** Goals about states that differ by stores to one entry. *)
Ltac one_entry :=
  unfold touches_only, same_dispatch, set_table, set_monitored,
    set_intercepted, upd;
  cbn [table sys_call_table orig_custom_syscall orig_exit_group
       f intercepted monitored listcount my_list];
  repeat split; intros;
  repeat match goal with
         | |- context [?a =? ?b] => destruct (Z.eqb_spec a b)
         end;
  subst; cbn [f intercepted monitored listcount my_list];
  try reflexivity; try congruence; try contradiction.

Lemma destroy_list_effect (s : Z) (t t' : Z -> mytable) :
  destroy_list s t = Done t' ->
  exists l, my_list (t s) = Head l /\
    t' = upd t s (mk_mytable (f (t s)) (intercepted (t s)) 0 0 (Head [])).
Proof.
  unfold destroy_list. destruct (my_list (t s)) as [|l]; [discriminate|].
  intros H. injection H as <-. eauto.
Qed.

Lemma check_pid_monitored_effect (s : Z) (pid : pid_t) (t : Z -> mytable)
    (h : Z) :
  check_pid_monitored s pid t = Done h ->
  exists l, my_list (t s) = Head l /\
    ((h = 1 /\ In pid l) \/ (h = 0 /\ ~ In pid l)).
Proof.
  unfold check_pid_monitored. destruct (my_list (t s)) as [|l]; [discriminate|].
  intros H. injection H as <-. exists l. split; [reflexivity|].
  destruct (pid_in pid l) eqn:Hin.
  - left. split; [reflexivity | now apply pid_in_true].
  - right. split; [reflexivity | now apply pid_in_false].
Qed.

(** The branch both monitoring commands share: look the pid up, add it
    unless it is listed, and set mode 1 when it was added. *)
Lemma add_branch_effect (ev : env) (s : Z) (pid : pid_t) (st st' : kstate)
    (r : Z) :
  (hasPid <- check_pid_monitored s pid (table st) ;;
   '(status, t') <- (if negb (hasPid =? 0) then Done (- EBUSY, table st)
                     else add_pid_sysc ev pid s (table st)) ;;
   Done (status,
         set_table st
           (if status =? 0
            then upd t' s (set_monitored (t' s) 1) else t')))
  = Done (r, st') ->
  exists l, my_list (table st s) = Head l /\
    ((r = - EBUSY /\ In pid l /\ st' = st) \/
     (r = - ENOMEM /\ ~ In pid l /\ kmalloc_ok ev = false /\ st' = st) \/
     (r = 0 /\ ~ In pid l /\ kmalloc_ok ev = true /\
      st' = set_table st
              (upd (upd (table st) s
                      (mk_mytable (f (table st s)) (intercepted (table st s))
                         (monitored (table st s))
                         (wrap_int (listcount (table st s) + 1))
                         (Head (pid :: l))))
                 s
                 (mk_mytable (f (table st s)) (intercepted (table st s)) 1
                    (wrap_int (listcount (table st s) + 1))
                    (Head (pid :: l)))))).
Proof.
  destruct (check_pid_monitored s pid (table st)) as [h|] eqn:Hchk;
    [|discriminate].
  apply check_pid_monitored_effect in Hchk as (l & Hl & Hcase).
  cbn [bind]. intros H. exists l. split; [exact Hl|].
  destruct Hcase as [[-> Hin]|[-> Hin]]; cbn [Z.eqb negb bind] in H.
  - injection H as <- <-. left.
    cbn. now rewrite set_table_same.
  - destruct (add_pid_sysc ev pid s (table st)) as [[status t']|] eqn:Hadd;
      [|discriminate].
    cbn [bind] in H. injection H as <- <-.
    apply add_pid_sysc_effect in Hadd
      as [(-> & Hk & ->)|(-> & Hk & l' & Hl' & ->)].
    + right. left. cbn. now rewrite set_table_same.
    + right. right. rewrite Hl in Hl'. injection Hl' as <-.
      cbn [Z.eqb]. unfold set_monitored. rewrite upd_same.
      cbn [f intercepted monitored listcount my_list]. auto.
Qed.

(** The other branch: delete the pid from the list. *)
Lemma del_branch_effect (s : Z) (pid : pid_t) (st st' : kstate) (r : Z) :
  ('(status, t') <- del_pid_sysc pid s (table st) ;;
   Done (status, set_table st t'))
  = Done (r, st') ->
  exists l, my_list (table st s) = Head l /\
    ((r = - EINVAL /\ ~ In pid l /\ st' = st) \/
     (r = 0 /\ exists pre post,
        l = pre ++ pid :: post /\ ~ In pid pre /\
        st' = set_table st
                (upd (table st) s
                   (mk_mytable (f (table st s)) (intercepted (table st s))
                      (snd (unlink_count (listcount (table st s))
                              (monitored (table st s))))
                      (fst (unlink_count (listcount (table st s))
                              (monitored (table st s))))
                      (Head (pre ++ post)))))).
Proof.
  destruct (del_pid_sysc pid s (table st)) as [[status t']|] eqn:Hdel;
    [|discriminate].
  cbn [bind]. intros H. injection H as <- <-.
  apply del_pid_sysc_effect in Hdel as (l & Hl & Hcase).
  exists l. split; [exact Hl|].
  destruct Hcase as [(-> & Hin & ->)|(-> & pre & post & Hsplit & Hpre & ->)].
  - left. now rewrite set_table_same.
  - right. split; [reflexivity|]. now exists pre, post.
Qed.

Lemma command_effect_failed (s : Z) (st : kstate) (r : Z) :
  status_code r -> command_effect s st r st.
Proof.
  intros Hr. split; [exact Hr|]. split; [reflexivity | apply touches_only_refl].
Qed.

Ltac failed_with :=
  apply command_effect_failed; unfold status_code; auto 6.

Ltac succeeded :=
  split; [unfold status_code; auto |];
  split; [intros Hr; exfalso; now apply Hr | one_entry].

Lemma request_syscall_intercept_effect (ev : env) (s : Z)
    (st st' : kstate) (r : Z) :
  request_syscall_intercept ev s st = Done (r, st') ->
  command_effect s st r st' /\
  (current_uid ev <> 0 -> same_dispatch st st').
Proof.
  unfold request_syscall_intercept.
  destruct (Z.eqb_spec (current_uid ev) 0) as [Hroot|Huser]; cbn [negb].
  - destruct (intercepted (table st s) =? 1); intros H; injection H as <- <-.
    + split; [failed_with | contradiction].
    + split; [succeeded | contradiction].
  - intros H. injection H as <- <-.
    split; [failed_with | intros _; apply same_dispatch_refl].
Qed.

Lemma request_syscall_release_effect (ev : env) (s : Z)
    (st st' : kstate) (r : Z) :
  request_syscall_release ev s st = Done (r, st') ->
  command_effect s st r st' /\
  (current_uid ev <> 0 -> same_dispatch st st').
Proof.
  unfold request_syscall_release.
  destruct (Z.eqb_spec (current_uid ev) 0) as [Hroot|Huser]; cbn [negb].
  - destruct (intercepted (table st s) =? 0); intros H; injection H as <- <-.
    + split; [failed_with | contradiction].
    + split; [succeeded | contradiction].
  - intros H. injection H as <- <-.
    split; [failed_with | intros _; apply same_dispatch_refl].
Qed.

Lemma request_start_monitoring_effect (ev : env) (s : Z) (pid : pid_t)
    (st st' : kstate) (r : Z) :
  request_start_monitoring ev s pid st = Done (r, st') ->
  command_effect s st r st' /\ same_dispatch st st'.
Proof.
  unfold request_start_monitoring.
  destruct (monitoring_denied ev pid) as [[|]|]; cbn [bind];
    [| |discriminate].
  { intros H. injection H as <- <-.
    split; [failed_with | apply same_dispatch_refl]. }
  destruct (pid =? 0).
  - destruct (monitored (table st s) =? 2).
    + intros H. injection H as <- <-.
      split; [failed_with | apply same_dispatch_refl].
    + destruct (destroy_list s (table st)) as [t'|] eqn:Hd; [|discriminate].
      apply destroy_list_effect in Hd as (l & Hl & ->).
      cbn [bind]. intros H. injection H as <- <-.
      split; [succeeded | one_entry].
  - destruct (negb (monitored (table st s) =? 2)).
    + intros H. apply add_branch_effect in H as (l & Hl & Hcase).
      destruct Hcase as [(-> & _ & ->)|[(-> & _ & _ & ->)|(-> & _ & _ & ->)]].
      * split; [failed_with | apply same_dispatch_refl].
      * split; [failed_with | apply same_dispatch_refl].
      * split; [succeeded | one_entry].
    + intros H. apply del_branch_effect in H as (l & Hl & Hcase).
      destruct Hcase as [(-> & _ & ->)|(-> & pre & post & _ & _ & ->)].
      * split; [failed_with | apply same_dispatch_refl].
      * split; [succeeded | one_entry].
Qed.

Lemma request_stop_monitoring_effect (ev : env) (s : Z) (pid : pid_t)
    (st st' : kstate) (r : Z) :
  request_stop_monitoring ev s pid st = Done (r, st') ->
  command_effect s st r st' /\ same_dispatch st st'.
Proof.
  unfold request_stop_monitoring.
  destruct (monitoring_denied ev pid) as [[|]|]; cbn [bind];
    [| |discriminate].
  { intros H. injection H as <- <-.
    split; [failed_with | apply same_dispatch_refl]. }
  destruct (pid =? 0).
  - destruct (negb (monitored (table st s) =? 2)).
    + intros H. injection H as <- <-.
      split; [failed_with | apply same_dispatch_refl].
    + destruct (destroy_list s (table st)) as [t'|] eqn:Hd; [|discriminate].
      apply destroy_list_effect in Hd as (l & Hl & ->).
      cbn [bind]. intros H. injection H as <- <-.
      split; [succeeded | one_entry].
  - destruct (monitored (table st s) =? 2).
    + intros H. apply add_branch_effect in H as (l & Hl & Hcase).
      destruct Hcase as [(-> & _ & ->)|[(-> & _ & _ & ->)|(-> & _ & _ & ->)]].
      * split; [failed_with | apply same_dispatch_refl].
      * split; [failed_with | apply same_dispatch_refl].
      * split; [succeeded | one_entry].
    + intros H. apply del_branch_effect in H as (l & Hl & Hcase).
      destruct Hcase as [(-> & _ & ->)|(-> & pre & post & _ & _ & ->)].
      * split; [failed_with | apply same_dispatch_refl].
      * split; [succeeded | one_entry].
Qed.

Section Commands.

Variable NR_syscalls : Z.
Variable REQUEST_SYSCALL_INTERCEPT : Z.
Variable REQUEST_SYSCALL_RELEASE : Z.
Variable REQUEST_START_MONITORING : Z.
Variable REQUEST_STOP_MONITORING : Z.
Variable invoke : fptr -> pt_regs -> Z.

Local Abbreviation control :=
  (my_syscall NR_syscalls REQUEST_SYSCALL_INTERCEPT REQUEST_SYSCALL_RELEASE
     REQUEST_START_MONITORING REQUEST_STOP_MONITORING).

(** ** Every command, seen from the caller *)

Lemma my_syscall_effect (ev : env) (cmd s : Z) (pid : pid_t)
    (st st' : kstate) (r : Z) :
  control ev cmd s pid st = Done (r, st') ->
  command_effect s st r st' /\
  (current_uid ev <> 0 \/
   (cmd <> REQUEST_SYSCALL_INTERCEPT /\ cmd <> REQUEST_SYSCALL_RELEASE) ->
   same_dispatch st st').
Proof.
  unfold my_syscall.
  destruct ((s <=? 0) || (s >? NR_syscalls)).
  { intros H. injection H as <- <-.
    split; [failed_with | intros _; apply same_dispatch_refl]. }
  destruct (Z.eqb_spec cmd REQUEST_SYSCALL_INTERCEPT) as [Hi|Hi].
  { intros H. apply request_syscall_intercept_effect in H as [He Hd].
    split; [exact He|]. intros [Hu|[Hc _]]; [auto | contradiction]. }
  destruct (Z.eqb_spec cmd REQUEST_SYSCALL_RELEASE) as [Hr|Hr].
  { intros H. apply request_syscall_release_effect in H as [He Hd].
    split; [exact He|]. intros [Hu|[_ Hc]]; [auto | contradiction]. }
  destruct (cmd =? REQUEST_START_MONITORING).
  { destruct (pid_invalid ev pid).
    - intros H. injection H as <- <-.
      split; [failed_with | intros _; apply same_dispatch_refl].
    - intros H. apply request_start_monitoring_effect in H as [He Hd]. auto. }
  destruct (cmd =? REQUEST_STOP_MONITORING).
  { destruct (pid_invalid ev pid).
    - intros H. injection H as <- <-.
      split; [failed_with | intros _; apply same_dispatch_refl].
    - intros H. apply request_stop_monitoring_effect in H as [He Hd]. auto. }
  intros H. injection H as <- <-.
  split; [failed_with | intros _; apply same_dispatch_refl].
Qed.

(** X1: a call of [my_syscall] that returns anything but 0 leaves the
    whole state as it found it: no command has a partial effect. *)
Theorem my_syscall_failure_leaves_state
    (ev : env) (cmd s : Z) (pid : pid_t) (st st' : kstate) (r : Z) :
  control ev cmd s pid st = Done (r, st') ->
  r <> 0 ->
  st' = st.
Proof.
  intros H Hr. apply my_syscall_effect in H as [(_ & Hfail & _) _]. auto.
Qed.

(** X2: [my_syscall] returns 0 or one of [-EPERM], [-EBUSY], [-EINVAL],
    [-ENOMEM], and [-ENOMEM] only when [kmalloc] failed. *)
Theorem my_syscall_status_codes
    (ev : env) (cmd s : Z) (pid : pid_t) (st st' : kstate) (r : Z) :
  control ev cmd s pid st = Done (r, st') ->
  (r = 0 \/ r = - EPERM \/ r = - EBUSY \/ r = - EINVAL \/ r = - ENOMEM) /\
  (kmalloc_ok ev = true -> r <> - ENOMEM).
Proof.
  intros H. split.
  { apply my_syscall_effect in H as [(Hcode & _) _]. exact Hcode. }
  intros Hk Hr. subst r. revert H. unfold my_syscall.
  destruct ((s <=? 0) || (s >? NR_syscalls)); [discriminate|].
  destruct (cmd =? REQUEST_SYSCALL_INTERCEPT).
  { unfold request_syscall_intercept.
    destruct (negb (current_uid ev =? 0)); [discriminate|].
    destruct (intercepted (table st s) =? 1); discriminate. }
  destruct (cmd =? REQUEST_SYSCALL_RELEASE).
  { unfold request_syscall_release.
    destruct (negb (current_uid ev =? 0)); [discriminate|].
    destruct (intercepted (table st s) =? 0); discriminate. }
  assert (Hadd : forall st0,
    (hasPid <- check_pid_monitored s pid (table st) ;;
     '(status, t') <- (if negb (hasPid =? 0) then Done (- EBUSY, table st)
                       else add_pid_sysc ev pid s (table st)) ;;
     Done (status,
           set_table st
             (if status =? 0
              then upd t' s (set_monitored (t' s) 1) else t')))
    <> Done (- ENOMEM, st0)).
  { intros st0 H. apply add_branch_effect in H as (l & _ & Hcase).
    destruct Hcase as [(Habs & _)|[(_ & _ & Hk' & _)|(Habs & _)]];
      discriminate || congruence. }
  assert (Hdel : forall st0,
    ('(status, t') <- del_pid_sysc pid s (table st) ;;
     Done (status, set_table st t')) <> Done (- ENOMEM, st0)).
  { intros st0 H. apply del_branch_effect in H as (l & _ & Hcase).
    destruct Hcase as [(Habs & _)|(Habs & _)]; discriminate. }
  destruct (cmd =? REQUEST_START_MONITORING).
  { destruct (pid_invalid ev pid); [discriminate|].
    unfold request_start_monitoring.
    destruct (monitoring_denied ev pid) as [[|]|]; cbn [bind];
      try discriminate.
    destruct (pid =? 0).
    - destruct (monitored (table st s) =? 2); [discriminate|].
      destruct (destroy_list s (table st)); discriminate.
    - destruct (negb (monitored (table st s) =? 2));
        [apply Hadd | apply Hdel]. }
  destruct (cmd =? REQUEST_STOP_MONITORING); [|discriminate].
  destruct (pid_invalid ev pid); [discriminate|].
  unfold request_stop_monitoring.
  destruct (monitoring_denied ev pid) as [[|]|]; cbn [bind];
    try discriminate.
  destruct (pid =? 0).
  - destruct (negb (monitored (table st s) =? 2)); [discriminate|].
    destruct (destroy_list s (table st)); discriminate.
  - destruct (monitored (table st s) =? 2); [apply Hadd | apply Hdel].
Qed.

(** X3: a command on operation [s] touches nothing but slot [s] of the
    dispatch table and entry [s] of [table]; in every entry the saved
    handler [f] stays, and so do the two saved hooks. *)
Theorem my_syscall_touches_one_entry
    (ev : env) (cmd s : Z) (pid : pid_t) (st st' : kstate) (r : Z) :
  control ev cmd s pid st = Done (r, st') ->
  orig_custom_syscall st' = orig_custom_syscall st /\
  orig_exit_group st' = orig_exit_group st /\
  (forall j, j <> s ->
     table st' j = table st j /\ sys_call_table st' j = sys_call_table st j) /\
  (forall j, f (table st' j) = f (table st j)).
Proof.
  intros H. apply my_syscall_effect in H as [(_ & _ & Htouch) _]. exact Htouch.
Qed.

(** X4: the dispatch table and the [intercepted] flags change only in a
    call by a privileged caller with one of the two interception
    commands: an unprivileged caller, and either monitoring command,
    leave them all as they are. *)
Theorem my_syscall_patching_is_privileged
    (ev : env) (cmd s : Z) (pid : pid_t) (st st' : kstate) (r : Z) :
  control ev cmd s pid st = Done (r, st') ->
  current_uid ev <> 0 \/
  (cmd <> REQUEST_SYSCALL_INTERCEPT /\ cmd <> REQUEST_SYSCALL_RELEASE) ->
  sys_call_table st' = sys_call_table st /\
  forall j, intercepted (table st' j) = intercepted (table st j).
Proof.
  intros H Hwho. apply my_syscall_effect in H as [_ Hsame]. now apply Hsame.
Qed.

(** X5: for the two monitoring commands the pid is looked up before the
    caller's rights are: a nonzero pid that names no task gives [-EINVAL],
    never [-EPERM], whoever asks, and the state stays. *)
Theorem my_syscall_dead_pid
    (ev : env) (cmd s : Z) (pid : pid_t) (st : kstate) :
  0 < s <= NR_syscalls ->
  cmd <> REQUEST_SYSCALL_INTERCEPT ->
  cmd <> REQUEST_SYSCALL_RELEASE ->
  cmd = REQUEST_START_MONITORING \/ cmd = REQUEST_STOP_MONITORING ->
  pid <> 0 ->
  pid_task ev pid = None ->
  control ev cmd s pid st = Done (- EINVAL, st).
Proof.
  intros [Hlo Hhi] Hi Hr Hcmd Hpid Hdead. unfold my_syscall.
  replace (s <=? 0) with false by (symmetry; apply Z.leb_gt; lia).
  replace (s >? NR_syscalls) with false
    by (symmetry; rewrite Z.gtb_ltb; apply Z.ltb_ge; lia).
  apply Z.eqb_neq in Hi, Hr, Hpid. rewrite Hi, Hr. cbn [orb].
  unfold pid_invalid. rewrite Hpid, Hdead. cbn [negb andb].
  destruct Hcmd as [->| ->].
  - now rewrite Z.eqb_refl.
  - rewrite Z.eqb_refl.
    destruct (REQUEST_STOP_MONITORING =? REQUEST_START_MONITORING);
      reflexivity.
Qed.

(** ** Interception *)

(** X6: for a privileged caller, whatever a first Intercept of an
    operation returned, a second one returns [-EBUSY] and changes
    nothing; and whatever a first Release returned, a second one returns
    [-EINVAL] and changes nothing. *)
Theorem intercept_release_repeated
    (ev : env) (s : Z) (st st1 : kstate) (r : Z) :
  current_uid ev = 0 ->
  (request_syscall_intercept ev s st = Done (r, st1) ->
   request_syscall_intercept ev s st1 = Done (- EBUSY, st1)) /\
  (request_syscall_release ev s st = Done (r, st1) ->
   request_syscall_release ev s st1 = Done (- EINVAL, st1)).
Proof.
  intros Hroot. unfold request_syscall_intercept, request_syscall_release.
  rewrite Hroot. cbn [Z.eqb negb]. split.
  - destruct (intercepted (table st s) =? 1) eqn:Hi;
      intros H; injection H as <- <-.
    + now rewrite Hi.
    + cbn [table]. now rewrite upd_same.
  - destruct (intercepted (table st s) =? 0) eqn:Hi;
      intros H; injection H as <- <-.
    + now rewrite Hi.
    + cbn [table]. now rewrite upd_same.
Qed.

(** X7: on an operation that is not intercepted and whose dispatch slot
    holds the saved handler, a privileged Intercept followed by Release
    both succeed and put back every dispatch slot and every entry of
    [table]; in between only the slot (now [interceptor]) and the flag
    differ, the mode, the count and the list being kept throughout. *)
Theorem intercept_release_round_trip (ev : env) (s : Z) (st : kstate) :
  current_uid ev = 0 ->
  intercepted (table st s) = 0 ->
  sys_call_table st s = f (table st s) ->
  exists st1 st2,
    request_syscall_intercept ev s st = Done (0, st1) /\
    request_syscall_release ev s st1 = Done (0, st2) /\
    sys_call_table st1 s = fn_interceptor /\
    (forall j, monitored (table st1 j) = monitored (table st j) /\
               listcount (table st1 j) = listcount (table st j) /\
               my_list (table st1 j) = my_list (table st j)) /\
    (forall j, sys_call_table st2 j = sys_call_table st j) /\
    (forall j, table st2 j = table st j) /\
    orig_custom_syscall st2 = orig_custom_syscall st /\
    orig_exit_group st2 = orig_exit_group st.
Proof.
  intros Hroot Hnot Hslot.
  unfold request_syscall_intercept, request_syscall_release.
  rewrite Hroot, Hnot. cbn [Z.eqb negb].
  eexists. eexists. split; [reflexivity|].
  cbn [table sys_call_table orig_custom_syscall orig_exit_group].
  rewrite !upd_same. cbn [intercepted set_intercepted Z.eqb f].
  split; [reflexivity|].
  cbn [table sys_call_table orig_custom_syscall orig_exit_group].
  split; [reflexivity|]. split; [|split; [|split; [|split]]]; try reflexivity.
  - intros j. unfold upd. destruct (j =? s) eqn:Hj;
      [apply Z.eqb_eq in Hj as ->|]; now cbn.
  - intros j. unfold upd. destruct (Z.eqb_spec j s) as [->|Hj];
      [now symmetry | reflexivity].
  - intros j. unfold upd. destruct (Z.eqb_spec j s) as [->|Hj];
      [|reflexivity].
    unfold set_intercepted. cbn. rewrite <- Hnot. now destruct (table st s).
Qed.

(** ** Monitoring, and what the interceptor logs afterwards *)

Lemma add_branch_run (ev : env) (s : Z) (pid : pid_t) (st : kstate)
    (l : list pid_t) :
  my_list (table st s) = Head l ->
  (hasPid <- check_pid_monitored s pid (table st) ;;
   '(status, t') <- (if negb (hasPid =? 0) then Done (- EBUSY, table st)
                     else add_pid_sysc ev pid s (table st)) ;;
   Done (status,
         set_table st
           (if status =? 0
            then upd t' s (set_monitored (t' s) 1) else t')))
  = if pid_in pid l then Done (- EBUSY, st)
    else if kmalloc_ok ev then
      Done (0, set_table st
                 (upd (upd (table st) s
                         (mk_mytable (f (table st s))
                            (intercepted (table st s))
                            (monitored (table st s))
                            (wrap_int (listcount (table st s) + 1))
                            (Head (pid :: l))))
                    s
                    (mk_mytable (f (table st s)) (intercepted (table st s)) 1
                       (wrap_int (listcount (table st s) + 1))
                       (Head (pid :: l)))))
    else Done (- ENOMEM, st).
Proof.
  intros Hl. unfold check_pid_monitored, add_pid_sysc. rewrite Hl.
  cbn [bind]. destruct (pid_in pid l); cbn [Z.eqb negb bind].
  - cbn. now rewrite set_table_same.
  - destruct (kmalloc_ok ev); cbn [negb bind].
    + cbn [Z.eqb]. unfold set_monitored. rewrite upd_same. reflexivity.
    + cbn. now rewrite set_table_same.
Qed.

Lemma del_branch_run (s : Z) (pid : pid_t) (st : kstate) (l : list pid_t) :
  my_list (table st s) = Head l ->
  ('(status, t') <- del_pid_sysc pid s (table st) ;;
   Done (status, set_table st t'))
  = match split_first pid l with
    | Some (pre, post) =>
        Done (0, set_table st
                   (upd (table st) s
                      (mk_mytable (f (table st s)) (intercepted (table st s))
                         (snd (unlink_count (listcount (table st s))
                                 (monitored (table st s))))
                         (fst (unlink_count (listcount (table st s))
                                 (monitored (table st s))))
                         (Head (pre ++ post)))))
    | None => Done (- EINVAL, st)
    end.
Proof.
  intros Hl. unfold del_pid_sysc. rewrite Hl.
  destruct (split_first pid l) as [[pre post]|].
  - destruct (unlink_count (listcount (table st s)) (monitored (table st s))).
    reflexivity.
  - cbn [bind]. now rewrite set_table_same.
Qed.

Lemma split_first_found (pid : pid_t) (l : list pid_t) :
  In pid l -> exists pre post, split_first pid l = Some (pre, post).
Proof.
  intros Hin. destruct (split_first pid l) as [[pre post]|] eqn:Hs; [eauto|].
  now apply split_first_none in Hs.
Qed.

Lemma split_first_absent (pid : pid_t) (l : list pid_t) :
  ~ In pid l -> split_first pid l = None.
Proof.
  intros Hin. destruct (split_first pid l) as [[pre post]|] eqn:Hs;
    [|reflexivity].
  apply split_first_some in Hs. subst l. exfalso. apply Hin.
  apply in_or_app. right. now left.
Qed.

(** Taking one node out of a duplicate-free list takes its pid off the
    list and leaves every other pid on it. *)
Lemma nodup_unlinked (pid : pid_t) (pre post : list pid_t) :
  NoDup (pre ++ pid :: post) ->
  NoDup (pre ++ post) /\ ~ In pid (pre ++ post) /\
  forall q, q <> pid -> (In q (pre ++ post) <-> In q (pre ++ pid :: post)).
Proof.
  intros Hnd. split; [now apply NoDup_remove_1 in Hnd|].
  split; [now apply NoDup_remove_2 in Hnd|].
  intros q Hq. rewrite !in_app_iff. simpl. split; [tauto|].
  intros [H|[H|H]]; [tauto | congruence | tauto].
Qed.

Lemma unlink_count_mode (cnt mon : Z) :
  snd (unlink_count cnt mon) = mon \/
  (mon = 1 /\ snd (unlink_count cnt mon) = 0).
Proof.
  unfold unlink_count. cbn [snd].
  destruct (wrap_int (cnt - 1) =? 0); cbn [andb]; [|now left].
  destruct (Z.eqb_spec mon 1); [now right | now left].
Qed.

Lemma start_monitoring_unfold (ev : env) (s : Z) (pid : pid_t)
    (st : kstate) :
  monitoring_denied ev pid = Done false ->
  pid <> 0 ->
  request_start_monitoring ev s pid st
  = if negb (monitored (table st s) =? 2) then
      hasPid <- check_pid_monitored s pid (table st) ;;
      '(status, t') <- (if negb (hasPid =? 0) then Done (- EBUSY, table st)
                        else add_pid_sysc ev pid s (table st)) ;;
      Done (status,
            set_table st
              (if status =? 0
               then upd t' s (set_monitored (t' s) 1) else t'))
    else
      '(status, t') <- del_pid_sysc pid s (table st) ;;
      Done (status, set_table st t').
Proof.
  intros Hperm Hpid. unfold request_start_monitoring.
  rewrite Hperm. cbn [bind]. apply Z.eqb_neq in Hpid. now rewrite Hpid.
Qed.

Lemma stop_monitoring_unfold (ev : env) (s : Z) (pid : pid_t)
    (st : kstate) :
  monitoring_denied ev pid = Done false ->
  pid <> 0 ->
  request_stop_monitoring ev s pid st
  = if monitored (table st s) =? 2 then
      hasPid <- check_pid_monitored s pid (table st) ;;
      '(status, t') <- (if negb (hasPid =? 0) then Done (- EBUSY, table st)
                        else add_pid_sysc ev pid s (table st)) ;;
      Done (status,
            set_table st
              (if status =? 0
               then upd t' s (set_monitored (t' s) 1) else t'))
    else
      '(status, t') <- del_pid_sysc pid s (table st) ;;
      Done (status, set_table st t').
Proof.
  intros Hperm Hpid. unfold request_stop_monitoring.
  rewrite Hperm. cbn [bind]. apply Z.eqb_neq in Hpid. now rewrite Hpid.
Qed.

(** X8: a privileged [request_start_monitoring] for all pids ([pid = 0])
    on an operation that is not in mode 2 returns 0, empties the list and
    sets mode 2; from then on a call by any process is logged, and the
    same request once more returns [-EBUSY] and changes nothing. *)
Theorem start_monitoring_all_logs_everyone
    (ev : env) (s : Z) (st : kstate) (l : list pid_t) :
  current_uid ev = 0 ->
  monitored (table st s) <> 2 ->
  my_list (table st s) = Head l ->
  f (table st s) <> NULL ->
  exists st',
    request_start_monitoring ev s 0 st = Done (0, st') /\
    monitored (table st' s) = 2 /\
    listcount (table st' s) = 0 /\
    my_list (table st' s) = Head [] /\
    (forall caller reg, ax reg = s ->
       interceptor invoke caller reg st'
       = Done (Some (log_message (current_pid caller) reg),
               invoke (f (table st s)) reg)) /\
    request_start_monitoring ev s 0 st' = Done (- EBUSY, st').
Proof.
  intros Hroot Hmode Hl Hf.
  destruct (start_monitoring_all_step ev s st l Hroot Hmode Hl)
    as (st' & Hrun & _ & _ & _ & He & _).
  exists st'. rewrite He. cbn [monitored listcount my_list].
  repeat split; try assumption.
  - intros caller reg Hax. subst s.
    rewrite (interceptor_run invoke caller reg st' []);
      rewrite He; cbn [my_list f monitored]; auto.
  - unfold request_start_monitoring, monitoring_denied.
    rewrite Hroot. cbn [Z.eqb bind]. now rewrite He.
Qed.

(** X9: a privileged [request_stop_monitoring] for all pids on an
    operation in mode 2 returns 0, empties the list and sets mode 0; from
    then on no call is logged, and the same request once more returns
    [-EINVAL] and changes nothing. *)
Theorem stop_monitoring_all_silences
    (ev : env) (s : Z) (st : kstate) (l : list pid_t) :
  current_uid ev = 0 ->
  monitored (table st s) = 2 ->
  my_list (table st s) = Head l ->
  f (table st s) <> NULL ->
  exists st',
    request_stop_monitoring ev s 0 st = Done (0, st') /\
    monitored (table st' s) = 0 /\
    listcount (table st' s) = 0 /\
    my_list (table st' s) = Head [] /\
    (forall caller reg, ax reg = s ->
       interceptor invoke caller reg st'
       = Done (None, invoke (f (table st s)) reg)) /\
    request_stop_monitoring ev s 0 st' = Done (- EINVAL, st').
Proof.
  intros Hroot Hmode Hl Hf.
  unfold request_stop_monitoring at 1. unfold monitoring_denied.
  rewrite Hroot. cbn [Z.eqb bind]. rewrite Hmode. cbn [Z.eqb negb Pos.eqb].
  unfold destroy_list. rewrite Hl. cbn [bind].
  eexists. split; [reflexivity|].
  cbn [table set_table]. rewrite upd_same.
  cbn [monitored listcount my_list].
  repeat split.
  - intros caller reg Hax. subst s.
    match goal with
    | |- interceptor _ _ _ ?st' = _ =>
        rewrite (interceptor_run invoke caller reg st' []);
          cbn [table set_table]; rewrite ?upd_same;
          cbn [my_list f monitored]; auto
    end.
  - unfold request_stop_monitoring, monitoring_denied.
    rewrite Hroot. cbn [Z.eqb bind table set_table]. now rewrite upd_same.
Qed.

(** X10: [request_start_monitoring] for a nonzero pid the caller may
    monitor, on an operation that is not in mode 2: a listed pid gives
    [-EBUSY], a failed [kmalloc] gives [-ENOMEM], both without any change;
    otherwise the pid goes to the head of the list, the mode is 1, and
    from then on a call is logged exactly when its caller is on the
    list. *)
Theorem start_monitoring_pid_logs_listed
    (ev : env) (s : Z) (pid : pid_t) (st : kstate) (l : list pid_t) :
  monitoring_denied ev pid = Done false ->
  pid <> 0 ->
  monitored (table st s) <> 2 ->
  my_list (table st s) = Head l ->
  f (table st s) <> NULL ->
  (In pid l -> request_start_monitoring ev s pid st = Done (- EBUSY, st)) /\
  (~ In pid l -> kmalloc_ok ev = false ->
   request_start_monitoring ev s pid st = Done (- ENOMEM, st)) /\
  (~ In pid l -> kmalloc_ok ev = true ->
   exists st',
     request_start_monitoring ev s pid st = Done (0, st') /\
     my_list (table st' s) = Head (pid :: l) /\
     monitored (table st' s) = 1 /\
     forall caller reg, ax reg = s ->
       interceptor invoke caller reg st'
       = Done (if pid_in (current_pid caller) (pid :: l)
               then Some (log_message (current_pid caller) reg) else None,
               invoke (f (table st s)) reg)).
Proof.
  intros Hperm Hpid Hmode Hl Hf.
  rewrite (start_monitoring_unfold ev s pid st Hperm Hpid).
  apply Z.eqb_neq in Hmode. rewrite Hmode. cbn [negb].
  rewrite (add_branch_run ev s pid st l Hl).
  split; [|split].
  - intros Hin. apply pid_in_true in Hin. now rewrite Hin.
  - intros Hin Hk. apply pid_in_false in Hin. now rewrite Hin, Hk.
  - intros Hin Hk. apply pid_in_false in Hin. rewrite Hin, Hk.
    eexists. split; [reflexivity|].
    cbn [table set_table]. rewrite upd_same. cbn [my_list monitored].
    split; [reflexivity|]. split; [reflexivity|].
    intros caller reg Hax. subst s.
    match goal with
    | |- interceptor _ _ _ ?st' = _ =>
        rewrite (interceptor_run invoke caller reg st' (pid :: l));
          cbn [table set_table]; rewrite ?upd_same;
          cbn [my_list f monitored]; auto
    end.
    unfold should_log. cbn [Z.eqb Pos.eqb andb orb].
    now destruct (pid_in (current_pid caller) (pid :: l)).
Qed.

(** X11: [request_start_monitoring] for a nonzero pid the caller may
    monitor, on an operation in mode 2 with a duplicate-free list: a pid
    that is not on the list (so already monitored) gives [-EINVAL] and no
    change; a pid on the list is taken off it, the mode stays 2, every
    other pid stays listed, and a call by that pid is logged again. *)
Theorem start_monitoring_readmits
    (ev : env) (s : Z) (pid : pid_t) (st : kstate) (l : list pid_t) :
  monitoring_denied ev pid = Done false ->
  pid <> 0 ->
  monitored (table st s) = 2 ->
  my_list (table st s) = Head l ->
  NoDup l ->
  f (table st s) <> NULL ->
  (~ In pid l -> request_start_monitoring ev s pid st = Done (- EINVAL, st)) /\
  (In pid l ->
   exists st' l',
     request_start_monitoring ev s pid st = Done (0, st') /\
     my_list (table st' s) = Head l' /\
     monitored (table st' s) = 2 /\
     ~ In pid l' /\
     (forall q, q <> pid -> (In q l' <-> In q l)) /\
     forall caller reg, ax reg = s -> current_pid caller = pid ->
       interceptor invoke caller reg st'
       = Done (Some (log_message pid reg), invoke (f (table st s)) reg)).
Proof.
  intros Hperm Hpid Hmode Hl Hnd Hf.
  rewrite (start_monitoring_unfold ev s pid st Hperm Hpid).
  rewrite Hmode. cbn [Z.eqb Pos.eqb negb].
  rewrite (del_branch_run s pid st l Hl).
  split.
  - intros Hin. now rewrite (split_first_absent pid l Hin).
  - intros Hin. destruct (split_first_found pid l Hin) as (pre & post & Hs).
    rewrite Hs. apply split_first_some in Hs. subst l.
    destruct (nodup_unlinked pid pre post Hnd) as (_ & Hgone & Hothers).
    eexists. exists (pre ++ post). split; [reflexivity|].
    cbn [table set_table]. rewrite upd_same. cbn [my_list monitored].
    rewrite Hmode. split; [reflexivity|].
    assert (Hm : snd (unlink_count (listcount (table st s)) 2) = 2).
    { destruct (unlink_count_mode (listcount (table st s)) 2) as [H|[H _]];
        [exact H | discriminate]. }
    split; [exact Hm|]. split; [exact Hgone|]. split; [exact Hothers|].
    intros caller reg Hax Hcaller. subst s.
    match goal with
    | |- interceptor _ _ _ ?st' = _ =>
        rewrite (interceptor_run invoke caller reg st' (pre ++ post));
          cbn [table set_table]; rewrite ?upd_same;
          cbn [my_list f monitored]; auto
    end.
    rewrite ?Hmode, Hm, Hcaller. apply pid_in_false in Hgone.
    now rewrite Hgone.
Qed.

(** X12: [request_stop_monitoring] for a nonzero pid the caller may
    monitor, on an operation that is not in mode 2 and has a
    duplicate-free list: a pid that is not listed gives [-EINVAL] and no
    change; a listed pid is taken off the list, every other pid stays
    listed, and a call by that pid is no longer logged. *)
Theorem stop_monitoring_pid_silences
    (ev : env) (s : Z) (pid : pid_t) (st : kstate) (l : list pid_t) :
  monitoring_denied ev pid = Done false ->
  pid <> 0 ->
  monitored (table st s) <> 2 ->
  my_list (table st s) = Head l ->
  NoDup l ->
  f (table st s) <> NULL ->
  (~ In pid l -> request_stop_monitoring ev s pid st = Done (- EINVAL, st)) /\
  (In pid l ->
   exists st' l',
     request_stop_monitoring ev s pid st = Done (0, st') /\
     my_list (table st' s) = Head l' /\
     ~ In pid l' /\
     (forall q, q <> pid -> (In q l' <-> In q l)) /\
     forall caller reg, ax reg = s -> current_pid caller = pid ->
       interceptor invoke caller reg st'
       = Done (None, invoke (f (table st s)) reg)).
Proof.
  intros Hperm Hpid Hmode Hl Hnd Hf.
  rewrite (stop_monitoring_unfold ev s pid st Hperm Hpid).
  apply Z.eqb_neq in Hmode as Hmodeb. rewrite Hmodeb.
  rewrite (del_branch_run s pid st l Hl).
  split.
  - intros Hin. now rewrite (split_first_absent pid l Hin).
  - intros Hin. destruct (split_first_found pid l Hin) as (pre & post & Hs).
    rewrite Hs. apply split_first_some in Hs. subst l.
    destruct (nodup_unlinked pid pre post Hnd) as (_ & Hgone & Hothers).
    eexists. exists (pre ++ post). split; [reflexivity|].
    cbn [table set_table]. rewrite upd_same. cbn [my_list].
    split; [reflexivity|]. split; [exact Hgone|]. split; [exact Hothers|].
    intros caller reg Hax Hcaller. subst s.
    match goal with
    | |- interceptor _ _ _ ?st' = _ =>
        rewrite (interceptor_run invoke caller reg st' (pre ++ post));
          cbn [table set_table]; rewrite ?upd_same;
          cbn [my_list f monitored]; auto
    end.
    rewrite Hcaller. apply pid_in_false in Hgone. rewrite Hgone.
    unfold should_log. cbn [Z.eqb andb]. rewrite andb_false_r, orb_false_r.
    rewrite andb_true_r.
    destruct (unlink_count_mode (listcount (table st (ax reg)))
                (monitored (table st (ax reg)))) as [->|[_ ->]].
    + now rewrite Hmodeb.
    + reflexivity.
Qed.

(** X13: on an operation in mode 0 with an empty list, or in mode 1 with
    a list that is not empty, whose count is the length of its list and
    below [INT_MAX], starting and then stopping the monitoring of a pid
    that was not listed both succeed and put every entry of [table] back
    as it was. *)
Theorem start_stop_round_trip
    (ev : env) (s : Z) (pid : pid_t) (st : kstate) (l : list pid_t) :
  monitoring_denied ev pid = Done false ->
  pid <> 0 ->
  kmalloc_ok ev = true ->
  my_list (table st s) = Head l ->
  ~ In pid l ->
  listcount (table st s) = Z.of_nat (length l) ->
  listcount (table st s) < INT_MAX ->
  (monitored (table st s) = 0 /\ l = []) \/
  (monitored (table st s) = 1 /\ l <> []) ->
  exists st1 st2,
    request_start_monitoring ev s pid st = Done (0, st1) /\
    request_stop_monitoring ev s pid st1 = Done (0, st2) /\
    (forall j, table st2 j = table st j) /\
    sys_call_table st2 = sys_call_table st /\
    orig_custom_syscall st2 = orig_custom_syscall st /\
    orig_exit_group st2 = orig_exit_group st.
Proof.
  intros Hperm Hpid Hk Hl Hnew Hcnt Hmax Hmode.
  assert (Hm2 : monitored (table st s) <> 2) by (destruct Hmode as [[-> _]|[-> _]]; lia).
  rewrite (start_monitoring_unfold ev s pid st Hperm Hpid).
  apply Z.eqb_neq in Hm2 as Hm2b. rewrite Hm2b. cbn [negb].
  rewrite (add_branch_run ev s pid st l Hl).
  apply pid_in_false in Hnew as Hnewb. rewrite Hnewb, Hk.
  eexists. eexists. split; [reflexivity|].
  rewrite (stop_monitoring_unfold ev s pid _ Hperm Hpid).
  cbn [table set_table]. rewrite upd_same. cbn [monitored Z.eqb Pos.eqb].
  match goal with
  | |- context [del_pid_sysc pid s ?t] =>
      pose proof (del_branch_run s pid (set_table st t) (pid :: l)) as Hdel
  end.
  cbn [table set_table] in Hdel. rewrite upd_same in Hdel.
  specialize (Hdel eq_refl). cbn [f intercepted monitored listcount] in Hdel.
  rewrite split_first_head in Hdel.
  change (set_table (set_table st ?a) ?b) with (set_table st b) in Hdel.
  match type of Hdel with ?lhs = _ =>
    match goal with |- ?lhs' = _ /\ _ => change lhs' with lhs end end.
  rewrite Hdel. split; [reflexivity|].
  cbn [table set_table sys_call_table orig_custom_syscall orig_exit_group].
  split; [|auto].
  intros j. unfold upd. destruct (Z.eqb_spec j s) as [->|Hj]; [|reflexivity].
  assert (Hw : wrap_int (listcount (table st s) + 1)
               = listcount (table st s) + 1).
  { apply wrap_int_small. unfold INT_MAX in *. lia. }
  unfold unlink_count. cbn [fst snd app]. rewrite Hw.
  replace (listcount (table st s) + 1 - 1) with (listcount (table st s))
    by lia.
  rewrite wrap_int_small by (unfold INT_MAX in *; lia).
  destruct Hmode as [[Hm ->]|[Hm Hne]].
  - cbn [length Z.of_nat] in Hcnt. rewrite Hcnt. cbn [Z.eqb andb Pos.eqb].
    destruct (table st s) as [f0 i0 m0 c0 l0].
    cbn [f intercepted monitored listcount my_list] in *. now subst.
  - replace (listcount (table st s) =? 0) with false.
    + cbn [andb].
      destruct (table st s) as [f0 i0 m0 c0 l0].
      cbn [f intercepted monitored listcount my_list] in *. now subst.
    + symmetry. apply Z.eqb_neq. rewrite Hcnt.
      destruct l; [contradiction | cbn [length]; lia].
Qed.

End Commands.

(** ** The list operations *)

Lemma wrap_int_succ_pred (c : Z) :
  - 2147483648 <= c <= INT_MAX -> wrap_int (wrap_int (c + 1) - 1) = c.
Proof.
  intros Hc. destruct (Z.eq_dec c INT_MAX) as [->|Hne]; [reflexivity|].
  rewrite (wrap_int_small (c + 1)) by (unfold INT_MAX in *; lia).
  replace (c + 1 - 1) with c by lia. now apply wrap_int_small.
Qed.

(** X14: after a successful [add_pid_sysc] the pid is found by
    [check_pid_monitored], and a [del_pid_sysc] of the same pid then
    succeeds and puts every entry back as it was, count and mode
    included, unless the entry had mode 1 with a count of 0. *)
Theorem add_del_round_trip
    (ev : env) (pid : pid_t) (s : Z) (t : Z -> mytable) (l : list pid_t) :
  kmalloc_ok ev = true ->
  my_list (t s) = Head l ->
  - 2147483648 <= listcount (t s) <= INT_MAX ->
  ~ (listcount (t s) = 0 /\ monitored (t s) = 1) ->
  exists t1 t2,
    add_pid_sysc ev pid s t = Done (0, t1) /\
    check_pid_monitored s pid t1 = Done 1 /\
    del_pid_sysc pid s t1 = Done (0, t2) /\
    forall j, t2 j = t j.
Proof.
  intros Hk Hl Hc Hmode. unfold add_pid_sysc. rewrite Hk, Hl. cbn [negb].
  eexists. eexists. split; [reflexivity|].
  unfold check_pid_monitored, del_pid_sysc. rewrite !upd_same.
  cbn [my_list f intercepted monitored listcount pid_in].
  rewrite split_first_head, Z.eqb_refl. split; [reflexivity|].
  unfold unlink_count. split; [reflexivity|].
  intros j. unfold upd. destruct (Z.eqb_spec j s) as [->|Hj]; [|reflexivity].
  rewrite (wrap_int_succ_pred _ Hc). cbn [app].
  replace ((listcount (t s) =? 0) && (monitored (t s) =? 1)) with false.
  - rewrite <- Hl. now destruct (t s).
  - symmetry. apply andb_false_iff.
    destruct (Z.eqb_spec (listcount (t s)) 0) as [H0|H0]; [|now left].
    right. apply Z.eqb_neq. tauto.
Qed.


Section Lifecycle.

Variable NR_syscalls : Z.
Variable MY_CUSTOM_SYSCALL : Z.
Variable __NR_exit_group : Z.

(** ** A process exits *)

Lemma del_pid_nodes_found (pid : pid_t) (l : list pid_t)
    (cnt mon ispid : Z) :
  snd (snd (del_pid_nodes pid l cnt mon ispid))
  = if pid_in pid l then 1 else ispid.
Proof.
  revert cnt mon ispid. induction l as [|x r IH]; intros cnt mon ispid.
  - reflexivity.
  - cbn [del_pid_nodes pid_in]. destruct (x =? pid).
    + destruct (unlink_count cnt mon) as [c m]. rewrite IH.
      now destruct (pid_in pid r).
    + specialize (IH cnt mon ispid).
      now destruct (del_pid_nodes pid r cnt mon ispid) as [kept res].
Qed.

Lemma del_pid_nodes_absent (pid : pid_t) (l : list pid_t)
    (cnt mon ispid : Z) :
  ~ In pid l -> del_pid_nodes pid l cnt mon ispid = (l, (cnt, mon, ispid)).
Proof.
  induction l as [|x r IH]; intros Hin; [reflexivity|].
  cbn [del_pid_nodes]. destruct (Z.eqb_spec x pid) as [->|Hne].
  - exfalso. apply Hin. now left.
  - rewrite IH; [reflexivity|]. intros H. apply Hin. now right.
Qed.

Lemma del_pid_entry_found (pid : pid_t) (e e' : mytable) (i i' : Z) :
  del_pid_entry pid e i = Done (e', i') ->
  exists l, my_list e = Head l /\
    i' = (if pid_in pid l then 1 else i) /\
    (~ In pid l -> e' = e).
Proof.
  unfold del_pid_entry. destruct (my_list e) as [|l] eqn:Hl; [discriminate|].
  pose proof (del_pid_nodes_found pid l (listcount e) (monitored e) i) as Hf.
  pose proof (del_pid_nodes_absent pid l (listcount e) (monitored e) i) as Ha.
  destruct (del_pid_nodes pid l (listcount e) (monitored e) i)
    as [kept [[cnt mon] i'']].
  intros H. injection H as <- <-. exists l. cbn [snd] in Hf.
  split; [reflexivity|]. split; [exact Hf|].
  intros Hin. specialize (Ha Hin). injection Ha as -> -> -> _.
  rewrite <- Hl. now destruct e.
Qed.

(** The flag [ispid] at the end of the outer loop. *)
Lemma del_pid_loop_found (pid : pid_t) (n : nat) (s : Z)
    (t t' : Z -> mytable) (i i' : Z) :
  del_pid_loop pid n s t i = Done (t', i') ->
  ((exists j l, s <= j < s + Z.of_nat n /\ my_list (t j) = Head l /\
                In pid l) /\ i' = 1) \/
  ((forall j l, s <= j < s + Z.of_nat n -> my_list (t j) = Head l ->
                ~ In pid l) /\ i' = i /\ forall j, t' j = t j).
Proof.
  revert s t i. induction n as [|n IH]; intros s t i.
  - cbn [del_pid_loop]. intros H. injection H as <- <-. right.
    split; [intros j l Hj; lia | auto].
  - cbn [del_pid_loop].
    destruct (del_pid_entry pid (t s) i) as [[e1 i1]|] eqn:He; [|discriminate].
    cbn [bind]. intros Hrun.
    apply del_pid_entry_found in He as (l & Hl & Hi1 & Hsame).
    apply IH in Hrun as [[(j & lj & Hj & Hlj & Hin) ->]|(Hnone & -> & Heq)].
    + left. split; [|reflexivity]. exists j, lj.
      rewrite upd_other in Hlj by lia. split; [lia | auto].
    + destruct (pid_in pid l) eqn:Hpl.
      * left. split; [|exact Hi1]. exists s, l.
        apply pid_in_true in Hpl. split; [lia | auto].
      * right. apply pid_in_false in Hpl. split; [|split; [exact Hi1|]].
        -- intros j lj Hj Hlj. destruct (Z.eq_dec j s) as [->|Hne].
           ++ rewrite Hl in Hlj. now injection Hlj as <-.
           ++ apply (Hnone j); [lia|]. now rewrite upd_other.
        -- intros j. rewrite Heq. unfold upd.
           destruct (Z.eqb_spec j s) as [->|Hne]; [auto | reflexivity].
Qed.

(** X16: with the lists of entries 1 to [NR_syscalls - 1] initialised,
    [del_pid] returns 0 when the pid is on one of these lists and -1 when
    it is on none of them, and in the second case no entry of [table] has
    changed. *)
Theorem del_pid_return_value (pid : pid_t) (t : Z -> mytable) :
  (forall j, 1 <= j < NR_syscalls -> my_list (t j) <> Uninit) ->
  exists r t',
    del_pid NR_syscalls pid t = Done (r, t') /\
    ((r = 0 /\
      exists j l, 1 <= j < NR_syscalls /\ my_list (t j) = Head l /\ In pid l)
     \/
     (r = -1 /\
      (forall j l, 1 <= j < NR_syscalls -> my_list (t j) = Head l ->
                   ~ In pid l) /\
      forall j, t' j = t j)).
Proof.
  intros Hinit.
  destruct (del_pid_entries NR_syscalls pid t Hinit) as (r & t' & Hrun & _).
  exists r, t'. split; [exact Hrun|].
  unfold del_pid in Hrun.
  destruct (del_pid_loop pid (Z.to_nat (NR_syscalls - 1)) 1 t 0)
    as [[t1 i1]|] eqn:Hloop; [|discriminate].
  cbn [bind] in Hrun. injection Hrun as <- <-.
  apply del_pid_loop_found in Hloop
    as [[(j & l & Hj & Hl & Hin) ->]|(Hnone & -> & Heq)].
  - left. split; [reflexivity|]. exists j, l. split; [lia | auto].
  - right. split; [reflexivity|]. split; [|exact Heq].
    intros j l Hj. apply Hnone. lia.
Qed.

(** X17: with the lists of entries 1 to [NR_syscalls - 1] initialised and
    a saved handler, [my_exit_group] calls that handler with the status it
    was given, and on the way changes neither the dispatch table nor any
    flag, saved handler or saved hook; every list keeps every pid other
    than the caller's. *)
Theorem my_exit_group_keeps_the_rest
    (ev : env) (status : Z) (st : kstate) :
  (forall j, 1 <= j < NR_syscalls -> my_list (table st j) <> Uninit) ->
  orig_exit_group st <> NULL ->
  exists st',
    my_exit_group NR_syscalls ev status st
    = Done (st', (orig_exit_group st, status)) /\
    sys_call_table st' = sys_call_table st /\
    orig_custom_syscall st' = orig_custom_syscall st /\
    orig_exit_group st' = orig_exit_group st /\
    (forall j, f (table st' j) = f (table st j) /\
               intercepted (table st' j) = intercepted (table st j)) /\
    (forall j l, my_list (table st j) = Head l ->
       exists l', my_list (table st' j) = Head l' /\
         forall q, q <> current_pid ev -> (In q l' <-> In q l)).
Proof.
  intros Hinit Horig.
  destruct (del_pid_entries NR_syscalls (current_pid ev) (table st) Hinit)
    as (r & t' & Hrun & Hin & Hout).
  unfold my_exit_group. rewrite Hrun. cbn [bind].
  exists (set_table st t').
  split; [destruct (orig_exit_group st); [contradiction | reflexivity ..]|].
  cbn [set_table sys_call_table orig_custom_syscall orig_exit_group table].
  repeat split.
  - destruct (Z_le_dec 1 j) as [H1|H1];
      [destruct (Z_lt_dec j NR_syscalls) as [H2|H2]|];
      try (now rewrite Hout by lia).
    destruct (Hin j ltac:(lia)) as (i0 & i1 & He).
    now apply del_pid_entry_list in He as (l & _ & _ & Hf & _).
  - destruct (Z_le_dec 1 j) as [H1|H1];
      [destruct (Z_lt_dec j NR_syscalls) as [H2|H2]|];
      try (now rewrite Hout by lia).
    destruct (Hin j ltac:(lia)) as (i0 & i1 & He).
    now apply del_pid_entry_list in He as (l & _ & _ & _ & Hi).
  - intros j l Hl.
    destruct (Z_le_dec 1 j) as [H1|H1];
      [destruct (Z_lt_dec j NR_syscalls) as [H2|H2]|];
      try (exists l; rewrite Hout by lia; split; [exact Hl | tauto]).
    destruct (Hin j ltac:(lia)) as (i0 & i1 & He).
    apply del_pid_entry_list in He as (l0 & Hl0 & Hl' & _).
    rewrite Hl in Hl0. injection Hl0 as <-.
    exists (filter (other_than (current_pid ev)) l). split; [exact Hl'|].
    intros q Hq. rewrite filter_In. unfold other_than.
    apply Z.eqb_neq in Hq. rewrite Hq. cbn [negb]. tauto.
Qed.

(** ** Removing the last member *)

(** C7: on an entry whose list holds one pid, counted by [listcount],
    [del_pid_sysc] of that pid returns 0, and so does [del_pid] for an
    entry it visits; either leaves the list empty and the count at 0.
    Mode 1 (some) is then 0 (none), and [interceptor] logs no call of the
    operation; every other mode is what it was, so mode 2 (all) is still
    2, and [interceptor] logs the call of every process. *)
Theorem last_member_resets_mode_some_only
    (invoke : fptr -> pt_regs -> Z) (pid : pid_t) (s : Z) (st : kstate) :
  my_list (table st s) = Head [pid] ->
  listcount (table st s) = 1 ->
  let emptied (t' : Z -> mytable) :=
    my_list (t' s) = Head [] /\
    listcount (t' s) = 0 /\
    monitored (t' s)
    = (if monitored (table st s) =? 1 then 0 else monitored (table st s)) /\
    (f (table st s) <> NULL ->
     forall caller reg, ax reg = s ->
       interceptor invoke caller reg (set_table st t')
       = Done (if monitored (table st s) =? 2
               then Some (log_message (current_pid caller) reg) else None,
               invoke (f (table st s)) reg)) in
  (exists t', del_pid_sysc pid s (table st) = Done (0, t') /\ emptied t') /\
  (1 <= s < NR_syscalls ->
   (forall j, 1 <= j < NR_syscalls -> my_list (table st j) <> Uninit) ->
   exists t', del_pid NR_syscalls pid (table st) = Done (0, t') /\ emptied t').
Proof.
  intros Hl Hcnt emptied.
  assert (Hlast : forall t' : Z -> mytable,
    t' s = mk_mytable (f (table st s)) (intercepted (table st s))
             (if monitored (table st s) =? 1 then 0 else monitored (table st s))
             0 (Head []) ->
    emptied t').
  { intros t' He. unfold emptied. rewrite He.
    cbn [my_list listcount monitored].
    split; [reflexivity|]. split; [reflexivity|]. split; [reflexivity|].
    intros Hf caller reg Hax.
    rewrite (interceptor_run invoke caller reg (set_table st t') []);
      cbn [table set_table]; rewrite Hax, He; cbn [my_list f monitored];
      [|reflexivity | exact Hf].
    cbn [pid_in]. unfold should_log.
    destruct (Z.eqb_spec (monitored (table st s)) 1) as [H1|H1].
    - rewrite H1. reflexivity.
    - destruct (Z.eqb_spec (monitored (table st s)) 2) as [H2|H2];
        [reflexivity|].
      apply Z.eqb_neq in H1. rewrite H1. reflexivity. }
  split.
  - eexists. split.
    + unfold del_pid_sysc. rewrite Hl. cbn [split_first].
      rewrite Z.eqb_refl, Hcnt, unlink_count_last. reflexivity.
    + apply Hlast. now rewrite upd_same.
  - intros Hs Hinit.
    destruct (del_pid_entries NR_syscalls pid (table st) Hinit)
      as (r & t' & Hrun & Hin & _).
    assert (Hr : r = 0).
    { unfold del_pid in Hrun.
      destruct (del_pid_loop pid (Z.to_nat (NR_syscalls - 1)) 1 (table st) 0)
        as [[t1 i1]|] eqn:Hloop; [|discriminate].
      cbn [bind] in Hrun. injection Hrun as <- _.
      apply del_pid_loop_found in Hloop as [[_ ->]|(Hnone & _)];
        [reflexivity|].
      exfalso. apply (Hnone s [pid]); [lia | exact Hl | now left]. }
    subst r. exists t'. split; [exact Hrun|]. apply Hlast.
    destruct (Hin s Hs) as (i0 & i1 & He).
    unfold del_pid_entry in He. rewrite Hl in He.
    cbn [del_pid_nodes] in He.
    rewrite Z.eqb_refl, Hcnt, unlink_count_last in He.
    now injection He as <- _.
Qed.

(** ** Start-up and unloading *)


(** X19: after [init_function] the two saved hooks hold what the dispatch
    table held in the slots of the administrative call and of
    [exit_group], every other slot is untouched, and every entry below
    [NR_syscalls] is not intercepted, in mode 0, with an empty list, and
    saves the handler its slot holds now: for the two hooked slots that
    is the module's own function, not the kernel's. *)
Theorem init_function_captures (sct : Z -> fptr) :
  MY_CUSTOM_SYSCALL <> __NR_exit_group ->
  let st0 := snd (init_function NR_syscalls MY_CUSTOM_SYSCALL __NR_exit_group
                    (boot_state sct)) in
  orig_custom_syscall st0 = sct MY_CUSTOM_SYSCALL /\
  orig_exit_group st0 = sct __NR_exit_group /\
  sys_call_table st0 MY_CUSTOM_SYSCALL = fn_my_syscall /\
  sys_call_table st0 __NR_exit_group = fn_my_exit_group /\
  (forall j, j <> MY_CUSTOM_SYSCALL -> j <> __NR_exit_group ->
     sys_call_table st0 j = sct j) /\
  (forall j, 0 <= j < NR_syscalls ->
     table st0 j = mk_mytable (sys_call_table st0 j) 0 0 0 (Head [])).
Proof.
  intros Hne st0.
  destruct (init_function_state NR_syscalls MY_CUSTOM_SYSCALL __NR_exit_group
              (boot_state sct)) as (Hsct & Hin & _).
  fold st0 in Hsct, Hin. rewrite Hsct. unfold hooked.
  cbn [boot_state sys_call_table].
  repeat split.
  - subst st0. cbn. now rewrite upd_other by congruence.
  - now rewrite upd_other, upd_same by exact Hne.
  - now rewrite upd_same.
  - intros j H1 H2. now rewrite !upd_other.
  - intros j Hj. rewrite Hin by exact Hj. reflexivity.
Qed.

(** X20: with the two hooks in different slots, [exit_function] after
    [init_function] puts every slot of the dispatch table back as it was
    before the module was loaded. *)
Theorem init_exit_round_trip (st : kstate) :
  MY_CUSTOM_SYSCALL <> __NR_exit_group ->
  forall j,
    sys_call_table
      (exit_function MY_CUSTOM_SYSCALL __NR_exit_group
         (snd (init_function NR_syscalls MY_CUSTOM_SYSCALL __NR_exit_group
                 st))) j
    = sys_call_table st j.
Proof.
  intros Hne j. cbn. unfold upd.
  destruct (Z.eqb_spec j __NR_exit_group) as [->|H1].
  - apply Z.eqb_neq in Hne. rewrite Z.eqb_sym in Hne. now rewrite Hne.
  - destruct (Z.eqb_spec j MY_CUSTOM_SYSCALL) as [->|H2]; reflexivity.
Qed.

(** X21: [exit_function] restores the two hooked slots and nothing else:
    an operation that a privileged Intercept has redirected still
    dispatches to [interceptor] after the module's exit function has
    run, and its entry still says so. *)
Theorem exit_function_keeps_interception
    (ev : env) (s : Z) (st : kstate) :
  current_uid ev = 0 ->
  intercepted (table st s) <> 1 ->
  s <> MY_CUSTOM_SYSCALL ->
  s <> __NR_exit_group ->
  exists st1,
    request_syscall_intercept ev s st = Done (0, st1) /\
    sys_call_table (exit_function MY_CUSTOM_SYSCALL __NR_exit_group st1) s
    = fn_interceptor /\
    intercepted (table (exit_function MY_CUSTOM_SYSCALL __NR_exit_group st1) s)
    = 1.
Proof.
  intros Hroot Hnot H1 H2. unfold request_syscall_intercept.
  rewrite Hroot. apply Z.eqb_neq in Hnot. rewrite Hnot. cbn [Z.eqb negb].
  eexists. split; [reflexivity|].
  cbn [exit_function sys_call_table table orig_custom_syscall
       orig_exit_group].
  rewrite !upd_other by assumption. rewrite !upd_same. now split.
Qed.

End Lifecycle.

(** ** What every run of the module keeps *)

Lemma entry_ok_weaken (k k' : Z) (slot : fptr) (e : mytable) :
  entry_ok k slot e -> k <= k' -> entry_ok k' slot e.
Proof.
  intros (l & Hl & Hnd & Hc & Hk & Hm & Hd) Hle.
  exists l. repeat split; try assumption. lia.
Qed.

Lemma entry_ok_intercept (k : Z) (slot : fptr) (e : mytable) :
  entry_ok k slot e -> entry_ok k fn_interceptor (set_intercepted e 1).
Proof.
  intros (l & Hl & Hnd & Hc & Hk & Hm & Hd).
  exists l. unfold set_intercepted. cbn. repeat split; auto.
Qed.

Lemma entry_ok_release (k : Z) (slot : fptr) (e : mytable) :
  entry_ok k slot e -> entry_ok k (f e) (set_intercepted e 0).
Proof.
  intros (l & Hl & Hnd & Hc & Hk & Hm & Hd).
  exists l. unfold set_intercepted. cbn. repeat split; auto.
Qed.

Lemma entry_ok_destroy (k : Z) (slot : fptr) (e : mytable) (m : Z) :
  entry_ok k slot e -> m = 0 \/ m = 2 ->
  entry_ok k slot (mk_mytable (f e) (intercepted e) m 0 (Head [])).
Proof.
  intros (l & Hl & Hnd & Hc & Hk & Hm & Hd) Hmode.
  exists []. cbn. repeat split; try assumption.
  - constructor.
  - lia.
  - destruct Hmode as [->| ->]; auto.
Qed.

Lemma entry_ok_add (k : Z) (slot : fptr) (e : mytable) (pid : pid_t)
    (l : list pid_t) :
  entry_ok k slot e -> k + 1 <= INT_MAX ->
  my_list e = Head l -> ~ In pid l ->
  entry_ok (k + 1) slot
    (mk_mytable (f e) (intercepted e) 1 (wrap_int (listcount e + 1))
       (Head (pid :: l))).
Proof.
  intros (l0 & Hl0 & Hnd & Hc & Hk & Hm & Hd) Hmax Hl Hnew.
  rewrite Hl in Hl0. injection Hl0 as <-.
  exists (pid :: l). cbn [my_list listcount monitored intercepted f length].
  split; [reflexivity|]. split; [now constructor|].
  split; [|split; [lia|split; [|exact Hd]]].
  - rewrite wrap_int_small by (unfold INT_MAX in *; lia). lia.
  - right. left. split; [reflexivity | discriminate].
Qed.

Lemma entry_ok_del (k : Z) (slot : fptr) (e : mytable) (pid : pid_t)
    (pre post : list pid_t) :
  entry_ok k slot e -> k <= INT_MAX ->
  my_list e = Head (pre ++ pid :: post) ->
  entry_ok k slot
    (mk_mytable (f e) (intercepted e)
       (snd (unlink_count (listcount e) (monitored e)))
       (fst (unlink_count (listcount e) (monitored e)))
       (Head (pre ++ post))).
Proof.
  intros (l0 & Hl0 & Hnd & Hc & Hk & Hm & Hd) Hmax Hl.
  rewrite Hl in Hl0. injection Hl0 as <-.
  assert (Hlen : Z.of_nat (length (pre ++ pid :: post))
                 = Z.of_nat (length (pre ++ post)) + 1).
  { rewrite !length_app. cbn [length]. lia. }
  exists (pre ++ post). cbn [my_list listcount monitored intercepted f].
  unfold unlink_count. cbn [fst snd].
  rewrite Hc, Hlen.
  replace (Z.of_nat (length (pre ++ post)) + 1 - 1)
    with (Z.of_nat (length (pre ++ post))) by lia.
  rewrite wrap_int_small by (unfold INT_MAX in *; lia).
  split; [reflexivity|].
  split; [now apply NoDup_remove_1 in Hnd|].
  split; [reflexivity|]. split; [lia|]. split; [|exact Hd].
  destruct Hm as [[Hm0 Hnil]|[[Hm1 _]|[Hm2 Hnil]]].
  - destruct pre; discriminate.
  - rewrite Hm1. cbn [Z.eqb Pos.eqb]. rewrite andb_true_r.
    destruct (Z.eqb_spec (Z.of_nat (length (pre ++ post))) 0) as [H0|H0].
    + left. split; [reflexivity|]. now destruct (pre ++ post).
    + right. left. split; [reflexivity|]. intros Hnil.
      rewrite Hnil in H0. now apply H0.
  - destruct pre; discriminate.
Qed.

Lemma NoDup_filter_pids (p : pid_t -> bool) (l : list pid_t) :
  NoDup l -> NoDup (filter p l).
Proof.
  induction 1 as [|x l Hx Hnd IH]; cbn [filter]; [constructor|].
  destruct (p x); [|exact IH].
  constructor; [|exact IH]. intros Hin. apply filter_In in Hin. tauto.
Qed.

Lemma entry_ok_purge (k : Z) (slot : fptr) (e e' : mytable) (pid : pid_t)
    (i i' : Z) :
  entry_ok k slot e -> k <= INT_MAX ->
  del_pid_entry pid e i = Done (e', i') ->
  entry_ok k slot e'.
Proof.
  intros (l & Hl & Hnd & Hc & Hk & Hm & Hd) Hmax.
  unfold del_pid_entry. rewrite Hl.
  rewrite (del_pid_nodes_counts pid l (listcount e) (monitored e) i
             ltac:(lia) _ eq_refl).
  intros H. injection H as <- _.
  pose proof (filter_length_le (other_than pid) l) as Hle.
  exists (filter (other_than pid) l).
  cbn [my_list listcount monitored intercepted f].
  split; [reflexivity|]. split; [now apply NoDup_filter_pids|].
  split; [lia|]. split; [lia|]. split; [|exact Hd].
  set (kept := filter (other_than pid) l) in *.
  replace (listcount e - (Z.of_nat (length l) - Z.of_nat (length kept)))
    with (Z.of_nat (length kept)) by lia.
  destruct Hm as [[Hm0 Hnil]|[[Hm1 Hne]|[Hm2 Hnil]]].
  - left. subst l. cbn in kept. subst kept. rewrite Hm0.
    cbn. auto.
  - rewrite Hm1. cbn [Z.eqb Pos.eqb]. rewrite andb_true_r.
    destruct (Z.eqb_spec (Z.of_nat (length kept)) 0) as [H0|H0].
    + left. assert (Hkept : kept = []) by now destruct kept.
      split; [|exact Hkept].
      replace (0 <? Z.of_nat (length l) - Z.of_nat (length kept)) with true;
        [reflexivity|].
      symmetry. apply Z.ltb_lt. rewrite Hkept. cbn [length].
      destruct l; [contradiction | cbn [length]; lia].
    + right. left. cbn [andb]. split; [reflexivity|].
      intros Hnil. rewrite Hnil in H0. now apply H0.
  - right. right. subst l. cbn in kept. subst kept. rewrite Hm2.
    cbn. auto.
Qed.

Section Reachable.

Variable NR_syscalls : Z.
Variable MY_CUSTOM_SYSCALL : Z.
Variable __NR_exit_group : Z.
Variable REQUEST_SYSCALL_INTERCEPT : Z.
Variable REQUEST_SYSCALL_RELEASE : Z.
Variable REQUEST_START_MONITORING : Z.
Variable REQUEST_STOP_MONITORING : Z.

Local Abbreviation control :=
  (my_syscall NR_syscalls REQUEST_SYSCALL_INTERCEPT REQUEST_SYSCALL_RELEASE
     REQUEST_START_MONITORING REQUEST_STOP_MONITORING).

Local Abbreviation ok := (state_ok NR_syscalls).

(** A state that differs from a good one in one slot and one entry is
    good when that entry is. *)
Lemma state_ok_one_entry (k k' : Z) (s : Z) (st st' : kstate) :
  ok k st -> k <= k' ->
  orig_exit_group st' = orig_exit_group st ->
  (forall j, j <> s ->
     table st' j = table st j /\ sys_call_table st' j = sys_call_table st j) ->
  (0 <= s < NR_syscalls ->
   entry_ok k' (sys_call_table st' s) (table st' s)) ->
  ok k' st'.
Proof.
  intros [Horig Hall] Hle Ho Hframe Hentry. split; [congruence|].
  intros j Hj. destruct (Z.eq_dec j s) as [->|Hne]; [auto|].
  destruct (Hframe j Hne) as [-> ->].
  apply (entry_ok_weaken k); auto.
Qed.

Ltac new_entry Hok s :=
  eapply (state_ok_one_entry _ _ s); [exact Hok | lia | reflexivity | |];
  [ intros; cbn [table sys_call_table set_table]; rewrite ?upd_other by assumption;
    split; reflexivity
  | let H := fresh "Hs" in intros H; destruct Hok as [_ Hok];
    specialize (Hok s H);
    cbn [table sys_call_table set_table]; rewrite ?upd_same ].

Lemma request_syscall_intercept_ok (k : Z) (ev : env) (s : Z)
    (st st' : kstate) (r : Z) :
  ok k st ->
  request_syscall_intercept ev s st = Done (r, st') ->
  ok k st'.
Proof.
  intros Hok. unfold request_syscall_intercept.
  destruct (negb (current_uid ev =? 0)).
  { intros H. injection H as <- <-. exact Hok. }
  destruct (intercepted (table st s) =? 1); intros H; injection H as <- <-.
  - exact Hok.
  - new_entry Hok s. eapply entry_ok_intercept. exact Hok.
Qed.

Lemma request_syscall_release_ok (k : Z) (ev : env) (s : Z)
    (st st' : kstate) (r : Z) :
  ok k st ->
  request_syscall_release ev s st = Done (r, st') ->
  ok k st'.
Proof.
  intros Hok. unfold request_syscall_release.
  destruct (negb (current_uid ev =? 0)).
  { intros H. injection H as <- <-. exact Hok. }
  destruct (intercepted (table st s) =? 0); intros H; injection H as <- <-.
  - exact Hok.
  - new_entry Hok s. eapply entry_ok_release. exact Hok.
Qed.

Lemma ok_weaken (k k' : Z) (st : kstate) : ok k st -> k <= k' -> ok k' st.
Proof.
  intros [Ho Hall] Hle. split; [exact Ho|].
  intros j Hj. apply (entry_ok_weaken k); auto.
Qed.

Lemma add_branch_ok (k : Z) (ev : env) (s : Z) (pid : pid_t)
    (st st' : kstate) (r : Z) :
  ok k st -> k + 1 <= INT_MAX ->
  (hasPid <- check_pid_monitored s pid (table st) ;;
   '(status, t') <- (if negb (hasPid =? 0) then Done (- EBUSY, table st)
                     else add_pid_sysc ev pid s (table st)) ;;
   Done (status,
         set_table st
           (if status =? 0
            then upd t' s (set_monitored (t' s) 1) else t')))
  = Done (r, st') ->
  ok (k + 1) st'.
Proof.
  intros Hok Hmax H. apply add_branch_effect in H as (l & Hl & Hcase).
  destruct Hcase as [(_ & _ & ->)|[(_ & _ & _ & ->)|(_ & Hnew & _ & ->)]];
    try (apply (ok_weaken k); [exact Hok | lia]).
  new_entry Hok s. now apply (entry_ok_add k _ (table st s) pid l).
Qed.

Lemma del_branch_ok (k : Z) (s : Z) (pid : pid_t) (st st' : kstate)
    (r : Z) :
  ok k st -> k <= INT_MAX ->
  ('(status, t') <- del_pid_sysc pid s (table st) ;;
   Done (status, set_table st t'))
  = Done (r, st') ->
  ok k st'.
Proof.
  intros Hok Hmax H. apply del_branch_effect in H as (l & Hl & Hcase).
  destruct Hcase as [(_ & _ & ->)|(_ & pre & post & Hs & _ & ->)];
    [exact Hok|].
  subst l. new_entry Hok s.
  now apply (entry_ok_del k _ (table st s) pid pre post).
Qed.

Lemma request_start_monitoring_ok (k : Z) (ev : env) (s : Z) (pid : pid_t)
    (st st' : kstate) (r : Z) :
  ok k st -> k + 1 <= INT_MAX ->
  request_start_monitoring ev s pid st = Done (r, st') ->
  ok (k + 1) st'.
Proof.
  intros Hok Hmax. unfold request_start_monitoring.
  destruct (monitoring_denied ev pid) as [[|]|]; cbn [bind];
    [| |discriminate].
  { intros H. injection H as <- <-. apply (ok_weaken k); [exact Hok | lia]. }
  destruct (pid =? 0).
  - destruct (monitored (table st s) =? 2).
    + intros H. injection H as <- <-.
      apply (ok_weaken k); [exact Hok | lia].
    + destruct (destroy_list s (table st)) as [t'|] eqn:Hd; [|discriminate].
      apply destroy_list_effect in Hd as (l & Hl & ->).
      cbn [bind]. intros H. injection H as <- <-.
      new_entry Hok s. unfold set_monitored. cbn.
      apply (entry_ok_weaken k); [|lia].
      apply (entry_ok_destroy k _ (table st s) 2); auto.
  - destruct (negb (monitored (table st s) =? 2)).
    + now apply add_branch_ok.
    + intros H. apply (ok_weaken k); [|lia].
      apply (del_branch_ok k s pid st st' r); auto. lia.
Qed.

Lemma request_stop_monitoring_ok (k : Z) (ev : env) (s : Z) (pid : pid_t)
    (st st' : kstate) (r : Z) :
  ok k st -> k + 1 <= INT_MAX ->
  request_stop_monitoring ev s pid st = Done (r, st') ->
  ok (k + 1) st'.
Proof.
  intros Hok Hmax. unfold request_stop_monitoring.
  destruct (monitoring_denied ev pid) as [[|]|]; cbn [bind];
    [| |discriminate].
  { intros H. injection H as <- <-. apply (ok_weaken k); [exact Hok | lia]. }
  destruct (pid =? 0).
  - destruct (negb (monitored (table st s) =? 2)).
    + intros H. injection H as <- <-.
      apply (ok_weaken k); [exact Hok | lia].
    + destruct (destroy_list s (table st)) as [t'|] eqn:Hd; [|discriminate].
      apply destroy_list_effect in Hd as (l & Hl & ->).
      cbn [bind]. intros H. injection H as <- <-.
      new_entry Hok s.
      apply (entry_ok_weaken k); [|lia].
      apply (entry_ok_destroy k _ (table st s) 0); auto.
  - destruct (monitored (table st s) =? 2).
    + now apply add_branch_ok.
    + intros H. apply (ok_weaken k); [|lia].
      apply (del_branch_ok k s pid st st' r); auto. lia.
Qed.

Lemma my_syscall_ok (k : Z) (ev : env) (cmd s : Z) (pid : pid_t)
    (st st' : kstate) (r : Z) :
  ok k st -> k + 1 <= INT_MAX ->
  control ev cmd s pid st = Done (r, st') ->
  ok (k + 1) st'.
Proof.
  intros Hok Hmax. unfold my_syscall.
  assert (Hsame : ok (k + 1) st) by (apply (ok_weaken k); [exact Hok | lia]).
  destruct ((s <=? 0) || (s >? NR_syscalls)).
  { intros H. now injection H as <- <-. }
  destruct (cmd =? REQUEST_SYSCALL_INTERCEPT).
  { intros H. apply (ok_weaken k); [|lia].
    now apply (request_syscall_intercept_ok k ev s st st' r). }
  destruct (cmd =? REQUEST_SYSCALL_RELEASE).
  { intros H. apply (ok_weaken k); [|lia].
    now apply (request_syscall_release_ok k ev s st st' r). }
  destruct (cmd =? REQUEST_START_MONITORING).
  { destruct (pid_invalid ev pid).
    - intros H. now injection H as <- <-.
    - now apply request_start_monitoring_ok. }
  destruct (cmd =? REQUEST_STOP_MONITORING).
  { destruct (pid_invalid ev pid).
    - intros H. now injection H as <- <-.
    - now apply request_stop_monitoring_ok. }
  intros H. now injection H as <- <-.
Qed.

Lemma ok_lists_initialised (k : Z) (st : kstate) :
  ok k st ->
  forall j, 0 <= j < NR_syscalls -> my_list (table st j) <> Uninit.
Proof.
  intros [_ Hall] j Hj. destruct (Hall j Hj) as (l & -> & _). discriminate.
Qed.

Lemma my_exit_group_ok (k : Z) (ev : env) (status : Z)
    (st st' : kstate) (call : fptr * Z) :
  ok k st -> k <= INT_MAX ->
  my_exit_group NR_syscalls ev status st = Done (st', call) ->
  ok k st'.
Proof.
  intros Hok Hmax.
  destruct (del_pid_entries NR_syscalls (current_pid ev) (table st))
    as (r & t' & Hrun & Hin & Hout).
  { intros j Hj. apply (ok_lists_initialised k st Hok). lia. }
  unfold my_exit_group. rewrite Hrun. cbn [bind].
  destruct (orig_exit_group st) eqn:Ho; [discriminate | ..];
    intros H; injection H as <- _;
    (split; [cbn; destruct Hok as [Hn _]; congruence|]);
    intros j Hj; cbn [table sys_call_table set_table];
    destruct Hok as [_ Hall]; specialize (Hall j Hj);
    (destruct (Z_le_dec 1 j) as [H1|H1];
     [|now rewrite Hout by lia]);
    destruct (Hin j ltac:(lia)) as (i0 & i1 & He);
    now apply (entry_ok_purge k _ (table st j) _ (current_pid ev) i0 i1).
Qed.

Lemma run_event_ok (k : Z) (e : event) (st st' : kstate) :
  ok k st -> k + 1 <= INT_MAX ->
  run_event NR_syscalls REQUEST_SYSCALL_INTERCEPT REQUEST_SYSCALL_RELEASE
    REQUEST_START_MONITORING REQUEST_STOP_MONITORING e st = Done st' ->
  ok (k + 1) st'.
Proof.
  intros Hok Hmax. destruct e as [ev cmd s pid|ev status]; cbn [run_event].
  - destruct (control ev cmd s pid st) as [[r st1]|] eqn:Hrun; [|discriminate].
    cbn [bind]. intros H. injection H as <-.
    now apply (my_syscall_ok k ev cmd s pid st st1 r).
  - destruct (my_exit_group NR_syscalls ev status st) as [[st1 call]|] eqn:Hrun;
      [|discriminate].
    cbn [bind]. intros H. injection H as <-.
    apply (ok_weaken k); [|lia].
    apply (my_exit_group_ok k ev status st st1 call); auto. lia.
Qed.

Lemma run_events_ok (es : list event) (k : Z) (st st' : kstate) :
  ok k st -> k + Z.of_nat (length es) <= INT_MAX ->
  run_events NR_syscalls REQUEST_SYSCALL_INTERCEPT REQUEST_SYSCALL_RELEASE
    REQUEST_START_MONITORING REQUEST_STOP_MONITORING es st = Done st' ->
  ok (k + Z.of_nat (length es)) st'.
Proof.
  revert k st. induction es as [|e rest IH]; intros k st Hok Hmax.
  - cbn. intros H. injection H as <-. now rewrite Z.add_0_r.
  - cbn [run_events length] in *.
    destruct (run_event _ _ _ _ _ e st) as [st1|] eqn:He; [|discriminate].
    cbn [bind]. intros Hrun.
    apply (run_event_ok k) in He; [|exact Hok | lia].
    apply (IH (k + 1)) in Hrun; [|exact He | lia].
    replace (k + Z.of_nat (S (length rest)))
      with (k + 1 + Z.of_nat (length rest)) by lia.
    exact Hrun.
Qed.

(** A safe event on a good state does not fault. *)
Lemma run_event_defined (k : Z) (e : event) (st : kstate) :
  ok k st -> event_safe NR_syscalls e ->
  exists st',
    run_event NR_syscalls REQUEST_SYSCALL_INTERCEPT REQUEST_SYSCALL_RELEASE
      REQUEST_START_MONITORING REQUEST_STOP_MONITORING e st = Done st'.
Proof.
  intros Hok Hsafe. destruct e as [ev cmd s pid|ev status];
    cbn [run_event event_safe] in *.
  - destruct Hsafe as [Hs Hcur].
    assert (Hdone : exists r st1, control ev cmd s pid st = Done (r, st1)).
    { unfold my_syscall.
      destruct (Z.leb_spec s 0); cbn [orb]; [eauto|].
      destruct (s >? NR_syscalls) eqn:Hhi; [eauto|].
      rewrite Z.gtb_ltb in Hhi. apply Z.ltb_ge in Hhi.
      pose proof (ok_lists_initialised k st Hok s ltac:(lia)) as Hinit.
      destruct (my_list (table st s)) as [|l] eqn:Hl; [contradiction|].
      assert (Hadd : exists r st1,
        (hasPid <- check_pid_monitored s pid (table st) ;;
         '(status, t') <- (if negb (hasPid =? 0) then Done (- EBUSY, table st)
                           else add_pid_sysc ev pid s (table st)) ;;
         Done (status,
               set_table st
                 (if status =? 0
                  then upd t' s (set_monitored (t' s) 1) else t')))
        = Done (r, st1)).
      { rewrite (add_branch_run ev s pid st l Hl).
        destruct (pid_in pid l); [eauto|]. destruct (kmalloc_ok ev); eauto. }
      assert (Hdel : exists r st1,
        ('(status, t') <- del_pid_sysc pid s (table st) ;;
         Done (status, set_table st t')) = Done (r, st1)).
      { rewrite (del_branch_run s pid st l Hl).
        destruct (split_first pid l) as [[pre post]|]; eauto. }
      assert (Hden : pid_invalid ev pid = false ->
                     exists d, monitoring_denied ev pid = Done d).
      { unfold pid_invalid, monitoring_denied, check_pid_from_list.
        destruct (current_uid ev =? 0); [eauto|].
        destruct (pid =? 0); [eauto|]. cbn [negb andb].
        destruct (pid_task ev pid); [|discriminate].
        destruct (pid_task ev (current_pid ev)); [|contradiction].
        cbn [bind]. eauto. }
      destruct (cmd =? REQUEST_SYSCALL_INTERCEPT).
      { unfold request_syscall_intercept.
        destruct (negb (current_uid ev =? 0)); [eauto|].
        destruct (intercepted (table st s) =? 1); eauto. }
      destruct (cmd =? REQUEST_SYSCALL_RELEASE).
      { unfold request_syscall_release.
        destruct (negb (current_uid ev =? 0)); [eauto|].
        destruct (intercepted (table st s) =? 0); eauto. }
      destruct (cmd =? REQUEST_START_MONITORING).
      { destruct (pid_invalid ev pid) eqn:Hinv; [eauto|].
        destruct (Hden eq_refl) as (d & Hd).
        unfold request_start_monitoring. rewrite Hd. cbn [bind].
        destruct d; [eauto|]. destruct (pid =? 0).
        - destruct (monitored (table st s) =? 2); [eauto|].
          unfold destroy_list. rewrite Hl. cbn [bind]. eauto.
        - destruct (negb (monitored (table st s) =? 2)); assumption. }
      destruct (cmd =? REQUEST_STOP_MONITORING); [|eauto].
      destruct (pid_invalid ev pid) eqn:Hinv; [eauto|].
      destruct (Hden eq_refl) as (d & Hd).
      unfold request_stop_monitoring. rewrite Hd. cbn [bind].
      destruct d; [eauto|]. destruct (pid =? 0).
      - destruct (negb (monitored (table st s) =? 2)); [eauto|].
        unfold destroy_list. rewrite Hl. cbn [bind]. eauto.
      - destruct (monitored (table st s) =? 2); assumption. }
    destruct Hdone as (r & st1 & ->). cbn [bind]. eauto.
  - destruct (del_pid_entries NR_syscalls (current_pid ev) (table st))
      as (r & t' & Hrun & _).
    { intros j Hj. apply (ok_lists_initialised k st Hok). lia. }
    unfold my_exit_group. rewrite Hrun. cbn [bind].
    destruct Hok as [Ho _].
    destruct (orig_exit_group st); [contradiction | cbn [bind]; eauto ..].
Qed.

Lemma run_events_defined (es : list event) (k : Z) (st : kstate) :
  ok k st -> k + Z.of_nat (length es) <= INT_MAX ->
  Forall (event_safe NR_syscalls) es ->
  exists st',
    run_events NR_syscalls REQUEST_SYSCALL_INTERCEPT REQUEST_SYSCALL_RELEASE
      REQUEST_START_MONITORING REQUEST_STOP_MONITORING es st = Done st'.
Proof.
  revert k st. induction es as [|e rest IH]; intros k st Hok Hmax Hsafe.
  - cbn. eauto.
  - inversion Hsafe as [|? ? He Hrest]; subst. cbn [run_events length] in *.
    destruct (run_event_defined k e st Hok He) as (st1 & Hrun).
    rewrite Hrun. cbn [bind].
    apply (IH (k + 1)); [|lia | exact Hrest].
    apply (run_event_ok k e st st1); auto. lia.
Qed.

Lemma init_function_ok (sct : Z -> fptr) :
  sct __NR_exit_group <> NULL ->
  ok 0 (snd (init_function NR_syscalls MY_CUSTOM_SYSCALL __NR_exit_group
               (boot_state sct))).
Proof.
  intros Hexit.
  destruct (init_function_state NR_syscalls MY_CUSTOM_SYSCALL __NR_exit_group
              (boot_state sct)) as (Hsct & Hin & _).
  split.
  - cbn. unfold upd. destruct (__NR_exit_group =? MY_CUSTOM_SYSCALL);
      [discriminate | exact Hexit].
  - intros j Hj. rewrite Hin by exact Hj. rewrite Hsct.
    exists []. cbn. repeat split; auto; try constructor. lia.
Qed.

(** X22: from start-up, after any sequence of administrative calls and
    process exits that has not faulted (and is short enough for no list
    to outgrow an [int]), every entry below [NR_syscalls] has a
    duplicate-free list whose length is [listcount], which is empty in
    modes 0 and 2 and not empty in mode 1, and its dispatch slot holds
    the saved handler when [intercepted] is 0 and [interceptor] when it
    is 1.  A sequence that never names entry
    [NR_syscalls] and whose callers are tasks does not fault. *)
Theorem reachable_states_consistent (sct : Z -> fptr) (es : list event) :
  sct __NR_exit_group <> NULL ->
  Z.of_nat (length es) <= INT_MAX ->
  let st0 := snd (init_function NR_syscalls MY_CUSTOM_SYSCALL __NR_exit_group
                    (boot_state sct)) in
  let run := run_events NR_syscalls REQUEST_SYSCALL_INTERCEPT
               REQUEST_SYSCALL_RELEASE REQUEST_START_MONITORING
               REQUEST_STOP_MONITORING es st0 in
  (forall st', run = Done st' -> ok (Z.of_nat (length es)) st') /\
  (Forall (event_safe NR_syscalls) es -> exists st', run = Done st').
Proof.
  intros Hexit Hlen st0 run. pose proof (init_function_ok sct Hexit) as Hok.
  fold st0 in Hok. split.
  - intros st' Hrun. apply (run_events_ok es 0 st0 st'); auto.
  - intros Hsafe. apply (run_events_defined es 0 st0); auto.
Qed.

(** X26: in every state a run from start-up reaches, an operation in
    mode 2 has an empty list, so [interceptor] logs its call for every
    caller: since [request_stop_monitoring] leaves mode 2 when it lists a
    pid, no pid is ever excluded from an operation monitored for all. *)
Theorem mode_all_logs_every_caller
    (invoke : fptr -> pt_regs -> Z) (sct : Z -> fptr) (es : list event)
    (st' : kstate) (caller : env) (reg : pt_regs) :
  sct __NR_exit_group <> NULL ->
  Z.of_nat (length es) <= INT_MAX ->
  run_events NR_syscalls REQUEST_SYSCALL_INTERCEPT REQUEST_SYSCALL_RELEASE
    REQUEST_START_MONITORING REQUEST_STOP_MONITORING es
    (snd (init_function NR_syscalls MY_CUSTOM_SYSCALL __NR_exit_group
            (boot_state sct))) = Done st' ->
  0 <= ax reg < NR_syscalls ->
  monitored (table st' (ax reg)) = 2 ->
  f (table st' (ax reg)) <> NULL ->
  my_list (table st' (ax reg)) = Head [] /\
  interceptor invoke caller reg st'
  = Done (Some (log_message (current_pid caller) reg),
          invoke (f (table st' (ax reg))) reg).
Proof.
  intros Hexit Hlen Hrun Hax Hmode Hf.
  pose proof (init_function_ok sct Hexit) as Hok.
  apply (run_events_ok es 0 _ st' Hok) in Hrun; [|lia].
  destruct Hrun as [_ Hall].
  destruct (Hall (ax reg) Hax) as (l & Hl & _ & _ & _ & Hm & _).
  assert (Hnil : l = []).
  { destruct Hm as [[H0 _]|[[H1 _]|[_ Hnil]]]; [lia | lia | exact Hnil]. }
  subst l. split; [exact Hl|].
  rewrite (interceptor_run invoke caller reg st' [] Hl Hf), Hmode.
  reflexivity.
Qed.

(** ** A process exits, in a run of the module *)

(** An entry without a list keeps none: every command that would walk it
    faults instead of returning. *)
Lemma my_syscall_keeps_uninit (ev : env) (cmd s : Z) (pid : pid_t)
    (st st' : kstate) (r : Z) :
  control ev cmd s pid st = Done (r, st') ->
  my_list (table st s) = Uninit ->
  my_list (table st' s) = Uninit.
Proof.
  intros H Hu. unfold my_syscall in H.
  destruct ((s <=? 0) || (s >? NR_syscalls)).
  { now injection H as <- <-. }
  destruct (cmd =? REQUEST_SYSCALL_INTERCEPT).
  { unfold request_syscall_intercept in H.
    destruct (negb (current_uid ev =? 0)); [now injection H as <- <-|].
    destruct (intercepted (table st s) =? 1); injection H as <- <-;
      [exact Hu|].
    cbn [table]. now rewrite upd_same. }
  destruct (cmd =? REQUEST_SYSCALL_RELEASE).
  { unfold request_syscall_release in H.
    destruct (negb (current_uid ev =? 0)); [now injection H as <- <-|].
    destruct (intercepted (table st s) =? 0); injection H as <- <-;
      [exact Hu|].
    cbn [table]. now rewrite upd_same. }
  assert (Hadd : forall r0 st0,
    (hasPid <- check_pid_monitored s pid (table st) ;;
     '(status, t') <- (if negb (hasPid =? 0) then Done (- EBUSY, table st)
                       else add_pid_sysc ev pid s (table st)) ;;
     Done (status,
           set_table st
             (if status =? 0
              then upd t' s (set_monitored (t' s) 1) else t')))
    = Done (r0, st0) -> False).
  { intros r0 st0 Hrun. apply add_branch_effect in Hrun as (l & Hl & _).
    congruence. }
  assert (Hdel : forall r0 st0,
    ('(status, t') <- del_pid_sysc pid s (table st) ;;
     Done (status, set_table st t')) = Done (r0, st0) -> False).
  { intros r0 st0 Hrun. apply del_branch_effect in Hrun as (l & Hl & _).
    congruence. }
  assert (Hdestroy : destroy_list s (table st) = Oops).
  { unfold destroy_list. now rewrite Hu. }
  destruct (cmd =? REQUEST_START_MONITORING).
  { destruct (pid_invalid ev pid); [now injection H as <- <-|].
    unfold request_start_monitoring in H.
    destruct (monitoring_denied ev pid) as [[|]|]; cbn [bind] in H;
      [now injection H as <- <- | | discriminate].
    destruct (pid =? 0).
    - destruct (monitored (table st s) =? 2); [now injection H as <- <-|].
      rewrite Hdestroy in H. discriminate.
    - destruct (negb (monitored (table st s) =? 2));
        exfalso; eauto. }
  destruct (cmd =? REQUEST_STOP_MONITORING); [|now injection H as <- <-].
  destruct (pid_invalid ev pid); [now injection H as <- <-|].
  unfold request_stop_monitoring in H.
  destruct (monitoring_denied ev pid) as [[|]|]; cbn [bind] in H;
    [now injection H as <- <- | | discriminate].
  destruct (pid =? 0).
  - destruct (negb (monitored (table st s) =? 2)); [now injection H as <- <-|].
    rewrite Hdestroy in H. discriminate.
  - destruct (monitored (table st s) =? 2); exfalso; eauto.
Qed.

(** The outer loop of [del_pid] writes the entries it visits and no
    other. *)
Lemma del_pid_loop_outside (pid : pid_t) (n : nat) (s : Z)
    (t t' : Z -> mytable) (i i' : Z) :
  del_pid_loop pid n s t i = Done (t', i') ->
  forall j, ~ (s <= j < s + Z.of_nat n) -> t' j = t j.
Proof.
  revert s t i. induction n as [|n IH]; intros s t i; cbn [del_pid_loop].
  - intros H j _. now injection H as <- _.
  - destruct (del_pid_entry pid (t s) i) as [[e1 i1]|]; [|discriminate].
    cbn [bind]. intros Hrun j Hj.
    rewrite (IH _ _ _ Hrun) by lia. apply upd_other. lia.
Qed.

(** What no event changes: the saved exit handler, the lists of the
    entries outside [1 .. NR_syscalls], and the absence of a list in
    entry [NR_syscalls]. *)
Lemma run_event_outside (e : event) (st st' : kstate) :
  run_event NR_syscalls REQUEST_SYSCALL_INTERCEPT REQUEST_SYSCALL_RELEASE
    REQUEST_START_MONITORING REQUEST_STOP_MONITORING e st = Done st' ->
  orig_exit_group st' = orig_exit_group st /\
  (forall j, j <= 0 \/ NR_syscalls < j ->
     my_list (table st' j) = my_list (table st j)) /\
  (my_list (table st NR_syscalls) = Uninit ->
   my_list (table st' NR_syscalls) = Uninit).
Proof.
  destruct e as [ev cmd s pid|ev status]; cbn [run_event].
  - destruct (control ev cmd s pid st) as [[r st1]|] eqn:Hrun; [|discriminate].
    cbn [bind]. intros H. injection H as <-.
    pose proof (my_syscall_effect _ _ _ _ _ _ _ _ _ _ _ _ Hrun)
      as [(_ & _ & _ & Ho & Hframe & _) _].
    split; [exact Ho|]. split.
    + intros j Hj. destruct (Z.eq_dec j s) as [->|Hne].
      * rewrite my_syscall_out_of_range in Hrun by lia.
        now injection Hrun as _ <-.
      * now destruct (Hframe j Hne) as [-> _].
    + intros Hu. destruct (Z.eq_dec s NR_syscalls) as [Hs|Hne].
      * subst s. exact (my_syscall_keeps_uninit _ _ _ _ _ _ _ Hrun Hu).
      * destruct (Hframe NR_syscalls) as [-> _]; [congruence | exact Hu].
  - unfold my_exit_group, del_pid.
    destruct (del_pid_loop (current_pid ev) (Z.to_nat (NR_syscalls - 1)) 1
                (table st) 0) as [[t1 i1]|] eqn:Hloop; [|discriminate].
    cbn [bind].
    pose proof (del_pid_loop_outside _ _ _ _ _ _ _ Hloop) as Hout.
    destruct (orig_exit_group st) eqn:Horig; [discriminate | ..];
      intros H; injection H as <-; cbn [orig_exit_group table set_table];
      (split; [exact Horig|]); (split; [intros j Hj | intros Hu]);
      rewrite Hout by lia; reflexivity || exact Hu.
Qed.

Lemma run_events_outside (es : list event) (st st' : kstate) :
  run_events NR_syscalls REQUEST_SYSCALL_INTERCEPT REQUEST_SYSCALL_RELEASE
    REQUEST_START_MONITORING REQUEST_STOP_MONITORING es st = Done st' ->
  orig_exit_group st' = orig_exit_group st /\
  (forall j, j <= 0 \/ NR_syscalls < j ->
     my_list (table st' j) = my_list (table st j)) /\
  (my_list (table st NR_syscalls) = Uninit ->
   my_list (table st' NR_syscalls) = Uninit).
Proof.
  revert st. induction es as [|e rest IH]; intros st; cbn [run_events].
  - intros H. injection H as <-. auto.
  - destruct (run_event _ _ _ _ _ e st) as [st1|] eqn:He; [|discriminate].
    cbn [bind]. intros Hrun.
    apply run_event_outside in He as (Ho1 & Hl1 & Hu1).
    apply IH in Hrun as (Ho2 & Hl2 & Hu2).
    split; [congruence|]. split.
    + intros j Hj. rewrite Hl2, Hl1; auto.
    + auto.
Qed.

(** C4: in every state a run of the module reaches from start-up,
    [my_exit_group] returns by calling the kernel's exit handler with the
    status it was given, and by then the caller's pid is on no list: the
    entries 1 to [NR_syscalls - 1], which [del_pid] walks, answer 0 to
    [check_pid_monitored], with mode 1 reset to 0 where the count came
    down to 0 and every other mode kept; the entry of the largest
    identifier, [NR_syscalls], has no list for a pid to be on, and no
    entry outside this range has a member. *)
Theorem exit_group_purges_caller
    (sct : Z -> fptr) (es : list event) (st : kstate)
    (ev : env) (status : Z) :
  sct __NR_exit_group <> NULL ->
  MY_CUSTOM_SYSCALL <> __NR_exit_group ->
  Z.of_nat (length es) <= INT_MAX ->
  run_events NR_syscalls REQUEST_SYSCALL_INTERCEPT REQUEST_SYSCALL_RELEASE
    REQUEST_START_MONITORING REQUEST_STOP_MONITORING es
    (snd (init_function NR_syscalls MY_CUSTOM_SYSCALL __NR_exit_group
            (boot_state sct))) = Done st ->
  exists st',
    my_exit_group NR_syscalls ev status st
    = Done (st', (sct __NR_exit_group, status)) /\
    (forall s l, my_list (table st' s) = Head l -> ~ In (current_pid ev) l) /\
    (forall s, 0 < s < NR_syscalls ->
       check_pid_monitored s (current_pid ev) (table st') = Done 0 /\
       monitored (table st' s)
       = if (listcount (table st' s) =? 0) && (monitored (table st s) =? 1)
         then 0 else monitored (table st s)) /\
    my_list (table st' NR_syscalls) = Uninit.
Proof.
  intros Hexit Hdiff Hlen Hrun.
  set (st0 := snd (init_function NR_syscalls MY_CUSTOM_SYSCALL __NR_exit_group
                     (boot_state sct))) in *.
  pose proof (init_function_ok sct Hexit) as Hok0. fold st0 in Hok0.
  destruct (init_function_state NR_syscalls MY_CUSTOM_SYSCALL __NR_exit_group
              (boot_state sct)) as (_ & Hin0 & Hout0).
  fold st0 in Hin0, Hout0.
  pose proof (run_events_outside es st0 st Hrun) as (Ho & Hkeep & Hlast).
  apply (run_events_ok es 0 st0 st Hok0) in Hrun; [|lia].
  rewrite Z.add_0_l in Hrun.
  assert (Horig : orig_exit_group st = sct __NR_exit_group).
  { rewrite Ho. cbn. apply upd_other. auto. }
  assert (Hnone : forall j, ~ (1 <= j < NR_syscalls) ->
            forall l, my_list (table st j) = Head l -> l = []).
  { intros j Hj l Hl.
    destruct (Z.eq_dec j NR_syscalls) as [->|Hne].
    - rewrite Hlast in Hl; [discriminate|].
      now rewrite Hout0 by lia.
    - rewrite Hkeep in Hl by lia.
      destruct (Z.eq_dec j 0) as [->|Hj0].
      + destruct (Z_lt_dec 0 NR_syscalls) as [Hpos|Hpos].
        * rewrite Hin0 in Hl by lia. now injection Hl as <-.
        * rewrite Hout0 in Hl by lia. discriminate.
      + rewrite Hout0 in Hl by lia. discriminate. }
  destruct (del_pid_entries NR_syscalls (current_pid ev) (table st))
    as (r & t' & Hdel & Hin & Hout).
  { intros j Hj. apply (ok_lists_initialised _ st Hrun). lia. }
  exists (set_table st t'). cbn [table set_table].
  split; [|split; [|split]].
  - unfold my_exit_group. rewrite Hdel. cbn [bind]. rewrite Horig.
    destruct (sct __NR_exit_group); [contradiction | reflexivity ..].
  - intros s l Hl.
    destruct (Z_le_dec 1 s) as [H1|H1];
      [destruct (Z_lt_dec s NR_syscalls) as [H2|H2]|].
    + destruct (Hin s ltac:(lia)) as (i0 & i1 & He).
      apply del_pid_entry_list in He as (l0 & _ & Hl0 & _).
      rewrite Hl0 in Hl. injection Hl as <-.
      apply filter_other_than_absent.
    + rewrite Hout in Hl by lia. rewrite (Hnone s ltac:(lia) l Hl). auto.
    + rewrite Hout in Hl by lia. rewrite (Hnone s ltac:(lia) l Hl). auto.
  - intros s Hs. destruct (Hin s ltac:(lia)) as (i0 & i1 & He). split.
    + apply del_pid_entry_list in He as (l0 & _ & Hl0 & _).
      unfold check_pid_monitored. rewrite Hl0.
      pose proof (filter_other_than_absent (current_pid ev) l0) as Habs.
      apply pid_in_false in Habs. now rewrite Habs.
    + destruct Hrun as [_ Hall].
      destruct (Hall s ltac:(lia)) as (l & Hl & _ & Hc & Hk & Hm & _).
      unfold del_pid_entry in He. rewrite Hl in He.
      rewrite (del_pid_nodes_counts (current_pid ev) l (listcount (table st s))
                 (monitored (table st s)) i0 ltac:(lia) _ eq_refl) in He.
      injection He as <- _. cbn [monitored listcount].
      pose proof (filter_length_le (other_than (current_pid ev)) l) as Hle.
      set (kept := filter (other_than (current_pid ev)) l) in *.
      destruct (Z.eqb_spec (listcount (table st s)
                            - (Z.of_nat (length l) - Z.of_nat (length kept))) 0)
        as [H0|H0]; cbn [andb]; [|reflexivity].
      destruct (Z.eqb_spec (monitored (table st s)) 1) as [H1|H1];
        [|now rewrite andb_false_r].
      rewrite andb_true_r.
      replace (0 <? Z.of_nat (length l) - Z.of_nat (length kept)) with true;
        [reflexivity|].
      symmetry. apply Z.ltb_lt.
      destruct Hm as [[Hm _]|[[_ Hne]|[Hm _]]]; [lia | | lia].
      destruct l; [contradiction | cbn [length] in *; lia].
  - rewrite Hout by lia. apply Hlast. now rewrite Hout0 by lia.
Qed.

End Reachable.

(** ** Page protection *)

Section PageBits.

Variable rw_bit : Z.
Hypothesis rw_bit_nonneg : 0 <= rw_bit.

Lemma page_rw_bit (i : Z) : Z.testbit (_PAGE_RW rw_bit) i = (i =? rw_bit).
Proof.
  unfold _PAGE_RW. rewrite Z.shiftl_1_l, Z.pow2_bits_eqb by exact rw_bit_nonneg.
  apply Z.eqb_sym.
Qed.

Lemma set_addr_ro_bit (pte i : Z) :
  0 <= i ->
  Z.testbit (set_addr_ro rw_bit pte) i
  = if i =? rw_bit then false else Z.testbit pte i.
Proof.
  intros Hi. unfold set_addr_ro.
  rewrite Z.land_spec, Z.lnot_spec, page_rw_bit by exact Hi.
  destruct (i =? rw_bit); cbn [negb]; [apply andb_false_r | apply andb_true_r].
Qed.

Lemma set_addr_rw_test (pte : Z) :
  Z.land pte (Z.lnot (_PAGE_RW rw_bit)) = 0 <->
  (forall i, 0 <= i -> i <> rw_bit -> Z.testbit pte i = false).
Proof.
  split.
  - intros H0 i Hi Hne.
    pose proof (set_addr_ro_bit pte i Hi) as Hb. unfold set_addr_ro in Hb.
    rewrite H0, Z.bits_0 in Hb. apply Z.eqb_neq in Hne. now rewrite Hne in Hb.
  - intros Hall. apply Z.bits_inj'. intros i Hi.
    pose proof (set_addr_ro_bit pte i Hi) as Hb. unfold set_addr_ro in Hb.
    rewrite Hb, Z.bits_0. destruct (Z.eqb_spec i rw_bit); auto.
Qed.

(** X23: [set_addr_ro] clears the writable bit of the entry and leaves
    every other bit as it was; it keeps an entry that is not negative so,
    and doing it twice is doing it once. *)
Theorem set_addr_ro_clears_rw_only (pte : Z) :
  (forall i, 0 <= i ->
     Z.testbit (set_addr_ro rw_bit pte) i
     = if i =? rw_bit then false else Z.testbit pte i) /\
  (0 <= pte -> 0 <= set_addr_ro rw_bit pte) /\
  set_addr_ro rw_bit (set_addr_ro rw_bit pte) = set_addr_ro rw_bit pte.
Proof.
  split; [intros i Hi; now apply set_addr_ro_bit|]. split.
  - intros Hp. unfold set_addr_ro. apply Z.land_nonneg. now left.
  - apply Z.bits_inj'. intros i Hi. rewrite !set_addr_ro_bit by exact Hi.
    now destruct (i =? rw_bit).
Qed.

(** X24: [set_addr_rw] sets the writable bit, and changes no other bit,
    when the entry has some other bit set; an entry with no other bit
    set, the empty entry 0 among them, is left as it is and so is not
    made writable. *)
Theorem set_addr_rw_needs_another_bit (pte : Z) :
  ((exists i, 0 <= i /\ i <> rw_bit /\ Z.testbit pte i = true) ->
   forall i, 0 <= i ->
     Z.testbit (set_addr_rw rw_bit pte) i
     = if i =? rw_bit then true else Z.testbit pte i) /\
  ((forall i, 0 <= i -> i <> rw_bit -> Z.testbit pte i = false) ->
   set_addr_rw rw_bit pte = pte) /\
  set_addr_rw rw_bit 0 = 0.
Proof.
  unfold set_addr_rw. split; [|split].
  - intros (j & Hj & Hne & Hbit) i Hi.
    destruct (Z.eqb_spec (Z.land pte (Z.lnot (_PAGE_RW rw_bit))) 0) as [H0|H0].
    + pose proof (proj1 (set_addr_rw_test pte) H0 j Hj Hne) as Hoff.
      rewrite Hoff in Hbit. discriminate.
    + rewrite Z.lor_spec, page_rw_bit.
      destruct (i =? rw_bit); [apply orb_true_r | apply orb_false_r].
  - intros Hall. apply (proj2 (set_addr_rw_test pte)) in Hall.
    now rewrite Hall.
  - now rewrite Z.land_0_l.
Qed.

(** X25: clearing the writable bit after [set_addr_rw] gives what clearing
    it at once gives; so on an entry that was read-only, [set_addr_rw]
    followed by [set_addr_ro] gives back the entry. *)
Theorem set_addr_rw_ro_round_trip (pte : Z) :
  set_addr_ro rw_bit (set_addr_rw rw_bit pte) = set_addr_ro rw_bit pte /\
  (Z.testbit pte rw_bit = false ->
   set_addr_ro rw_bit (set_addr_rw rw_bit pte) = pte).
Proof.
  assert (Hsame : set_addr_ro rw_bit (set_addr_rw rw_bit pte)
                  = set_addr_ro rw_bit pte).
  { unfold set_addr_rw.
    destruct (Z.land pte (Z.lnot (_PAGE_RW rw_bit)) =? 0); [reflexivity|].
    apply Z.bits_inj'. intros i Hi. rewrite !set_addr_ro_bit by exact Hi.
    rewrite Z.lor_spec, page_rw_bit.
    destruct (i =? rw_bit); [reflexivity | apply orb_false_r]. }
  split; [exact Hsame|].
  intros Hro. rewrite Hsame. apply Z.bits_inj'. intros i Hi.
  rewrite set_addr_ro_bit by exact Hi.
  destruct (Z.eqb_spec i rw_bit) as [->|Hne]; [now symmetry | reflexivity].
Qed.

End PageBits.

(** * The further properties on the small configuration *)

Ltac entries_1_to_7 :=
  let j := fresh "j" in
  let Hj := fresh "Hj" in
  let Hc := fresh "Hc" in
  intros j Hj;
  assert (Hc : j = 1 \/ j = 2 \/ j = 3 \/ j = 4 \/ j = 5 \/ j = 6 \/ j = 7)
    by lia;
  repeat (destruct Hc as [->|Hc]; [vm_compute; discriminate|]);
  subst j; vm_compute; discriminate.

Lemma my_syscall_failure_leaves_state_witness :
  set_table demo_some (table demo_some) = demo_some.
Proof.
  apply (my_syscall_failure_leaves_state 8 1 2 3 4 demo_root 3 5 42
           demo_some _ (- EBUSY)).
  - reflexivity.
  - discriminate.
Defined.

Lemma my_syscall_status_codes_witness :
  (- EPERM = 0 \/ - EPERM = - EPERM \/ - EPERM = - EBUSY \/
   - EPERM = - EINVAL \/ - EPERM = - ENOMEM) /\
  (kmalloc_ok demo_user = true -> - EPERM <> - ENOMEM).
Proof.
  apply (my_syscall_status_codes 8 1 2 3 4 demo_user 3 5 43 demo_boot
           demo_boot (- EPERM)).
  reflexivity.
Defined.

Lemma my_syscall_touches_one_entry_witness :
  orig_custom_syscall demo_intercepted = orig_custom_syscall demo_boot /\
  orig_exit_group demo_intercepted = orig_exit_group demo_boot /\
  (forall j, j <> 5 ->
     table demo_intercepted j = table demo_boot j /\
     sys_call_table demo_intercepted j = sys_call_table demo_boot j) /\
  (forall j, f (table demo_intercepted j) = f (table demo_boot j)).
Proof.
  apply (my_syscall_touches_one_entry 8 1 2 3 4 demo_root 1 5 0 demo_boot
           demo_intercepted 0).
  reflexivity.
Defined.

Lemma my_syscall_patching_is_privileged_witness :
  sys_call_table demo_some = sys_call_table demo_intercepted /\
  forall j, intercepted (table demo_some j)
            = intercepted (table demo_intercepted j).
Proof.
  apply (my_syscall_patching_is_privileged 8 1 2 3 4 demo_root 3 5 42
           demo_intercepted demo_some 0).
  - reflexivity.
  - right. split; discriminate.
Defined.

Lemma my_syscall_dead_pid_witness :
  demo_control demo_user 3 5 77 demo_boot = Done (- EINVAL, demo_boot).
Proof.
  apply (my_syscall_dead_pid 8 1 2 3 4 demo_user 3 5 77 demo_boot).
  - lia.
  - discriminate.
  - discriminate.
  - now left.
  - discriminate.
  - reflexivity.
Defined.

Lemma intercept_release_repeated_witness :
  request_syscall_intercept demo_root 5 demo_intercepted
  = Done (- EBUSY, demo_intercepted).
Proof.
  apply (proj1 (intercept_release_repeated demo_root 5 demo_boot
                  demo_intercepted 0 eq_refl)).
  reflexivity.
Defined.

Lemma intercept_release_round_trip_witness :
  exists st1 st2,
    request_syscall_intercept demo_root 5 demo_monitored = Done (0, st1) /\
    request_syscall_release demo_root 5 st1 = Done (0, st2) /\
    sys_call_table st1 5 = fn_interceptor /\
    (forall j, sys_call_table st2 j = sys_call_table demo_monitored j) /\
    (forall j, table st2 j = table demo_monitored j).
Proof.
  destruct (intercept_release_round_trip demo_root 5 demo_monitored
              eq_refl eq_refl eq_refl)
    as (st1 & st2 & H1 & H2 & H3 & _ & H5 & H6 & _).
  exists st1, st2. auto.
Defined.

Lemma start_monitoring_all_logs_everyone_witness :
  exists st',
    request_start_monitoring demo_root 5 0 demo_intercepted = Done (0, st') /\
    monitored (table st' 5) = 2 /\
    my_list (table st' 5) = Head [] /\
    interceptor demo_invoke demo_user demo_regs st'
    = Done (Some (log_message 42 demo_regs),
            demo_invoke (kernel_fn 5) demo_regs) /\
    request_start_monitoring demo_root 5 0 st' = Done (- EBUSY, st').
Proof.
  destruct (start_monitoring_all_logs_everyone demo_invoke demo_root 5
              demo_intercepted [] eq_refl)
    as (st' & H1 & H2 & _ & H4 & H5 & H6).
  - discriminate.
  - reflexivity.
  - vm_compute. discriminate.
  - exists st'. repeat split; try assumption.
    exact (H5 demo_user demo_regs eq_refl).
Defined.

Lemma stop_monitoring_all_silences_witness :
  exists st',
    request_stop_monitoring demo_root 5 0 demo_all = Done (0, st') /\
    monitored (table st' 5) = 0 /\
    my_list (table st' 5) = Head [] /\
    interceptor demo_invoke demo_user demo_regs st'
    = Done (None, demo_invoke (kernel_fn 5) demo_regs) /\
    request_stop_monitoring demo_root 5 0 st' = Done (- EINVAL, st').
Proof.
  destruct (stop_monitoring_all_silences demo_invoke demo_root 5 demo_all []
              eq_refl eq_refl eq_refl)
    as (st' & H1 & H2 & _ & H4 & H5 & H6).
  - vm_compute. discriminate.
  - exists st'. repeat split; try assumption.
    exact (H5 demo_user demo_regs eq_refl).
Defined.

Lemma start_monitoring_pid_logs_listed_witness :
  request_start_monitoring demo_root 5 42 demo_some = Done (- EBUSY, demo_some)
  /\
  exists st',
    request_start_monitoring demo_root 5 43 demo_some = Done (0, st') /\
    my_list (table st' 5) = Head [43; 42] /\
    monitored (table st' 5) = 1.
Proof.
  split.
  - apply (proj1 (start_monitoring_pid_logs_listed demo_invoke demo_root 5 42
                    demo_some [42] eq_refl ltac:(discriminate)
                    ltac:(discriminate) eq_refl
                    ltac:(vm_compute; discriminate))).
    simpl. now left.
  - destruct (start_monitoring_pid_logs_listed demo_invoke demo_root 5 43
                demo_some [42] eq_refl ltac:(discriminate)
                ltac:(discriminate) eq_refl ltac:(vm_compute; discriminate))
      as (_ & _ & Hadd).
    destruct Hadd as (st' & H1 & H2 & H3 & _).
    + simpl. intros [H|[]]. discriminate.
    + reflexivity.
    + exists st'. auto.
Defined.

Lemma start_monitoring_readmits_witness :
  request_start_monitoring demo_user 5 42 demo_all = Done (- EINVAL, demo_all)
  /\
  exists st' l',
    request_start_monitoring demo_user 5 42 demo_excluded = Done (0, st') /\
    my_list (table st' 5) = Head l' /\
    monitored (table st' 5) = 2 /\
    ~ In 42 l' /\
    interceptor demo_invoke demo_user demo_regs st'
    = Done (Some (log_message 42 demo_regs),
            demo_invoke (kernel_fn 5) demo_regs).
Proof.
  split.
  - apply (proj1 (start_monitoring_readmits demo_invoke demo_user 5 42
                    demo_all [] eq_refl ltac:(discriminate) eq_refl eq_refl
                    (NoDup_nil _) ltac:(vm_compute; discriminate))).
    simpl. tauto.
  - destruct (start_monitoring_readmits demo_invoke demo_user 5 42
                demo_excluded [42] eq_refl ltac:(discriminate) eq_refl
                eq_refl) as (_ & Hin).
    + repeat constructor. simpl. tauto.
    + vm_compute. discriminate.
    + destruct Hin as (st' & l' & H1 & H2 & H3 & H4 & _ & H6);
        [simpl; now left|].
      exists st', l'. repeat split; try assumption.
      exact (H6 demo_user demo_regs eq_refl eq_refl).
Defined.

Lemma stop_monitoring_pid_silences_witness :
  request_stop_monitoring demo_root 5 43 demo_some = Done (- EINVAL, demo_some)
  /\
  exists st' l',
    request_stop_monitoring demo_user 5 42 demo_some = Done (0, st') /\
    my_list (table st' 5) = Head l' /\
    ~ In 42 l' /\
    interceptor demo_invoke demo_user demo_regs st'
    = Done (None, demo_invoke (kernel_fn 5) demo_regs).
Proof.
  assert (Hnd : NoDup [42]) by (repeat constructor; simpl; tauto).
  split.
  - apply (proj1 (stop_monitoring_pid_silences demo_invoke demo_root 5 43
                    demo_some [42] eq_refl ltac:(discriminate)
                    ltac:(discriminate) eq_refl Hnd
                    ltac:(vm_compute; discriminate))).
    simpl. intros [H|[]]. discriminate.
  - destruct (stop_monitoring_pid_silences demo_invoke demo_user 5 42
                demo_some [42] eq_refl ltac:(discriminate)
                ltac:(discriminate) eq_refl Hnd
                ltac:(vm_compute; discriminate)) as (_ & Hin).
    destruct Hin as (st' & l' & H1 & H2 & H3 & _ & H5); [simpl; now left|].
    exists st', l'. repeat split; try assumption.
    exact (H5 demo_user demo_regs eq_refl eq_refl).
Defined.

Lemma start_stop_round_trip_witness :
  exists st1 st2,
    request_start_monitoring demo_user 5 42 demo_intercepted = Done (0, st1) /\
    request_stop_monitoring demo_user 5 42 st1 = Done (0, st2) /\
    (forall j, table st2 j = table demo_intercepted j) /\
    sys_call_table st2 = sys_call_table demo_intercepted.
Proof.
  destruct (start_stop_round_trip demo_user 5 42 demo_intercepted []
              eq_refl ltac:(discriminate) eq_refl eq_refl)
    as (st1 & st2 & H1 & H2 & H3 & H4 & _).
  - simpl. tauto.
  - reflexivity.
  - reflexivity.
  - left. split; reflexivity.
  - exists st1, st2. auto.
Defined.

Lemma add_del_round_trip_witness :
  exists t1 t2,
    add_pid_sysc demo_root 42 5 (table demo_boot) = Done (0, t1) /\
    check_pid_monitored 5 42 t1 = Done 1 /\
    del_pid_sysc 42 5 t1 = Done (0, t2) /\
    forall j, t2 j = table demo_boot j.
Proof.
  apply (add_del_round_trip demo_root 42 5 (table demo_boot) []).
  - reflexivity.
  - reflexivity.
  - vm_compute. split; discriminate.
  - intros [_ H]. vm_compute in H. discriminate.
Defined.


Lemma del_pid_return_value_witness :
  exists r t',
    del_pid 8 42 (table demo_some) = Done (r, t') /\
    ((r = 0 /\
      exists j l, 1 <= j < 8 /\ my_list (table demo_some j) = Head l /\
                  In 42 l)
     \/
     (r = -1 /\
      (forall j l, 1 <= j < 8 -> my_list (table demo_some j) = Head l ->
                   ~ In 42 l) /\
      forall j, t' j = table demo_some j)).
Proof.
  apply (del_pid_return_value 8 42 (table demo_some)). entries_1_to_7.
Defined.

Lemma my_exit_group_keeps_the_rest_witness :
  exists st',
    my_exit_group 8 demo_user 0 demo_some = Done (st', (kernel_fn 4, 0)) /\
    sys_call_table st' = sys_call_table demo_some /\
    (forall j, f (table st' j) = f (table demo_some j) /\
               intercepted (table st' j) = intercepted (table demo_some j)).
Proof.
  destruct (my_exit_group_keeps_the_rest 8 demo_user 0 demo_some)
    as (st' & H1 & H2 & _ & _ & H5 & _).
  - entries_1_to_7.
  - vm_compute. discriminate.
  - exists st'. auto.
Defined.


Lemma init_function_captures_witness :
  orig_custom_syscall demo_boot = kernel_fn 0 /\
  orig_exit_group demo_boot = kernel_fn 4 /\
  sys_call_table demo_boot 0 = fn_my_syscall /\
  sys_call_table demo_boot 4 = fn_my_exit_group /\
  (forall j, j <> 0 -> j <> 4 -> sys_call_table demo_boot j = kernel_fn j) /\
  (forall j, 0 <= j < 8 ->
     table demo_boot j
     = mk_mytable (sys_call_table demo_boot j) 0 0 0 (Head [])).
Proof.
  apply (init_function_captures 8 0 4 kernel_fn). discriminate.
Defined.

Lemma init_exit_round_trip_witness :
  sys_call_table (exit_function 0 4 demo_boot) 0 = kernel_fn 0 /\
  sys_call_table (exit_function 0 4 demo_boot) 4 = kernel_fn 4 /\
  sys_call_table (exit_function 0 4 demo_boot) 5 = kernel_fn 5.
Proof.
  pose proof (init_exit_round_trip 8 0 4 (boot_state kernel_fn)
                ltac:(discriminate)) as Hback.
  exact (conj (Hback 0) (conj (Hback 4) (Hback 5))).
Defined.

Lemma exit_function_keeps_interception_witness :
  exists st1,
    request_syscall_intercept demo_root 5 demo_boot = Done (0, st1) /\
    sys_call_table (exit_function 0 4 st1) 5 = fn_interceptor /\
    intercepted (table (exit_function 0 4 st1) 5) = 1.
Proof.
  apply (exit_function_keeps_interception 0 4 demo_root 5 demo_boot).
  - reflexivity.
  - vm_compute. discriminate.
  - discriminate.
  - discriminate.
Defined.

Lemma reachable_states_consistent_witness :
  exists st',
    run_events 8 1 2 3 4 demo_events demo_boot = Done st' /\
    state_ok 8 5 st'.
Proof.
  destruct (reachable_states_consistent 8 0 4 1 2 3 4 kernel_fn demo_events)
    as [Hok Hrun].
  - discriminate.
  - vm_compute. discriminate.
  - destruct Hrun as (st' & Hst').
    + repeat constructor; vm_compute; discriminate.
    + exists st'. split; [exact Hst' | now apply Hok].
Defined.

Lemma set_addr_ro_clears_rw_only_witness :
  (forall i, 0 <= i ->
     Z.testbit (set_addr_ro 1 99) i
     = if i =? 1 then false else Z.testbit 99 i) /\
  (0 <= 99 -> 0 <= set_addr_ro 1 99) /\
  set_addr_ro 1 (set_addr_ro 1 99) = set_addr_ro 1 99.
Proof.
  apply (set_addr_ro_clears_rw_only 1). lia.
Defined.

Lemma set_addr_rw_needs_another_bit_witness :
  (forall i, 0 <= i ->
     Z.testbit (set_addr_rw 1 97) i
     = if i =? 1 then true else Z.testbit 97 i) /\
  set_addr_rw 1 0 = 0.
Proof.
  destruct (set_addr_rw_needs_another_bit 1 ltac:(lia) 97) as (Hset & _ & H0).
  split; [|exact H0].
  apply Hset. exists 0. repeat split; [lia | discriminate].
Defined.

Lemma set_addr_rw_ro_round_trip_witness :
  set_addr_ro 1 (set_addr_rw 1 97) = 97.
Proof.
  apply (proj2 (set_addr_rw_ro_round_trip 1 ltac:(lia) 97)). reflexivity.
Defined.

Lemma mode_all_logs_every_caller_witness :
  my_list (table demo_all 5) = Head [] /\
  interceptor demo_invoke demo_user demo_regs demo_all
  = Done (Some (log_message 42 demo_regs),
          demo_invoke (f (table demo_all 5)) demo_regs).
Proof.
  apply (mode_all_logs_every_caller 8 0 4 1 2 3 4 demo_invoke kernel_fn
           [ev_syscall demo_root 1 5 0; ev_syscall demo_root 3 5 0]
           demo_all demo_user demo_regs).
  - discriminate.
  - vm_compute. discriminate.
  - reflexivity.
  - simpl. lia.
  - reflexivity.
  - vm_compute. discriminate.
Defined.

Lemma last_member_resets_mode_some_only_witness :
  (exists t1 t2,
     del_pid_sysc 42 5 (table demo_some) = Done (0, t1) /\
     del_pid 8 42 (table demo_some) = Done (0, t2) /\
     my_list (t1 5) = Head [] /\ my_list (t2 5) = Head [] /\
     monitored (t1 5) = 0 /\ monitored (t2 5) = 0 /\
     interceptor demo_invoke demo_user demo_regs (set_table demo_some t1)
     = Done (None, 510) /\
     interceptor demo_invoke demo_user demo_regs (set_table demo_some t2)
     = Done (None, 510))
  /\
  (exists t1 t2,
     del_pid_sysc 42 5 (table demo_excluded) = Done (0, t1) /\
     del_pid 8 42 (table demo_excluded) = Done (0, t2) /\
     my_list (t1 5) = Head [] /\ my_list (t2 5) = Head [] /\
     monitored (t1 5) = 2 /\ monitored (t2 5) = 2 /\
     interceptor demo_invoke demo_user demo_regs (set_table demo_excluded t1)
     = Done (Some (log_message 42 demo_regs), 510) /\
     interceptor demo_invoke demo_user demo_regs (set_table demo_excluded t2)
     = Done (Some (log_message 42 demo_regs), 510)).
Proof.
  split.
  - destruct (last_member_resets_mode_some_only 8 demo_invoke 42 5 demo_some)
      as [(t1 & Hrun1 & Hl1 & _ & Hm1 & Hi1) Hdel];
      [reflexivity | reflexivity |].
    destruct Hdel as (t2 & Hrun2 & Hl2 & _ & Hm2 & Hi2);
      [lia | entries_1_to_7 |].
    exists t1, t2.
    assert (Hf : f (table demo_some 5) <> NULL) by (vm_compute; discriminate).
    pose proof (Hi1 Hf demo_user demo_regs eq_refl) as Hlog1.
    pose proof (Hi2 Hf demo_user demo_regs eq_refl) as Hlog2.
    repeat split; assumption.
  - destruct (last_member_resets_mode_some_only 8 demo_invoke 42 5
                demo_excluded)
      as [(t1 & Hrun1 & Hl1 & _ & Hm1 & Hi1) Hdel];
      [reflexivity | reflexivity |].
    destruct Hdel as (t2 & Hrun2 & Hl2 & _ & Hm2 & Hi2);
      [lia | entries_1_to_7 |].
    exists t1, t2.
    assert (Hf : f (table demo_excluded 5) <> NULL)
      by (vm_compute; discriminate).
    pose proof (Hi1 Hf demo_user demo_regs eq_refl) as Hlog1.
    pose proof (Hi2 Hf demo_user demo_regs eq_refl) as Hlog2.
    repeat split; assumption.
Defined.

Lemma exit_group_purges_caller_witness :
  check_pid_monitored 5 42 (table demo_two_lists) = Done 1 /\
  check_pid_monitored 3 42 (table demo_two_lists) = Done 1 /\
  exists st',
    my_exit_group 8 demo_user 0 demo_two_lists
    = Done (st', (kernel_fn 4, 0)) /\
    (forall s l, my_list (table st' s) = Head l -> ~ In 42 l) /\
    (forall s, 0 < s < 8 ->
       check_pid_monitored s 42 (table st') = Done 0 /\
       monitored (table st' s)
       = if (listcount (table st' s) =? 0)
            && (monitored (table demo_two_lists s) =? 1)
         then 0 else monitored (table demo_two_lists s)) /\
    my_list (table st' 8) = Uninit.
Proof.
  split; [reflexivity|]. split; [reflexivity|].
  apply (exit_group_purges_caller 8 0 4 1 2 3 4 kernel_fn
           [ ev_syscall demo_root 1 5 0; ev_syscall demo_root 3 5 42;
             ev_syscall demo_root 3 3 42; ev_syscall demo_root 3 3 43 ]
           demo_two_lists demo_user 0).
  - discriminate.
  - lia.
  - vm_compute. discriminate.
  - reflexivity.
Defined.
